(** * buildozer/targets/android.py: the Android target

    A shallow embedding of the install / version-resolution workflow of
    [TargetAndroid] and of its device-serial and signing helpers, with the
    properties stated about them.

    Layout:
    - [Py]: the Python built-ins the module relies on ([str] methods,
      [==] on stored values, [sorted], [max]);
    - [result], [M]: exceptions and the state the methods thread through;
    - [BuildOps], [VersionLib]: the collaborators that are not part of the
      module ([buildozer.buildops], [os], [buildozer.libs.version]);
    - [Reading]: the two reads that the module makes without a handler
      (the iteration over the recommendations file, [os.listdir]), with
      their failures; [reliable] is a machine on which they do not fail;
    - [Android]: the methods of [TargetAndroid], one definition each
      (the longer ones cut at the comments that divide them in the source);
    - [Sim]: a small concrete host used to run the methods;
    - the notions the statements are written with, and the machines and
      projects the methods are run on ([Lab] adds directory listings,
      [Disk] files that can be written);
    - [Pyx], [FileStore], [Packaging]: what [_update_libraries_references]
      and the AndroidX default of [build_package] need on top;
    - the lemmas on runs, then the properties, by topic.

    Assumptions of the model.  The iteration over the recommendations
    file and [os.listdir] can raise; the methods are written for any
    [Reading].  A statement made for a [BuildOps] machine alone is about
    a [reliable] one: there a file that [os.path.isfile] accepts is
    opened and read to its end as text, and a folder that exists is
    listed.  The statements about the recommended NDK version and about
    [_read_version_subdir] themselves are made for any [Reading].  A
    child process started by [cmd_expect] exits after finitely many
    prompts.  The persisted store
    [buildozer.state] is written by this module only; [sync] does not
    fail.  [check_requirements] has set [adb_executable] and [adb_args].
    A project file that [buildops.file_exists] accepts can be read.

    Python [str] values are modelled by Rocq strings, i.e. sequences of
    8-bit characters; the separators and digits that exist only outside
    ASCII are not represented. *)

From Stdlib Require Import ZArith Ascii String.
From stdpp Require Import base option list strings gmap pretty.

Set Warnings "-register-all".

Local Open Scope Z_scope.

(* ===================================================================== *)
(** ** Python built-ins *)
(* ===================================================================== *)

Module Py.

(** [str.startswith] *)
Definition startswith (s p : string) : bool := String.prefix p s.

(** [sub in s] *)
Fixpoint contains (sub s : string) : bool :=
  String.prefix sub s ||
  match s with
  | EmptyString => false
  | String _ t => contains sub t
  end.

(** [str.replace(old, new)] for a non-empty [old]: non-overlapping
    occurrences, leftmost first.  [skip] counts the characters of a
    matched occurrence that are still to be dropped. *)
Fixpoint replace_from (skip : nat) (old new s : string) : string :=
  match s with
  | EmptyString => EmptyString
  | String c t =>
      match skip with
      | S k => replace_from k old new t
      | O =>
          if String.prefix old s
          then new +:+ replace_from (Nat.pred (String.length old)) old new t
          else String c (replace_from O old new t)
      end
  end.

Definition replace (s old new : string) : string := replace_from O old new s.

(** characters for which [str.isspace] holds *)
Definition is_space (c : ascii) : bool :=
  let n := nat_of_ascii c in
  Nat.eqb n 32 || (Nat.leb 9 n && Nat.leb n 13) || (Nat.leb 28 n && Nat.leb n 31).

(** [str.split()] without argument: the maximal runs of non-space
    characters.  [cur] is the run being read, if any. *)
Fixpoint split_ws_go (cur : option string) (s : string) : list string :=
  match s with
  | EmptyString => match cur with Some w => [String.rev w] | None => [] end
  | String c t =>
      if is_space c
      then match cur with
           | Some w => String.rev w :: split_ws_go None t
           | None => split_ws_go None t
           end
      else split_ws_go (Some (String c (default EmptyString cur))) t
  end.

Definition split_ws (s : string) : list string := split_ws_go None s.

(** [str.split(sep)] for a one-character separator: always at least one
    field, empty fields are kept. *)
Fixpoint split_go (sep : ascii) (cur : string) (s : string) : list string :=
  match s with
  | EmptyString => [String.rev cur]
  | String c t =>
      if Ascii.eqb c sep
      then String.rev cur :: split_go sep EmptyString t
      else split_go sep (String c cur) t
  end.

Definition split (s : string) (sep : ascii) : list string :=
  split_go sep EmptyString s.

(** [str.strip()] *)
Fixpoint lstrip (s : string) : string :=
  match s with
  | EmptyString => EmptyString
  | String c t => if is_space c then lstrip t else s
  end.

Definition rstrip (s : string) : string := String.rev (lstrip (String.rev s)).
Definition strip (s : string) : string := rstrip (lstrip s).

(** [str.count(c)] for a one-character argument *)
Fixpoint count (s : string) (c : ascii) : nat :=
  match s with
  | EmptyString => O
  | String d t => (if Ascii.eqb d c then 1 else 0)%nat + count t c
  end.

(** line boundaries of [str.splitlines]; CR LF is handled by the caller *)
Definition is_linebreak (c : ascii) : bool :=
  let n := nat_of_ascii c in
  (Nat.leb 10 n && Nat.leb n 13) || (Nat.leb 28 n && Nat.leb n 30).

(** [str.splitlines()]: no trailing empty line, CR LF is one boundary *)
Fixpoint splitlines_go (cur : string) (s : string) : list string :=
  match s with
  | EmptyString =>
      match cur with EmptyString => [] | _ => [String.rev cur] end
  | String c t =>
      if is_linebreak c then
        match t with
        | String d u =>
            if Ascii.eqb c "013" && Ascii.eqb d "010"
            then String.rev cur :: splitlines_go EmptyString u
            else String.rev cur :: splitlines_go EmptyString t
        | EmptyString => [String.rev cur]
        end
      else splitlines_go (String c cur) t
  end.

Definition splitlines (s : string) : list string :=
  splitlines_go EmptyString s.

(** [str.join] *)
Fixpoint join (sep : string) (l : list string) : string :=
  match l with
  | [] => EmptyString
  | [x] => x
  | x :: r => x +:+ sep +:+ join sep r
  end.

(** ASCII decimal digits, and [int] of a string of digits *)
Definition is_digit (c : ascii) : bool :=
  let n := nat_of_ascii c in Nat.leb 48 n && Nat.leb n 57.

Fixpoint take_digits (s : string) : string :=
  match s with
  | EmptyString => EmptyString
  | String c t => if is_digit c then String c (take_digits t) else EmptyString
  end.

(** [re.search(r'(\d+)', s)] followed by [.group(1)]: the first maximal
    run of digits, [None] when [s] has no digit. *)
Fixpoint re_search_digits (s : string) : option string :=
  match s with
  | EmptyString => None
  | String c t => if is_digit c then Some (take_digits s) else re_search_digits t
  end.

Fixpoint int_go (acc : Z) (s : string) : Z :=
  match s with
  | EmptyString => acc
  | String c t => int_go (10 * acc + (Z.of_nat (nat_of_ascii c) - 48)) t
  end.

Definition int (s : string) : Z := int_go 0 s.

(** [s in (a, b, ...)] for strings *)
Definition among (s : string) (l : list string) : bool :=
  existsb (String.eqb s) l.

(** [str.format] with positional fields: a template is a sequence of
    literal pieces and numbered fields; a field without a matching
    argument does not occur in this module. *)
Inductive piece := Lit (s : string) | Fld (n : nat).

Fixpoint format (tpl : list piece) (args : list string) : string :=
  match tpl with
  | [] => EmptyString
  | Lit s :: r => s +:+ format r args
  | Fld n :: r => default EmptyString (args !! n) +:+ format r args
  end.

(** Values kept in the persisted state store (what JSON can hold of the
    values this module writes). *)
Inductive value :=
| VNone
| VBool (b : bool)
| VInt (n : Z)
| VStr (s : string)
| VList (l : list value).

(** [==].  [bool] is a subclass of [int] ([True == 1]); everything else
    compares by shape. *)
Fixpoint eqb (a b : value) {struct a} : bool :=
  match a, b with
  | VNone, VNone => true
  | VBool x, VBool y => Bool.eqb x y
  | VBool x, VInt n | VInt n, VBool x => Z.eqb (Z.b2z x) n
  | VInt m, VInt n => Z.eqb m n
  | VStr s, VStr t => String.eqb s t
  | VList l, VList k =>
      (fix eqb_list (l k : list value) {struct l} : bool :=
         match l, k with
         | [], [] => true
         | x :: l', y :: k' => eqb x y && eqb_list l' k'
         | _, _ => false
         end) l k
  | _, _ => false
  end.

(** [sorted] (stable insertion by [<]) and [max] (first maximal element)
    over an ordering given by its strict comparison. *)
Section Order.
Context {A : Type} (ltb : A → A → bool).

Fixpoint insert_sorted (x : A) (l : list A) : list A :=
  match l with
  | [] => [x]
  | y :: r => if ltb x y then x :: l else y :: insert_sorted x r
  end.

Definition sorted (l : list A) : list A :=
  foldl (λ acc x, insert_sorted x acc) [] l.

Definition max (l : list A) : option A :=
  match l with
  | [] => None
  | x :: r => Some (foldl (λ m y, if ltb m y then y else m) x r)
  end.
End Order.

End Py.


(* ===================================================================== *)
(** ** Exceptions, host calls and the state the methods run in *)
(* ===================================================================== *)

Inductive exn :=
| BuildozerException
| IndexError
| AttributeError
| AssertionError
| SystemError (msg : string)
| SystemExit (code : Z)
| InvalidVersion
| HostError (what : string).   (* raised inside a collaborator *)

Inductive result (A : Type) :=
| Ok (a : A)
| Raise (e : exn).
Arguments Ok {A} a.
Arguments Raise {A} e.

(** The calls that leave the module and act on the machine. *)
Inductive hostcall :=
| Makedirs (d : string)                                   (* os.makedirs *)
| Download (url archive cwd : string)                     (* buildops.download *)
| FileExtract (archive cwd : string)                      (* buildops.file_extract *)
| Rename (src dst cwd : string)                           (* buildops.rename *)
| Rmdir (d : string)                                      (* buildops.rmdir *)
| Checkbin (name path : string)                           (* buildops.checkbin *)
| Cmd (argv : list string) (cwd : option string)
      (kwargs : list (string * bool))                     (* buildops.cmd *)
| CmdExpect (argv : list string) (cwd : option string)
      (kwargs : list (string * bool)).                    (* buildops.cmd_expect *)

(** What a call hands back: the fields of the object [buildops.cmd]
    returns, and for [cmd_expect] the indices that the successive
    [child.expect] calls yield while the child is alive. *)
Record reply := {
  stdout : string;
  return_code : Z;
  expects : list nat;
}.

Inductive level := Debug | Info | Error.

Inductive event :=
| Log (l : level) (msg : string)        (* self.logger.<l>(msg) *)
| Host (c : hostcall)
| Sendline (s : string)                 (* child.sendline *)
| StoreSet (k : string) (v : Py.value)  (* self.buildozer.state[k] = v *)
| StoreSync.                            (* self.buildozer.state.sync() *)

(** [buildozer.buildops] and the [os] functions that look at or change the
    machine.  [W] is the state of the machine (file system, network,
    processes). *)
Class BuildOps (W : Type) := {
  file_exists : string → W → bool;        (* buildops.file_exists *)
  path_exists : string → W → bool;        (* os.path.exists *)
  isfile : string → W → bool;             (* os.path.isfile *)
  listdir : string → W → list string;     (* os.listdir *)
  readlines : string → W → list string;   (* for line in open(f, "r") *)
  read : string → W → option string;      (* open(f).read(); None: IOError *)
  call : hostcall → W → result reply * W;
}.

(** Reading, with its failures.  [open_lines]: the lines that
    [for line in open(f, "r")] yields, and the exception that ends the
    iteration if one does (a file that cannot be opened yields no line).
    [list_dir]: [os.listdir], which raises when the path cannot be
    listed. *)
Class Reading (W : Type) := {
  open_lines : string → W → list string * option exn;
  list_dir : string → W → result (list string);
}.

(** A machine on which these reads do not fail: the file is read to its
    end and the folder is listed.  The statements made for a [BuildOps]
    machine alone are about such a machine. *)
#[global] Instance reliable {W : Type} `{BuildOps W} : Reading W | 100 := {|
  open_lines p w := (readlines p w, None);
  list_dir p w := Ok (listdir p w);
|}.

(** [buildozer.libs.version]: [parse], the ordering of versions and
    [str]. *)
Class VersionLib (V : Type) := {
  parse : string → option V;              (* None: the string is rejected *)
  v_ltb : V → V → bool;
  v_str : V → string;
}.

(** Constants of the running process. *)
Record host := {
  platform : string;                      (* sys.platform *)
  machine : string;                       (* os.uname()[4] *)
  pointer_size : Z;                       (* struct.calcsize("P") *)
  architecture : string;                  (* platform.architecture()[0] *)
  executable : string;                    (* sys.executable *)
  path_join : string → string → string;   (* os.path.join *)
  expanduser : string → string;
  realpath : string → string;
  (* re.findall(r"^\s*install_reqs = (\[[^\]]*\])", ...)[0] followed by
     ast.literal_eval *)
  install_reqs : string → result (list string);
}.

(** The [Buildozer] object and the attributes [Target] gives the class. *)
Record buildozer := {
  config : gmap string string;            (* section [app] of the spec file *)
  getbooldefault : string → bool → bool;  (* config.getbooldefault('app', ..) *)
  global_platform_dir : string;
  platform_dir : string;
  platform_update : bool;
  adb_executable : string;
  adb_args : list string;
}.

Definition getdefault (b : buildozer) (key dflt : string) : string :=
  default dflt (config b !! key).

(** Truth value of a [str]. *)
Definition truthy (s : string) : bool :=
  match s with EmptyString => false | _ => true end.

(** The mutable part: the machine, [os.environ], the persisted store
    [buildozer.state], the attributes of the target that the methods
    assign, and the record of what was logged and called, oldest first. *)
Record target (W : Type) := {
  world : W;
  os_environ : gmap string string;
  state : gmap string Py.value;
  _serials : option (list string);
  p4a_recommended_ndk_version : option string;
  artifact_format : string;
  trace : list event;
}.
Arguments world {W} t.
Arguments os_environ {W} t.
Arguments state {W} t.
Arguments _serials {W} t.
Arguments p4a_recommended_ndk_version {W} t.
Arguments artifact_format {W} t.
Arguments trace {W} t.

Section Setters.
Context {W : Type}.

Definition set_world (w : W) (t : target W) : target W :=
  {| world := w; os_environ := os_environ t; state := state t;
     _serials := _serials t;
     p4a_recommended_ndk_version := p4a_recommended_ndk_version t;
     artifact_format := artifact_format t; trace := trace t |}.

Definition set_state (m : gmap string Py.value) (t : target W) : target W :=
  {| world := world t; os_environ := os_environ t; state := m;
     _serials := _serials t;
     p4a_recommended_ndk_version := p4a_recommended_ndk_version t;
     artifact_format := artifact_format t; trace := trace t |}.

Definition set_serials (l : option (list string)) (t : target W) : target W :=
  {| world := world t; os_environ := os_environ t; state := state t;
     _serials := l;
     p4a_recommended_ndk_version := p4a_recommended_ndk_version t;
     artifact_format := artifact_format t; trace := trace t |}.

Definition set_recommended (v : option string) (t : target W) : target W :=
  {| world := world t; os_environ := os_environ t; state := state t;
     _serials := _serials t;
     p4a_recommended_ndk_version := v;
     artifact_format := artifact_format t; trace := trace t |}.

Definition set_environ (env : gmap string string) (t : target W) : target W :=
{| world := world t; os_environ := env; state := state t;
   _serials := _serials t;
   p4a_recommended_ndk_version := p4a_recommended_ndk_version t;
   artifact_format := artifact_format t; trace := trace t |}.

Definition emit (e : event) (t : target W) : target W :=
  {| world := world t; os_environ := os_environ t; state := state t;
     _serials := _serials t;
     p4a_recommended_ndk_version := p4a_recommended_ndk_version t;
     artifact_format := artifact_format t; trace := trace t ++ [e] |}.
End Setters.

(** A method: it runs in a [target], returns or raises, and leaves a
    [target].  What was done before an exception stays done. *)
Definition M (W A : Type) : Type := target W → result A * target W.

Section Monad.
Context {W : Type} `{BuildOps W}.

Definition ret {A} (a : A) : M W A := λ t, (Ok a, t).
Definition raise {A} (e : exn) : M W A := λ t, (Raise e, t).

Definition bind {A B} (m : M W A) (k : A → M W B) : M W B :=
  λ t, match m t with
       | (Ok a, t') => k a t'
       | (Raise e, t') => (Raise e, t')
       end.

Definition gets {A} (f : target W → A) : M W A := λ t, (Ok (f t), t).
Definition modify (f : target W → target W) : M W unit := λ t, (Ok (), f t).

(** look at the machine *)
Definition observe {A} (f : W → A) : M W A := gets (λ t, f (world t)).

Definition log (l : level) (msg : string) : M W unit := modify (emit (Log l msg)).

(** leave the module: the call is recorded, the machine moves on *)
Definition host_call (c : hostcall) : M W reply :=
  λ t, let '(r, w) := call c (world t) in (r, set_world w (emit (Host c) t)).

Definition from_option {A} (e : exn) (o : option A) : M W A :=
  match o with Some a => ret a | None => raise e end.

Definition from_result {A} (r : result A) : M W A :=
  match r with Ok a => ret a | Raise e => raise e end.
End Monad.

Declare Scope prog_scope.
Delimit Scope prog_scope with prog.
Notation "'let*' x ':=' m 'in' k" := (bind m (λ x, k))
  (at level 10, x name, m at level 100, k at level 200,
   format "'[v' 'let*'  x  ':='  m  'in' '/' k ']'") : prog_scope.
Notation "m ';;' k" := (bind m (λ _, k))
  (at level 100, k at level 200, right associativity) : prog_scope.

(* ===================================================================== *)
(** ** The methods of [TargetAndroid] *)
(* ===================================================================== *)

Module Android.

Local Open Scope prog_scope.

Definition ANDROID_API : string := "31".
Definition ANDROID_MINAPI : string := "21".
Definition APACHE_ANT_VERSION : string := "1.9.4".
Definition DEFAULT_ANDROID_NDK_VERSION : string := "17c".
Definition DEFAULT_SDK_TAG : string := "6514223".
Definition p4a_directory_name : string := "python-for-android".
Definition p4a_fork : string := "kivy".
Definition p4a_branch : string := "master".
Definition p4a_commit : string := "HEAD".

Definition MSG_P4A_RECOMMENDED_NDK_ERROR : string :=
  "WARNING: Unable to find recommended Android NDK for current " +:+
  "installation of python-for-android, defaulting to the default " +:+
  "version r" +:+ DEFAULT_ANDROID_NDK_VERSION.

Definition RECOMMENDED_MARKER : string := "RECOMMENDED_NDK_VERSION =".

Section Methods.
Context {W : Type} `{BuildOps W} `{Reading W} {V : Type} `{VersionLib V}.
Context (h : host) (b : buildozer).

(** *** Properties *)

Definition p4a_dir : string :=
  let p4a_dir := path_join h (platform_dir b) p4a_directory_name in
  match config b !! "p4a.source_dir" with
  | Some system_p4a_dir =>
      if truthy system_p4a_dir then expanduser h system_p4a_dir else p4a_dir
  | None => p4a_dir
  end.

(** the characters removed from the recommended version: quote,
    double quote, newline, space *)
Definition unwanted : list string :=
  ["'"; String "034" EmptyString; String "010" EmptyString; " "].

Definition clean_version (s : string) : string :=
  foldl (λ ndk_version i, Py.replace ndk_version i "") s unwanted.

(** the [for line in open(rec_file)] loop, left at the first marker
    line; [failure] is what the iteration raises after its last line *)
Fixpoint scan_recommendations (lines : list string) (failure : option exn)
  : M W string :=
  match lines with
  | [] =>
      match failure with
      | Some e => raise e
      | None => ret DEFAULT_ANDROID_NDK_VERSION
      end
  | line :: rest =>
      if Py.startswith line RECOMMENDED_MARKER then
        let ndk_version :=
          clean_version (Py.replace line RECOMMENDED_MARKER "") in
        log Info ("Recommended android's NDK version by p4a is: "
                  +:+ ndk_version);;
        modify (set_recommended (Some ndk_version));;
        ret ndk_version
      else scan_recommendations rest failure
  end.

Definition p4a_recommended_android_ndk : M W string :=
  let* cached := gets p4a_recommended_ndk_version in
  match cached with
  | Some v => ret v
  | None =>
      let rec_file :=
        path_join h (path_join h p4a_dir "pythonforandroid")
                  "recommendations.py" in
      let* present := observe (isfile rec_file) in
      if negb present then
        log Error MSG_P4A_RECOMMENDED_NDK_ERROR;;
        ret DEFAULT_ANDROID_NDK_VERSION
      else
        let* opened := observe (open_lines rec_file) in
        scan_recommendations opened.1 opened.2
  end.

(** the default handed to [getdefault] is evaluated first, as Python
    evaluates arguments *)
Definition android_ndk_version : M W string :=
  let* recommended := p4a_recommended_android_ndk in
  ret (getdefault b "android.ndk" recommended).

Definition android_api : string := getdefault b "android.api" ANDROID_API.
Definition android_minapi : string :=
  getdefault b "android.minapi" ANDROID_MINAPI.

Definition android_sdk_dir : string :=
  let directory := expanduser h (getdefault b "android.sdk_path" "") in
  if truthy directory then realpath h directory
  else path_join h (global_platform_dir b) "android-sdk".

Definition android_ndk_dir : M W string :=
  let directory := expanduser h (getdefault b "android.ndk_path" "") in
  if truthy directory then ret (realpath h directory)
  else
    let* dflt := android_ndk_version in
    let version := getdefault b "android.ndk" dflt in
    ret (path_join h (global_platform_dir b)
           (Py.format [Py.Lit "android-ndk-r"; Py.Fld 0] [version])).

Definition apache_ant_dir : string :=
  let directory := expanduser h (getdefault b "android.ant_path" "") in
  if truthy directory then realpath h directory
  else
    let version := getdefault b "android.ant" APACHE_ANT_VERSION in
    path_join h (global_platform_dir b)
      (Py.format [Py.Lit "apache-ant-"; Py.Fld 0] [version]).

Definition is_windows : bool := Py.among (platform h) ["win32"; "cygwin"].

Definition sdkmanager_path : M W string :=
  let sdk_manager_name :=
    if is_windows then "sdkmanager.bat" else "sdkmanager" in
  let sdkmanager_path :=
    path_join h (path_join h (path_join h android_sdk_dir "tools") "bin")
              sdk_manager_name in
  let* present := observe (isfile sdkmanager_path) in
  if negb present then raise BuildozerException
  else ret sdkmanager_path.

(** *** Signing environment and release mode *)

Definition sign_keys : list string :=
  ["KEYALIAS"; "KEYSTORE_PASSWD"; "KEYSTORE"; "KEYALIAS_PASSWD"].

Fixpoint check_keys (error : bool) (keys : list string) (check : bool)
  : M W bool :=
  match keys with
  | [] => ret check
  | key :: rest =>
      let key := "P4A_RELEASE_" +:+ key in
      let* env := gets os_environ in
      match env !! key with
      | None =>
          (if error then
             log Error ("Asking for release but " +:+ key +:+
                        " is missing--sign will not be passed")
           else ret ());;
          check_keys error rest false
      | Some _ => check_keys error rest check
      end
  end.

Definition check_p4a_sign_env (error : bool) : M W bool :=
  check_keys error sign_keys true.

Definition get_release_mode : M W string :=
  let* signed := check_p4a_sign_env false in
  let* fmt := gets artifact_format in
  if signed || Py.among fmt ["aab"; "aar"] then ret "release"
  else ret "release-unsigned".

(** *** Device serials *)

Fixpoint collect_serials (lines : list string) (serials : list string)
  : result (list string) :=
  match lines with
  | [] => Ok serials
  | serial :: rest =>
      if negb (truthy serial) then collect_serials rest serials
      else if Py.startswith serial "*" || Py.startswith serial "List "
      then collect_serials rest serials
      else match Py.split_ws serial !! 0%nat with
           | Some field => collect_serials rest (serials ++ [field])
           | None => Raise IndexError
           end
  end.

Definition enumerate_serials : M W (list string) :=
  let* r := host_call
              (Cmd (adb_executable b :: adb_args b ++ ["devices"]) None
                   [("get_stdout", true)]) in
  let lines := Py.splitlines (stdout r) in
  match collect_serials lines [] with
  | Raise e => raise e
  | Ok serials =>
      modify (set_serials (Some serials));;
      ret serials
  end.

Definition serials : M W (list string) :=
  let* cached := gets _serials in
  match cached with
  | Some l => ret l
  | None =>
      let* env := gets os_environ in
      match env !! "ANDROID_SERIAL" with
      | Some serial =>
          if truthy serial then ret (Py.split serial ",")
          else enumerate_serials
      | None => enumerate_serials
      end
  end.

(** *** Installers *)

Definition _install_apache_ant : M W string :=
  let ant_dir := apache_ant_dir in
  let* found := observe (file_exists ant_dir) in
  if found then
    log Info ("Apache ANT found at " +:+ ant_dir);;
    ret ant_dir
  else
    let* there := observe (path_exists ant_dir) in
    (if negb there then host_call (Makedirs ant_dir);; ret ()
     else ret ());;
    log Info "Android ANT is missing, downloading";;
    let archive :=
      Py.format [Py.Lit "apache-ant-"; Py.Fld 0; Py.Lit "-bin.tar.gz"]
                [APACHE_ANT_VERSION] in
    let url := "https://archive.apache.org/dist/ant/binaries/" in
    host_call (Download url archive ant_dir);;
    host_call (FileExtract archive ant_dir);;
    log Info "Apache ANT installation done.";;
    ret ant_dir.

Definition sdk_archive : result string :=
  let name os :=
    Py.format [Py.Lit "commandlinetools-"; Py.Lit os; Py.Lit "-"; Py.Fld 0;
               Py.Lit "_latest.zip"] [DEFAULT_SDK_TAG] in
  if is_windows then Ok (name "win")
  else if Py.among (platform h) ["darwin"] then Ok (name "mac")
  else if Py.startswith (platform h) "linux"
          || Py.startswith (platform h) "freebsd"
  then Ok (name "linux")
  else Raise (SystemError ("Unsupported platform: " +:+ platform h)).

Definition _install_android_sdk : M W string :=
  let sdk_dir := android_sdk_dir in
  let* found := observe (file_exists sdk_dir) in
  if found then
    log Info ("Android SDK found at " +:+ sdk_dir);;
    ret sdk_dir
  else
    log Info "Android SDK is missing, downloading";;
    match sdk_archive with
    | Raise e => raise e
    | Ok archive =>
        let* there := observe (path_exists sdk_dir) in
        (if negb there then host_call (Makedirs sdk_dir);; ret ()
         else ret ());;
        let url := "https://dl.google.com/android/repository/" in
        host_call (Download url archive sdk_dir);;
        log Info "Unpacking Android SDK";;
        host_call (FileExtract archive sdk_dir);;
        log Info "Android SDK tools base installation done.";;
        ret sdk_dir
    end.

(** the [if platform in ('win32', 'cygwin') ... elif ... else] block of
    [_install_android_ndk]: the archive template and [is_64] *)
Definition ndk_archive_template (_version : Z)
  : M W (list Py.piece * bool) :=
  let is_darwin := String.eqb (platform h) "darwin" in
  let is_linux := Py.startswith (platform h) "linux" in
  let is_freebsd := Py.startswith (platform h) "freebsd" in
  if is_windows then
    ret ([Py.Lit "android-ndk-r"; Py.Fld 0; Py.Lit "-windows.zip"],
         Z.eqb (8 * pointer_size h) 64)
  else if is_darwin || is_linux || is_freebsd then
    let _platform := if is_linux || is_freebsd then "linux" else "darwin" in
    let* version := android_ndk_version in
    let ext :=
      if Py.among version ["10c"; "10d"; "10e"] then "bin"
      else if _version <=? 10 then "tar.bz2"
      else "zip" in
    ret ([Py.Lit "android-ndk-r"; Py.Fld 0; Py.Lit "-"; Py.Lit _platform;
          Py.Fld 1; Py.Lit "."; Py.Lit ext],
         Py.contains "64" (machine h))
  else raise (SystemError ("Unsupported platform: " +:+ platform h)).

Definition _install_android_ndk : M W string :=
  let* ndk_dir := android_ndk_dir in
  let* found := observe (file_exists ndk_dir) in
  if found then
    log Info ("Android NDK found at " +:+ ndk_dir);;
    ret ndk_dir
  else
    let* version := android_ndk_version in
    let* digits := from_option AttributeError (Py.re_search_digits version) in
    let _version := Py.int digits in
    log Info "Android NDK is missing, downloading";;
    let* tpl := ndk_archive_template _version in
    let '(archive, is_64) := tpl in
    let architecture := if is_64 then "x86_64" else "x86" in
    let architecture :=
      if 23 <=? _version then "" else "-" +:+ architecture in
    let unpacked := [Py.Lit "android-ndk-r"; Py.Fld 0] in
    let* version := android_ndk_version in
    let archive := Py.format archive [version; architecture] in
    let* version := android_ndk_version in
    let unpacked := Py.format unpacked [version] in
    let url :=
      if 11 <=? _version then "https://dl.google.com/android/repository/"
      else "https://dl.google.com/android/ndk/" in
    host_call (Download url archive (global_platform_dir b));;
    log Info "Unpacking Android NDK";;
    host_call (FileExtract archive (global_platform_dir b));;
    host_call (Rename unpacked ndk_dir (global_platform_dir b));;
    log Info "Android NDK installation done.";;
    ret ndk_dir.

(** *** SDK packages *)

Definition _sdkmanager (args : list string) (return_child : bool)
    (kwargs : list (string * bool)) : M W reply :=
  let android_sdk_dir := android_sdk_dir in
  let cwd := Some android_sdk_dir in
  let* path := sdkmanager_path in
  let command := path :: ("--sdk_root=" +:+ android_sdk_dir) :: args in
  if return_child then host_call (CmdExpect command cwd kwargs)
  else host_call (Cmd command cwd (kwargs ++ [("get_stdout", true)])).

Definition parse_version (s : string) : M W V :=
  from_option InvalidVersion (parse s).

Fixpoint build_tools_versions (lines : list string) (acc : list V)
  : M W (list V) :=
  match lines with
  | [] => ret acc
  | line :: rest =>
      if negb (Py.startswith (Py.strip line) "build-tools;")
      then build_tools_versions rest acc
      else
        let* package_name :=
          from_option IndexError (Py.split (Py.strip line) " " !! 0%nat) in
        if negb (Nat.eqb (Py.count package_name ";") 1)
        then raise AssertionError
        else
          let* version :=
            from_option IndexError (Py.split package_name ";" !! 1%nat) in
          let* v := parse_version version in
          build_tools_versions rest (acc ++ [v])
  end.

Definition _android_list_build_tools_versions : M W (list V) :=
  let* available_packages := _sdkmanager ["--list"] false [] in
  let lines := Py.split (stdout available_packages) "010" in
  build_tools_versions lines [].

(** the [while ret_child.isalive()] loop, one round per [expect] *)
Fixpoint accept_licenses (matches : list nat) : M W unit :=
  match matches with
  | [] => ret ()
  | pexp_match :: rest =>
      (if Nat.eqb pexp_match 0 then modify (emit (Sendline "y"))
       else ret ());;
      accept_licenses rest
  end.

Definition _android_update_sdk (sdkmanager_commands : list string)
  : M W unit :=
  let auto_accept_license :=
    getbooldefault b "android.accept_sdk_license" false in
  if auto_accept_license then
    let* ret_child := _sdkmanager sdkmanager_commands true [] in
    accept_licenses (expects ret_child)
  else
    _sdkmanager sdkmanager_commands false [("show_output", true)];;
    ret ().

Definition _read_version_subdir (dir : string) : M W V :=
  let* there := observe (path_exists dir) in
  if negb there then
    log Debug ("build-tools folder not found " +:+ dir);;
    parse_version "0"
  else
    let* listed := observe (list_dir dir) in
    let* names := from_result listed in
    let versions := omap parse names in
    match Py.max v_ltb versions with
    | None =>
        log Error ("Unable to find the latest version for " +:+ dir);;
        parse_version "0"
    | Some latest => ret latest
    end.

Definition _check_aidl (v_build_tools : V) : M W unit :=
  log Debug "Check that aidl can be executed";;
  let* v_build_tools :=
    _read_version_subdir (path_join h android_sdk_dir "build-tools") in
  let aidl_cmd :=
    path_join h
      (path_join h (path_join h android_sdk_dir "build-tools")
                 (v_str v_build_tools))
      "aidl" in
  host_call (Checkbin "Aidl" aidl_cmd);;
  let* r := host_call (Cmd [aidl_cmd] None
                         [("break_on_error", false); ("show_output", false)]) in
  if negb (return_code r =? 1) then
    log Error "Aidl cannot be executed";;
    (if String.eqb (architecture h) "64bit" then
       log Error "";;
       log Error "You might have missed to install 32bits libs";;
       log Error "Check https://buildozer.readthedocs.org/en/latest/installation.html";;
       log Error ""
     else
       log Error "";;
       log Error "In case of a bug report, please add a full log with log_level = 2";;
       log Error "");;
    raise BuildozerException
  else ret ().

Definition cache_key : string := "android:sdk_installation".

(** the list [cache_value], its five members evaluated left to right *)
Definition cache_value : M W Py.value :=
  let* ndk_version := android_ndk_version in
  let* ndk_dir := android_ndk_dir in
  ret (Py.VList [Py.VStr android_api; Py.VStr android_minapi;
                 Py.VStr ndk_version; Py.VStr android_sdk_dir;
                 Py.VStr ndk_dir]).

(** everything between the cache test and the cache update *)
Definition install_steps : M W unit :=
  (* 1. update the platform-tools package if needed *)
  let skip_upd := getbooldefault b "android.skip_update" false in
  (if negb skip_upd then
     log Info "Installing/updating SDK platform tools if necessary";;
     _android_update_sdk ["platform-tools"];;
     _android_update_sdk ["--update"]
   else
     log Info "Skipping Android SDK update due to spec file setting";;
     log Info ("Note: this also prevents installing missing " +:+
               "SDK components"));;
  (* 2. install the latest build tool *)
  log Info "Updating SDK build tools if necessary";;
  let* installed_v_build_tools :=
    _read_version_subdir (path_join h android_sdk_dir "build-tools") in
  let* available_v_build_tools := _android_list_build_tools_versions in
  (match available_v_build_tools with
   | [] => log Error "Did not find any build tools available to download"
   | _ => ret ()
   end);;
  let* latest_v_build_tools :=
    from_option IndexError (last (Py.sorted v_ltb available_v_build_tools)) in
  let* installed_v_build_tools :=
    if v_ltb installed_v_build_tools latest_v_build_tools then
      if negb skip_upd then
        _android_update_sdk ["build-tools;" +:+ v_str latest_v_build_tools];;
        ret latest_v_build_tools
      else
        log Info ("Skipping update to build tools " +:+
                  v_str latest_v_build_tools +:+ " due to spec setting");;
        ret installed_v_build_tools
    else ret installed_v_build_tools in
  (* 2. check aidl can be run *)
  _check_aidl installed_v_build_tools;;
  (* 3. finally, install the android for the current api *)
  log Info "Downloading platform api target if necessary";;
  let android_platform :=
    path_join h (path_join h android_sdk_dir "platforms")
              ("android-" +:+ android_api) in
  let* found := observe (file_exists android_platform) in
  (if negb found then
     if negb skip_upd then
       _sdkmanager ["platforms;android-" +:+ android_api] false [];;
       ret ()
     else
       log Info ("Skipping install API " +:+ android_api +:+
                 " platform tools due to spec setting")
   else ret ());;
  log Info "Android packages installation done.".

(** [True] on the cached path, [None] otherwise *)
Definition _install_android_packages : M W (option bool) :=
  let* cache_value := cache_value in
  let* stored := gets (λ t, state t !! cache_key) in
  if Py.eqb (default Py.VNone stored) cache_value then ret (Some true)
  else
    install_steps;;
    modify (λ t, emit (StoreSet cache_key cache_value)
                   (set_state (<[cache_key := cache_value]> (state t)) t));;
    modify (emit StoreSync);;
    ret None.

(** *** The python-for-android checkout *)

Definition git (args : list string) (cwd : string)
    (kwargs : list (string * bool)) : M W reply :=
  host_call (Cmd ("git" :: args) (Some cwd) kwargs).

(** the values read from the spec file at the top of [_install_p4a] *)
Definition conf_p4a_url : string :=
  let p4a_fork := getdefault b "p4a.fork" p4a_fork in
  getdefault b "p4a.url"
    ("https://github.com/" +:+ p4a_fork +:+ "/python-for-android.git").
Definition conf_p4a_branch : string := getdefault b "p4a.branch" p4a_branch.
Definition conf_p4a_commit : string := getdefault b "p4a.commit" p4a_commit.

(** [# check that url/branch has not been changed] *)
Definition drop_changed_checkout : M W unit :=
  let p4a_url := conf_p4a_url in
  let p4a_branch := conf_p4a_branch in
  let* found := observe (file_exists p4a_dir) in
  if found then
    let* r := git ["config"; "--get"; "remote.origin.url"] p4a_dir
                  [("get_stdout", true)] in
    let cur_url := Py.strip (stdout r) in
    let* r := git ["branch"; "-vv"] p4a_dir [("get_stdout", true)] in
    let* cur_branch :=
      from_option IndexError (Py.split_ws (stdout r) !! 1%nat) in
    if negb (String.eqb cur_url p4a_url)
       || negb (String.eqb cur_branch p4a_branch)
    then
      log Info ("Detected old url/branch (" +:+ cur_url +:+ "/" +:+
                cur_branch +:+ "), deleting...");;
      host_call (Rmdir p4a_dir);;
      ret ()
    else ret ()
  else ret ().

(** the [if not buildops.file_exists(p4a_dir) ... elif
    self.platform_update] statement and the reset to the commit *)
Definition clone_or_update : M W unit :=
  let p4a_url := conf_p4a_url in
  let p4a_branch := conf_p4a_branch in
  let p4a_commit := conf_p4a_commit in
  let* found := observe (file_exists p4a_dir) in
  (if negb found then
     host_call
       (Cmd ["git"; "clone"; "-b"; p4a_branch; "--single-branch";
             p4a_url; p4a_directory_name]
            (Some (platform_dir b)) []);;
     ret ()
   else if platform_update b then
     git ["clean"; "-dxf"] p4a_dir [];;
     let* r := git ["rev-parse"; "--abbrev-ref"; "HEAD"] p4a_dir
                   [("get_stdout", true)] in
     let current_branch := Py.strip (stdout r) in
     if String.eqb current_branch p4a_branch then
       git ["pull"] p4a_dir [];;
       ret ()
     else
       git ["fetch"; "--tags"; "origin";
            p4a_branch +:+ ":" +:+ p4a_branch] p4a_dir [];;
       git ["checkout"; p4a_branch] p4a_dir [];;
       ret ()
   else ret ());;
  if negb (String.eqb p4a_commit "HEAD") then
    git ["reset"; "--hard"; p4a_commit] p4a_dir [];;
    ret ()
  else ret ().

(** [# also install dependencies] *)
Definition install_p4a_requirements : M W unit :=
  let* setup := observe (read (path_join h p4a_dir "setup.py")) in
  let* deps :=
    match setup with
    | None =>
        log Error ("Failed to read python-for-android setup.py at " +:+
                   path_join h p4a_dir "setup.py");;
        raise (SystemExit 1)
    | Some setup =>
        match install_reqs h setup with
        | Ok deps => ret deps
        | Raise e => raise e
        end
    end in
  (* in virtualenv or conda env *)
  let* env := gets os_environ in
  let options :=
    if bool_decide (is_Some (env !! "VIRTUAL_ENV"))
       || bool_decide (is_Some (env !! "CONDA_PREFIX"))
    then [] else ["--user"] in
  host_call (Cmd ([executable h; "-m"; "pip"; "install"; "-q"]
                    ++ options ++ deps) None []);;
  ret ().

Definition _install_p4a : M W unit :=
  let system_p4a_dir := default "" (config b !! "p4a.source_dir") in
  (if truthy system_p4a_dir then
     (* Don't install anything, just check that the dir does exist *)
     let* found := observe (file_exists p4a_dir) in
     if negb found then
       log Error "Path for p4a.source_dir does not exist";;
       log Error "";;
       raise BuildozerException
     else ret ()
   else
     drop_changed_checkout;;
     clone_or_update);;
  install_p4a_requirements.

End Methods.
End Android.

(* ===================================================================== *)
(** ** A concrete host *)
(* ===================================================================== *)

(** A machine small enough to run the methods on: the paths that exist, the
    text files, and a table of what each outside call answers.  Creating,
    renaming and removing directories act on the set of paths. *)
Module Sim.

Record pc := {
  paths : gset string;
  files : gmap string (list string);
  answers : hostcall → result reply;
}.

Definition with_paths (p : gset string) (m : pc) : pc :=
  {| paths := p; files := files m; answers := answers m |}.

Definition step (c : hostcall) (m : pc) : pc :=
  match c with
  | Makedirs d => with_paths (paths m ∪ {[d]}) m
  | Rename _ dst _ => with_paths (paths m ∪ {[dst]}) m
  | Rmdir d => with_paths (paths m ∖ {[d]}) m
  | _ => m
  end.

#[global] Instance ops : BuildOps pc := {|
  file_exists p m := bool_decide (p ∈ paths m);
  path_exists p m := bool_decide (p ∈ paths m);
  isfile p m := bool_decide (is_Some (files m !! p));
  listdir p m := [];
  readlines p m := default [] (files m !! p);
  read p m := Py.join "" <$> files m !! p;
  call c m :=
    match answers m c with
    | Ok r => (Ok r, step c m)
    | Raise e => (Raise e, m)
    end;
|}.

(** Versions as dotted numbers, compared component by component. *)
Definition all_digits (s : string) : bool :=
  truthy s && String.eqb (Py.take_digits s) s.

Definition parse_dotted (s : string) : option (list Z) :=
  let parts := Py.split s "." in
  if forallb all_digits parts then Some (Py.int <$> parts) else None.

Fixpoint dotted_ltb (a c : list Z) : bool :=
  match a, c with
  | [], [] => false
  | [], _ :: _ => true
  | _ :: _, [] => false
  | x :: a', y :: c' => (x <? y) || ((x =? y) && dotted_ltb a' c')
  end.

Fixpoint show_nat (fuel : nat) (n : Z) (acc : string) : string :=
  match fuel with
  | O => acc
  | S k =>
      let acc := String (ascii_of_nat (Z.to_nat (48 + n mod 10))) acc in
      if n <? 10 then acc else show_nat k (n / 10) acc
  end.

#[global] Instance versions : VersionLib (list Z) := {|
  parse := parse_dotted;
  v_ltb := dotted_ltb;
  v_str v := Py.join "." ((λ n, show_nat 20 n "") <$> v);
|}.

Definition posix_join (a c : string) : string :=
  if Py.startswith c "/" then c
  else match a with
       | EmptyString => c
       | _ => a +:+ "/" +:+ c
       end.

Definition linux : host := {|
  platform := "linux";
  machine := "x86_64";
  pointer_size := 8;
  architecture := "64bit";
  executable := "/usr/bin/python3";
  path_join := posix_join;
  expanduser := id;
  realpath := id;
  install_reqs := λ _, Ok [];
|}.

Definition cygwin : host := {|
  platform := "cygwin";
  machine := "x86_64";
  pointer_size := 8;
  architecture := "64bit";
  executable := "/usr/bin/python3";
  path_join := posix_join;
  expanduser := id;
  realpath := id;
  install_reqs := λ _, Ok [];
|}.

Definition project (cfg : list (string * string)) : buildozer := {|
  config := list_to_map cfg;
  getbooldefault := λ _ dflt, dflt;
  global_platform_dir := "/home/u/.buildozer/android/platform";
  platform_dir := "/w/.buildozer/android/platform";
  platform_update := false;
  adb_executable := "/sdk/platform-tools/adb";
  adb_args := [];
|}.

Definition fresh (m : pc) (env : list (string * string))
    : target pc := {|
  world := m;
  os_environ := list_to_map env;
  state := ∅;
  _serials := None;
  p4a_recommended_ndk_version := None;
  artifact_format := "apk";
  trace := [];
|}.

Definition silent : hostcall → result reply :=
  λ _, Ok {| stdout := ""; return_code := 0; expects := [] |}.

End Sim.

(* ===================================================================== *)
(** ** Notions used in the statements *)
(* ===================================================================== *)

(** The calls to the outside recorded in a trace, in order. *)
Definition host_calls (tr : list event) : list hostcall :=
  omap (λ e, match e with Host c => Some c | _ => None end) tr.

Definition stores (e : event) : Prop :=
  match e with StoreSet _ _ => True | _ => False end.
Definition calls_out (e : event) : Prop :=
  match e with Host _ => True | _ => False end.
Definition is_log (e : event) : Prop :=
  match e with Log _ _ => True | _ => False end.
Definition removes (e : event) : Prop :=
  match e with Host (Rmdir _) => True | _ => False end.

(** A set of events that holds at least the log lines, the calls that are
    not [rmdir], and the answers sent to a child. *)
Class Permits (P : event → Prop) := {
  permits_log : ∀ l msg, P (Log l msg);
  permits_host : ∀ c, ¬ removes (Host c) → P (Host c);
  permits_send : ∀ s, P (Sendline s);
}.

(** *** Signing *)

Definition signing_variables : list string :=
  ["P4A_RELEASE_KEYALIAS"; "P4A_RELEASE_KEYSTORE_PASSWD";
   "P4A_RELEASE_KEYSTORE"; "P4A_RELEASE_KEYALIAS_PASSWD"].

Definition signing_env_complete (env : gmap string string) : Prop :=
  ∀ k, k ∈ signing_variables → is_Some (env !! k).

Definition present (env : gmap string string) (key : string) : bool :=
  bool_decide (is_Some (env !! ("P4A_RELEASE_" +:+ key))).

(** *** Device listing *)

(** A line of the listing that names a device: not empty, not a daemon
    notice ([* ...]), not the header ([List ...]). *)
Definition is_device_line (line : string) : bool :=
  truthy line && negb (Py.startswith line "*")
  && negb (Py.startswith line "List ").

Definition first_field (line : string) : string :=
  default "" (head (Py.split_ws line)).

Definition devices_cmd (b : buildozer) : hostcall :=
  Cmd (adb_executable b :: adb_args b ++ ["devices"]) None [("get_stdout", true)].

(** *** Recommendation file *)

Fixpoint sfilter (keep : ascii → bool) (s : string) : string :=
  match s with
  | EmptyString => EmptyString
  | String c r => if keep c then String c (sfilter keep r) else sfilter keep r
  end.

(** quote, double quote, newline, space *)
Definition unwanted_char (c : ascii) : bool :=
  Ascii.eqb c "'" || Ascii.eqb c "034" || Ascii.eqb c "010" || Ascii.eqb c " ".

(** What a marker line recommends: the line without the marker text and
    without quotes, spaces and newlines. *)
Definition recommended_value (line : string) : string :=
  sfilter (λ c, negb (unwanted_char c))
          (Py.replace line Android.RECOMMENDED_MARKER "").

Definition has_marker (line : string) : bool :=
  Py.startswith line Android.RECOMMENDED_MARKER.

(** The iteration over the file gets to a marker line, or to the end of
    the file, without raising. *)
Definition read_to_marker_or_end {W : Type} `{Reading W} (f : string) (w : W)
    : Prop :=
  (open_lines f w).2 = None
  ∨ Exists (λ l, has_marker l = true) (open_lines f w).1.

(** *** NDK archives *)

(** The naming rules, written out.  [major] is the first run of digits of
    the version string, read as a number. *)
Definition ndk_major (version : string) : option Z :=
  Py.int <$> Py.re_search_digits version.

Definition ndk_extension (version : string) (major : Z) : string :=
  if Py.among version ["10c"; "10d"; "10e"] then "bin"
  else if major <=? 10 then "tar.bz2"
  else "zip".

Definition ndk_arch_suffix (is_64 : bool) (major : Z) : string :=
  if major <? 23 then (if is_64 then "-x86_64" else "-x86") else "".

Definition unix_archive (os : string) (is_64 : bool) (version : string)
    (major : Z) : string :=
  "android-ndk-r" +:+ version +:+ "-" +:+ os +:+ ndk_arch_suffix is_64 major
  +:+ "." +:+ ndk_extension version major.

(** What the Windows branch of the installer produces: no architecture
    suffix, whatever the version. *)
Definition windows_archive (version : string) : string :=
  "android-ndk-r" +:+ version +:+ "-windows.zip".

Definition vendor_archive (h : host) (version : string) (major : Z)
  : option string :=
  if Py.among (platform h) ["win32"; "cygwin"] then
    Some (windows_archive version)
  else if String.eqb (platform h) "darwin" then
    Some (unix_archive "darwin" (Py.contains "64" (machine h)) version major)
  else if Py.startswith (platform h) "linux"
          || Py.startswith (platform h) "freebsd" then
    Some (unix_archive "linux" (Py.contains "64" (machine h)) version major)
  else None.

Definition ndk_url (major : Z) : string :=
  if 11 <=? major then "https://dl.google.com/android/repository/"
  else "https://dl.google.com/android/ndk/".

(** *** Calls on the checkout *)

Definition git_remote_cmd (dir : string) : hostcall :=
  Cmd ["git"; "config"; "--get"; "remote.origin.url"] (Some dir)
      [("get_stdout", true)].

Definition git_branch_cmd (dir : string) : hostcall :=
  Cmd ["git"; "branch"; "-vv"] (Some dir) [("get_stdout", true)].

Definition git_clone_cmd (h : host) (b : buildozer) : hostcall :=
  Cmd ["git"; "clone"; "-b"; Android.conf_p4a_branch b; "--single-branch";
       Android.conf_p4a_url b; "python-for-android"]
      (Some (platform_dir b)) [].

Section Notions.
Context {W : Type} `{BuildOps W} {V : Type} `{VersionLib V}.
Context (h : host) (b : buildozer).
Implicit Types t : target W.

(** [wp m Q t]: the run of [m] from [t] ends in a result and a state that
    satisfy [Q].  Every run ends: [m] is a function. *)
Definition wp {A} (m : M W A) (Q : result A → target W → Prop) t : Prop :=
  Q (m t).1 (m t).2.

(** [delta P t t']: from [t] to [t'] the trace grew by events of [P] only;
    the store moved only if [P] has a store event, the machine only if [P]
    has a call; the environment and the artifact format did not move. *)
Record delta (P : event → Prop) t t' : Prop := {
  delta_trace : ∃ d, trace t' = trace t ++ d ∧ Forall P d;
  delta_state : (∀ e, P e → ¬ stores e) → state t' = state t;
  delta_world : (∀ e, P e → ¬ calls_out e) → world t' = world t;
  delta_environ : os_environ t' = os_environ t;
  delta_format : artifact_format t' = artifact_format t;
}.

(** [respects R m]: every run of [m] takes a state to an [R]-related one. *)
Definition respects {A} (R : relation (target W)) (m : M W A) : Prop :=
  ∀ t, R t (m t).2.

(** the recommendations file of the checkout *)
Definition rec_file : string :=
  path_join h (path_join h (Android.p4a_dir h b) "pythonforandroid")
            "recommendations.py".

(** The value of [p4a_recommended_android_ndk] in a state, as a function of
    the cached attribute and of the recommendations file. *)
Definition recommended_of t : string :=
  match p4a_recommended_ndk_version t with
  | Some v => v
  | None =>
      if isfile rec_file (world t) then
        default "17c"
          (recommended_value
             <$> List.find has_marker (readlines rec_file (world t)))
      else "17c"
  end.

Definition ndk_version_of t : string :=
  getdefault b "android.ndk" (recommended_of t).

Definition ndk_dir_of t : string :=
  let directory := expanduser h (getdefault b "android.ndk_path" "") in
  if truthy directory then realpath h directory
  else path_join h (global_platform_dir b)
         ("android-ndk-r" +:+ getdefault b "android.ndk" (ndk_version_of t)).

Definition tuple_of t : Py.value :=
  Py.VList [Py.VStr (Android.android_api b); Py.VStr (Android.android_minapi b);
            Py.VStr (ndk_version_of t); Py.VStr (Android.android_sdk_dir h b);
            Py.VStr (ndk_dir_of t)].

(** Evaluating a property only logs, and later evaluations agree with it. *)
Definition quiet t t' : Prop :=
  delta is_log t t' ∧ recommended_of t' = recommended_of t.

(** What [_install_android_packages] runs when the cache does not match:
    the installation steps, then the update of the store and its flush. *)
Definition uncached_run (cache_value : Py.value) : M W (option bool) :=
  bind (Android.install_steps (V:=V) h b) (λ _,
  bind (modify (λ t, emit (StoreSet Android.cache_key cache_value)
                       (set_state (<[Android.cache_key := cache_value]> (state t)) t)))
       (λ _,
  bind (modify (emit StoreSync)) (λ _,
  ret None))).

(** what follows the url/branch check when no source directory is set *)
Definition after_check : M W unit :=
  bind (Android.clone_or_update h b)
       (λ _, Android.install_p4a_requirements h b).
End Notions.

(* ===================================================================== *)
(** ** Machines and projects to run on *)
(* ===================================================================== *)

(** A bridge that lists one emulator. *)
Definition nl : string := String "010" EmptyString.
Definition tab : string := String "009" EmptyString.

Definition adb_listing : string :=
  "List of devices attached" +:+ nl +:+
  "emulator-5554" +:+ tab +:+ "device" +:+ nl +:+ nl.

Definition one_emulator : Sim.pc := {|
  Sim.paths := ∅;
  Sim.files := ∅;
  Sim.answers := λ _, Ok {| stdout := adb_listing; return_code := 0;
                            expects := [] |};
|}.

(** A checkout whose recommendations file has no marker line. *)
Definition rec_path : string :=
  "/w/.buildozer/android/platform/python-for-android/pythonforandroid/recommendations.py".

Definition checkout (lines : list string) : Sim.pc := {|
  Sim.paths := ∅;
  Sim.files := {[ rec_path := lines ]};
  Sim.answers := Sim.silent;
|}.

Definition with_dirs (dirs : list string) : Sim.pc := {|
  Sim.paths := list_to_set dirs;
  Sim.files := ∅;
  Sim.answers := Sim.silent;
|}.

(** An SDK whose manager is installed; every call answers with empty
    output and exit code 0. *)
Definition sdk_tools : Sim.pc := {|
  Sim.paths := ∅;
  Sim.files :=
    {[ "/home/u/.buildozer/android/platform/android-sdk/tools/bin/sdkmanager"
       := [] ]};
  Sim.answers := Sim.silent;
|}.

Definition ndk25 : buildozer := Sim.project [("android.ndk", "25b")].

Definition tuple25 : Py.value :=
  Py.VList [Py.VStr "31"; Py.VStr "21"; Py.VStr "25b";
            Py.VStr "/home/u/.buildozer/android/platform/android-sdk";
            Py.VStr "/home/u/.buildozer/android/platform/android-ndk-r25b"].

(** A checkout that tracks another branch of another repository. *)
Definition p4a_path : string := "/w/.buildozer/android/platform/python-for-android".

Definition quiet_reply (out : string) : reply :=
  {| stdout := out; return_code := 0; expects := [] |}.

Definition stale_git (c : hostcall) : result reply :=
  match c with
  | Cmd argv _ _ =>
      if bool_decide (argv !! 1%nat = Some "config")
      then Ok (quiet_reply ("https://example.org/fork.git" +:+ nl))
      else if bool_decide (argv !! 1%nat = Some "branch")
      then Ok (quiet_reply "* develop 1a2b3c4 [origin/develop] tip")
      else Ok (quiet_reply "")
  | _ => Ok (quiet_reply "")
  end.

Definition stale_checkout : Sim.pc := {|
  Sim.paths := {[ p4a_path ]};
  Sim.files := ∅;
  Sim.answers := stale_git;
|}.


(* ===================================================================== *)
(** ** Further notions *)
(* ===================================================================== *)

(** A strict order, as [<] on versions is one. *)
Definition strict_order {A : Type} (ltb : A → A → bool) : Prop :=
  (∀ a, ltb a a = false)
  ∧ (∀ a b c, ltb a b = true → ltb b c = true → ltb a c = true).

(** A machine with directory listings: the paths that exist, what
    [os.listdir] returns for each directory, the text files, and the
    answers of the outside calls. *)
Module Lab.

Record pc := {
  paths : gset string;
  entries : gmap string (list string);
  files : gmap string (list string);
  answers : hostcall → result reply;
}.

#[global] Instance ops : BuildOps pc := {|
  file_exists p m := bool_decide (p ∈ paths m);
  path_exists p m := bool_decide (p ∈ paths m);
  isfile p m := bool_decide (is_Some (files m !! p));
  listdir p m := default [] (entries m !! p);
  readlines p m := default [] (files m !! p);
  read p m := Py.join "" <$> files m !! p;
  call c m := (answers m c, m);
|}.

Definition fresh (m : pc) (env : list (string * string)) : target pc := {|
  world := m;
  os_environ := list_to_map env;
  state := ∅;
  _serials := None;
  p4a_recommended_ndk_version := None;
  artifact_format := "apk";
  trace := [];
|}.

End Lab.

(** an SDK with three build-tools folders and a stray file *)
Definition build_tools_dir : string :=
  "/home/u/.buildozer/android/platform/android-sdk/build-tools".

Definition three_build_tools : Lab.pc := {|
  Lab.paths := {[ build_tools_dir ]};
  Lab.entries := {[ build_tools_dir := ["30.0.3"; "README.txt"; "34.0.0"; "33.0.2"] ]};
  Lab.files := ∅;
  Lab.answers := Sim.silent;
|}.

(** A machine on which reading breaks off: a text file yields its first
    line and then the iteration raises (a byte that cannot be decoded);
    no folder can be listed. *)
Definition torn {W : Type} `{BuildOps W} : Reading W := {|
  open_lines p w := (take 1 (readlines p w),
                     Some (HostError "UnicodeDecodeError"));
  list_dir p w := Raise (HostError "PermissionError");
|}.

(** *** The SDK manager and the build tools *)

(** where the manager is looked for *)
Definition sdkmanager_file (h : host) (b : buildozer) : string :=
  path_join h
    (path_join h (path_join h (Android.android_sdk_dir h b) "tools") "bin")
    (if Py.among (platform h) ["win32"; "cygwin"] then "sdkmanager.bat"
     else "sdkmanager").

(** the command line the manager is started with *)
Definition sdkmanager_argv (h : host) (b : buildozer) (args : list string)
    : list string :=
  sdkmanager_file h b :: ("--sdk_root=" +:+ Android.android_sdk_dir h b) :: args.

Definition sdkmanager_cmd (h : host) (b : buildozer) (args : list string)
    (kwargs : list (string * bool)) : hostcall :=
  Cmd (sdkmanager_argv h b args) (Some (Android.android_sdk_dir h b)) kwargs.

Definition sdkmanager_child (h : host) (b : buildozer) (args : list string)
    : hostcall :=
  CmdExpect (sdkmanager_argv h b args) (Some (Android.android_sdk_dir h b)) [].

Definition sdkmanager_list (h : host) (b : buildozer) : hostcall :=
  sdkmanager_cmd h b ["--list"] [("get_stdout", true)].

(** the call [_android_update_sdk] starts the manager with *)
Definition update_call (h : host) (b : buildozer) (cmds : list string)
    : hostcall :=
  if getbooldefault b "android.accept_sdk_license" false
  then sdkmanager_child h b cmds
  else sdkmanager_cmd h b cmds [("show_output", true); ("get_stdout", true)].

(** the first call of the installation steps: the update of the platform
    tools, or the listing of the packages when updates are skipped *)
Definition first_package_call (h : host) (b : buildozer) : hostcall :=
  if getbooldefault b "android.skip_update" false
  then sdkmanager_list h b
  else update_call h b ["platform-tools"].

(** a line of the listing that is about a build-tools package *)
Definition is_build_tools_line (line : string) : bool :=
  Py.startswith (Py.strip line) "build-tools;".

(** [names_version line v]: the first space-separated field of the line
    has exactly one [;], and what follows it parses to [v] *)
Definition names_version {V : Type} `{VersionLib V} (line : string) (v : V)
    : Prop :=
  ∃ package_name s,
    Py.split (Py.strip line) " " !! 0%nat = Some package_name
    ∧ Py.count package_name ";" = 1%nat
    ∧ Py.split package_name ";" !! 1%nat = Some s
    ∧ parse s = Some v.

Definition build_tools_of (h : host) (b : buildozer) : string :=
  path_join h (Android.android_sdk_dir h b) "build-tools".

(** the version [_read_version_subdir] finds in a folder: the highest one
    among the entries that parse, [v0] when there is none *)
Definition installed_version {W : Type} `{BuildOps W} {V : Type}
    `{VersionLib V} (dir : string) (w : W) (v0 : V) : V :=
  if path_exists dir w
  then default v0 (Py.max v_ltb (omap parse (listdir dir w)))
  else v0.

Definition aidl_path {V : Type} `{VersionLib V} (h : host) (b : buildozer)
    (v : V) : string :=
  path_join h (path_join h (build_tools_of h b) (v_str v)) "aidl".

Definition aidl_checkbin {V : Type} `{VersionLib V} (h : host) (b : buildozer)
    (v : V) : hostcall :=
  Checkbin "Aidl" (aidl_path h b v).

Definition aidl_cmd {V : Type} `{VersionLib V} (h : host) (b : buildozer)
    (v : V) : hostcall :=
  Cmd [aidl_path h b v] None [("break_on_error", false); ("show_output", false)].

(** the calls that look at the SDK without changing it: the listing of the
    packages and the two calls of the aidl check *)
Definition inspects {V : Type} `{VersionLib V} (h : host) (b : buildozer)
    (c : hostcall) : Prop :=
  c = sdkmanager_list h b
  ∨ (∃ v : V, c = aidl_checkbin h b v)
  ∨ (∃ v : V, c = aidl_cmd h b v).

(** log lines, and the calls of [Q]: nothing is sent to a child and
    nothing is stored *)
Definition logs_and_calls (Q : hostcall → Prop) (e : event) : Prop :=
  match e with
  | Log _ _ => True
  | Host c => Q c
  | _ => False
  end.

Definition no_call : hostcall → Prop := λ _, False.

(** *** More machines and projects *)

Definition sdkmanager_at : string :=
  "/home/u/.buildozer/android/platform/android-sdk/tools/bin/sdkmanager".

Definition packages_listing : string :=
  "Installed packages:" +:+ nl +:+
  "  Path                 | Version | Description" +:+ nl +:+
  "  build-tools;30.0.3   | 30.0.3  | Android SDK Build-Tools 30.0.3" +:+ nl +:+
  "  platforms;android-31 | 1       | Android SDK Platform 31" +:+ nl +:+
  "Available Packages:" +:+ nl +:+
  "  build-tools;34.0.0   | 34.0.0  | Android SDK Build-Tools 34" +:+ nl.

(** the manager lists two build-tools packages; a child it starts asks
    twice for a licence and ends *)
Definition listing_manager (c : hostcall) : result reply :=
  match c with
  | Cmd argv _ _ =>
      if bool_decide (argv !! 2%nat = Some "--list")
      then Ok (quiet_reply packages_listing)
      else Ok (quiet_reply "")
  | CmdExpect _ _ _ => Ok {| stdout := ""; return_code := 0; expects := [0; 2; 0; 1]%nat |}
  | _ => Ok (quiet_reply "")
  end.

Definition sdk_with_listing : Sim.pc := {|
  Sim.paths := ∅;
  Sim.files := {[ sdkmanager_at := [] ]};
  Sim.answers := listing_manager;
|}.

(** a project that accepts the licences, and one that skips the updates *)
Definition with_flag (flag : string) (b : buildozer) : buildozer := {|
  config := config b;
  getbooldefault := λ key dflt, if String.eqb key flag then true
                                else getbooldefault b key dflt;
  global_platform_dir := global_platform_dir b;
  platform_dir := platform_dir b;
  platform_update := platform_update b;
  adb_executable := adb_executable b;
  adb_args := adb_args b;
|}.

Definition accepting : buildozer :=
  with_flag "android.accept_sdk_license" (Sim.project []).
Definition skipping : buildozer :=
  with_flag "android.skip_update" (Sim.project []).

(** *** Fresh installs *)

(** a straight-line piece of a method: log lines and outside calls, one
    after the other, then a value *)
Fixpoint script {W : Type} `{BuildOps W} {A : Type} (l : list event) (a : A)
    : M W A :=
  match l with
  | [] => ret a
  | Log lv msg :: r => bind (log lv msg) (λ _, script r a)
  | Host c :: r => bind (host_call c) (λ _, script r a)
  | _ :: r => script r a
  end.

(** the calls of a plan made one after the other on a machine, up to and
    including the first that fails: the calls made, the failure if there
    is one, and the machine afterwards *)
Fixpoint replay {W : Type} `{BuildOps W} (planned : list hostcall) (w : W)
    : list hostcall * option exn * W :=
  match planned with
  | [] => ([], None, w)
  | c :: rest =>
      match call c w with
      | (Ok _, w') =>
          let '(made, failure, w'') := replay rest w' in
          (c :: made, failure, w'')
      | (Raise e, w') => ([c], Some e, w')
      end
  end.

(** [ran planned a t r t']: from [t] to [t'] exactly the calls of
    [planned] were made, in order, each on the machine the one before
    left, up to and including the first that failed; the run raised what
    that call raised, and returned [a] if none failed *)
Definition ran {W : Type} `{BuildOps W} {A : Type} (planned : list hostcall)
    (a : A) (t : target W) (r : result A) (t' : target W) : Prop :=
  host_calls (trace t') = host_calls (trace t) ++ (replay planned (world t)).1.1
  ∧ world t' = (replay planned (world t)).2
  ∧ r = match (replay planned (world t)).1.2 with
        | None => Ok a
        | Some e => Raise e
        end.

(** the directory is created first when nothing is at its path *)
Definition creating {W : Type} `{BuildOps W} (dir : string) (w : W)
    : list hostcall :=
  if path_exists dir w then [] else [Makedirs dir].

(** the operating systems the installers know, by [sys.platform] *)
Definition platform_family (h : host) : option string :=
  if Py.among (platform h) ["win32"; "cygwin"] then Some "win"
  else if String.eqb (platform h) "darwin" then Some "mac"
  else if Py.startswith (platform h) "linux"
          || Py.startswith (platform h) "freebsd" then Some "linux"
  else None.

Definition sdk_tools_archive (family : string) : string :=
  "commandlinetools-" +:+ family +:+ "-6514223_latest.zip".

Definition ant_archive : string := "apache-ant-1.9.4-bin.tar.gz".
Definition ant_url : string := "https://archive.apache.org/dist/ant/binaries/".
Definition repository_url : string := "https://dl.google.com/android/repository/".

Definition unsupported (h : host) : exn :=
  SystemError ("Unsupported platform: " +:+ platform h).

(** *** Requirements of the checkout *)

Definition setup_py (h : host) (b : buildozer) : string :=
  path_join h (Android.p4a_dir h b) "setup.py".

Definition pip_cmd (h : host) (options deps : list string) : hostcall :=
  Cmd ([executable h; "-m"; "pip"; "install"; "-q"] ++ options ++ deps) None [].

(** inside a virtualenv or a conda environment *)
Definition in_python_env (env : gmap string string) : bool :=
  bool_decide (is_Some (env !! "VIRTUAL_ENV"))
  || bool_decide (is_Some (env !! "CONDA_PREFIX")).

Definition pip_options (env : gmap string string) : list string :=
  if in_python_env env then [] else ["--user"].

Definition is_pip (h : host) (c : hostcall) : Prop :=
  ∃ options deps, c = pip_cmd h options deps.

Definition git_reset_cmd (h : host) (b : buildozer) : hostcall :=
  Cmd ["git"; "reset"; "--hard"; Android.conf_p4a_commit b]
      (Some (Android.p4a_dir h b)) [].

(** *** Signing report *)

Definition missing_key_error (variable : string) : event :=
  Log Error ("Asking for release but " +:+ variable +:+
             " is missing--sign will not be passed").

Definition unset (env : gmap string string) (variable : string) : bool :=
  negb (bool_decide (is_Some (env !! variable))).

(** *** More machines *)

(** a bridge whose listing has a line of blanks *)
Definition blank_line_bridge : Sim.pc := {|
  Sim.paths := ∅;
  Sim.files := ∅;
  Sim.answers := λ _, Ok (quiet_reply ("List of devices attached" +:+ nl +:+
                                        "emulator-5554" +:+ tab +:+ "device"
                                        +:+ nl +:+ "  " +:+ nl));
|}.

(** a machine without network: every download fails *)
Definition no_network : Sim.pc := {|
  Sim.paths := ∅;
  Sim.files := ∅;
  Sim.answers := λ c, match c with
                      | Download _ _ _ => Raise (HostError "download")
                      | _ => Ok (quiet_reply "")
                      end;
|}.

(** a source directory of python-for-android given by the user *)
Definition own_p4a : buildozer := Sim.project [("p4a.source_dir", "/src/p4a")].

Definition own_p4a_there : Sim.pc := {|
  Sim.paths := {[ "/src/p4a" ]};
  Sim.files := {[ "/src/p4a/setup.py" := ["install_reqs = []"] ]};
  Sim.answers := Sim.silent;
|}.

(** a checkout of the configured url and branch *)
Definition current_git (c : hostcall) : result reply :=
  match c with
  | Cmd argv _ _ =>
      if bool_decide (argv !! 1%nat = Some "config")
      then Ok (quiet_reply ("https://github.com/kivy/python-for-android.git"
                            +:+ nl))
      else if bool_decide (argv !! 1%nat = Some "branch")
      then Ok (quiet_reply "* master 1a2b3c4 [origin/master] tip")
      else Ok (quiet_reply "")
  | _ => Ok (quiet_reply "")
  end.

Definition current_checkout : Sim.pc := {|
  Sim.paths := {[ p4a_path ]};
  Sim.files := {[ p4a_path +:+ "/setup.py" := ["install_reqs = []"] ]};
  Sim.answers := current_git;
|}.

(* ===================================================================== *)
(** ** Packaging: [project.properties] and the AndroidX default *)
(* ===================================================================== *)

(** Further built-ins. *)
Module Pyx.

(** [str.endswith] *)
Definition endswith (s suffix : string) : bool :=
  String.prefix (String.rev suffix) (String.rev s).

(** [list.remove(x)]: the first element equal to [x] is taken out; [None]
    when there is none ([ValueError]) *)
Fixpoint remove (x : string) (l : list string) : option (list string) :=
  match l with
  | [] => None
  | y :: r => if String.eqb y x then Some r else (y ::.) <$> remove x r
  end.

(** [a < b] on [str]: code point by code point, a proper prefix first *)
Fixpoint str_ltb (a c : string) : bool :=
  match a, c with
  | _, EmptyString => false
  | EmptyString, String _ _ => true
  | String x a', String y c' =>
      Nat.ltb (nat_of_ascii x) (nat_of_ascii y)
      || (Nat.eqb (nat_of_ascii x) (nat_of_ascii y) && str_ltb a' c')
  end.

End Pyx.

(** Writing a text file: [io.open(f, 'w')] and the writes that follow,
    given as the pieces written, in order.  [None]: the file cannot be
    opened for writing. *)
Class FileStore (W : Type) := {
  write_file : string → list string → W → option W;
}.

Module Packaging.

Local Open Scope prog_scope.

Section Methods.
Context {W : Type} `{BuildOps W} `{FileStore W}.
Context (h : host) (b : buildozer).
(** [config.getlist('app', key, [])] and [os.path.relpath] *)
Context (getlist : string → list string) (relpath : string → string → string).

Definition reference_prefix : string := "android.library.reference.".

(** [for line in content[:]]: the copy is walked, the list is changed *)
Fixpoint drop_references (copy content : list string) : M W (list string) :=
  match copy with
  | [] => ret content
  | line :: rest =>
      if negb (Py.startswith line reference_prefix)
      then drop_references rest content
      else
        let* content :=
          from_option (HostError "ValueError") (Pyx.remove line content) in
        drop_references rest content
  end.

(** [for cref in app_references] *)
Fixpoint resolve_references (source_dir dist_dir : string)
    (app_references references : list string) : M W (list string) :=
  match app_references with
  | [] => ret references
  | cref :: rest =>
      (* get the full path of the current reference *)
      let ref := realpath h (path_join h source_dir cref) in
      let* found := observe (file_exists ref) in
      if negb found then
        log Error ("Invalid library reference (path not found): " +:+ cref);;
        raise (SystemExit 1)
      else
        (* get a relative path from the project file *)
        let ref := relpath ref (realpath h (expanduser h dist_dir)) in
        resolve_references source_dir dist_dir rest (references ++ [ref])
  end.

(** [for index, ref in enumerate(references)] *)
Definition numbered (references : list string) : list string :=
  imap (λ index ref,
          "android.library.reference." +:+ pretty (index + 1)%nat +:+ "="
          +:+ ref +:+ String "010" EmptyString)
       references.

(** what is written when the file is recreated: the lines kept, a line
    break when the last of them has none, the numbered references.  The
    lines are [str]: [line.decode] fails on the first of them before
    anything is written, and the [except] branch then writes them all;
    with no line at all neither branch writes anything. *)
Definition recreated (content references : list string) : list string :=
  content
  ++ (match last content with
      | Some line =>
          if negb (Pyx.endswith line (String "010" EmptyString))
          then [String "010" EmptyString] else []
      | None => []
      end)
  ++ numbered references.

Definition _update_libraries_references (dist_dir : string) : M W unit :=
  (* ensure the project.properties exist *)
  let project_fn := path_join h dist_dir "project.properties" in
  let* found := observe (file_exists project_fn) in
  let* content :=
    if negb found then
      ret ["target=android-" +:+ Android.android_api b
             +:+ String "010" EmptyString;
           "APP_PLATFORM=" +:+ Android.android_minapi b
             +:+ String "010" EmptyString]
    else observe (readlines project_fn) in
  (* extract library reference *)
  let* content := drop_references content content in
  (* convert our references to relative path *)
  let app_references := getlist "android.library_references" in
  let source_dir :=
    realpath h (expanduser h (getdefault b "source.dir" ".")) in
  let* references :=
    resolve_references source_dir dist_dir app_references [] in
  (* recreate the project.properties *)
  let* written :=
    observe (write_file project_fn (recreated content references)) in
  match written with
  | None => raise (HostError "io.open")
  | Some w => modify (set_world w)
  end;;
  log Debug "project.properties updated".

(** [self.android_api > "28"], the default of [android.enable_androidx]
    in [build_package] *)
Definition androidx_default : bool :=
  Pyx.str_ltb "28" (Android.android_api b).

Definition enable_androidx : bool :=
  getbooldefault b "android.enable_androidx" androidx_default.

End Methods.
End Packaging.

(** *** Notions for the packaging *)

Definition is_reference_line (line : string) : bool :=
  Py.startswith line Packaging.reference_prefix.

Definition project_file (h : host) (dist_dir : string) : string :=
  path_join h dist_dir "project.properties".

(** the lines the project file starts from *)
Definition project_lines {W : Type} `{BuildOps W} (h : host) (b : buildozer)
    (dist_dir : string) (w : W) : list string :=
  if file_exists (project_file h dist_dir) w
  then readlines (project_file h dist_dir) w
  else ["target=android-" +:+ Android.android_api b +:+ nl;
        "APP_PLATFORM=" +:+ Android.android_minapi b +:+ nl].

(** where a configured reference is looked for, and how it is written *)
Definition reference_path (h : host) (b : buildozer) (cref : string)
    : string :=
  realpath h
    (path_join h (realpath h (expanduser h (getdefault b "source.dir" ".")))
       cref).

Definition reference_entry (h : host) (b : buildozer)
    (relpath : string → string → string) (dist_dir : string)
    (index : nat) (cref : string) : string :=
  "android.library.reference." +:+ pretty (index + 1)%nat +:+ "="
  +:+ relpath (reference_path h b cref) (realpath h (expanduser h dist_dir))
  +:+ nl.

(** the separator written after the kept lines *)
Definition closing_break (content : list string) : list string :=
  match last content with
  | Some line => if Pyx.endswith line nl then [] else [nl]
  | None => []
  end.

Definition all_digits (s : string) : Prop :=
  Forall (λ c, Py.is_digit c = true) (list_ascii_of_string s).

(** a store of files kept as lists of pieces *)
Module Disk.

Record pc := {
  paths : gset string;
  texts : gmap string (list string);
}.

#[global] Instance ops : BuildOps pc := {|
  file_exists p m := bool_decide (p ∈ paths m);
  path_exists p m := bool_decide (p ∈ paths m);
  isfile p m := bool_decide (is_Some (texts m !! p));
  listdir p m := [];
  readlines p m := default [] (texts m !! p);
  read p m := Py.join "" <$> texts m !! p;
  call c m := (Sim.silent c, m);
|}.

#[global] Instance store : FileStore pc := {|
  write_file p pieces m :=
    Some {| paths := paths m ∪ {[ p ]}; texts := <[ p := pieces ]> (texts m) |};
|}.

Definition fresh (m : pc) : target pc := {|
  world := m;
  os_environ := ∅;
  state := ∅;
  _serials := None;
  p4a_recommended_ndk_version := None;
  artifact_format := "apk";
  trace := [];
|}.

(** [os.path.relpath] from the distribution directory of the machines
    below, six levels under the root *)
Definition relpath (p start : string) : string := "../../../../../.." +:+ p.

End Disk.

Definition dist_dir : string :=
  "/w/.buildozer/android/platform/build/dists/app".

(** a distribution whose project file holds an old reference twice *)
Definition old_project : Disk.pc := {|
  Disk.paths := {[ dist_dir +:+ "/project.properties"; "/w/libs/billing" ]};
  Disk.texts :=
    {[ dist_dir +:+ "/project.properties"
       := ["target=android-31" +:+ nl;
           "android.library.reference.1=../../old" +:+ nl;
           "android.library.reference.1=../../old" +:+ nl;
           "APP_PLATFORM=21"] ]};
|}.

Definition references (l : list string) (key : string) : list string :=
  if String.eqb key "android.library_references" then l else [].

Definition in_w : buildozer := Sim.project [("source.dir", "/w")].

(* ===================================================================== *)
(** ** Reasoning about runs *)
(* ===================================================================== *)

Lemma append_empty_r (s : string) : s +:+ "" = s.
Proof.
  induction s as [|c s IH]; [done|].
  change (String c (s +:+ "") = String c s). by f_equal.
Qed.

Lemma append_assoc (s1 s2 s3 : string) : (s1 +:+ s2) +:+ s3 = s1 +:+ s2 +:+ s3.
Proof.
  induction s1 as [|c s1 IH]; [done|].
  change (String c ((s1 +:+ s2) +:+ s3) = String c (s1 +:+ s2 +:+ s3)).
  by f_equal.
Qed.

#[global] Instance permits_all : Permits (λ _, True).
Proof. by split. Qed.
#[global] Instance permits_not_stores : Permits (λ e, ¬ stores e).
Proof. split; intros; cbn; tauto. Qed.
#[global] Instance permits_not_removes : Permits (λ e, ¬ removes e).
Proof. split; intros; cbn; tauto. Qed.

Section Runs.
Context {W : Type} `{BuildOps W}.
Implicit Types t : target W.

Lemma wp_run {A} (m : M W A) Q t :
  wp m Q t → ∀ r t', m t = (r, t') → Q r t'.
Proof. unfold wp. intros HQ r t' E. by rewrite E in HQ. Qed.

Lemma wp_mono {A} (m : M W A) (Q Q' : result A → target W → Prop) t :
  wp m Q t → (∀ r t', Q r t' → Q' r t') → wp m Q' t.
Proof. unfold wp. auto. Qed.

Lemma wp_ret {A} (a : A) Q t : Q (Ok a) t → wp (ret a) Q t.
Proof. done. Qed.

Lemma wp_raise {A} e (Q : result A → target W → Prop) t :
  Q (Raise e) t → wp (raise e) Q t.
Proof. done. Qed.

Lemma wp_bind {A B} (m : M W A) (k : A → M W B) Q t :
  wp m (λ r t', match r with
                | Ok a => wp (k a) Q t'
                | Raise e => Q (Raise e) t'
                end) t →
  wp (bind m k) Q t.
Proof. unfold wp, bind. by destruct (m t) as [[a|e] t']. Qed.

Lemma wp_bind_ok {A B} (m : M W A) (k : A → M W B) Q t a t1 :
  m t = (Ok a, t1) → wp (k a) Q t1 → wp (bind m k) Q t.
Proof. unfold wp, bind. by intros ->. Qed.

Lemma wp_bind_raise {A B} (m : M W A) (k : A → M W B) Q t e t1 :
  m t = (Raise e, t1) → Q (Raise e) t1 → wp (bind m k) Q t.
Proof. unfold wp, bind. by intros ->. Qed.

Lemma wp_gets {A} (f : target W → A) Q t : Q (Ok (f t)) t → wp (gets f) Q t.
Proof. done. Qed.

Lemma wp_observe {A} (f : W → A) Q t :
  Q (Ok (f (world t))) t → wp (observe f) Q t.
Proof. done. Qed.

Lemma wp_modify f Q t : Q (Ok ()) (f t) → wp (modify f) Q t.
Proof. done. Qed.

Lemma wp_log l msg Q t : Q (Ok ()) (emit (Log l msg) t) → wp (log l msg) Q t.
Proof. done. Qed.

Lemma wp_host_call c Q t :
  (∀ r w, call c (world t) = (r, w) →
          Q r (set_world w (emit (Host c) t))) →
  wp (host_call c) Q t.
Proof.
  unfold wp, host_call. intros HQ.
  destruct (call c (world t)) as [r w] eqn:E. by apply HQ.
Qed.

#[global] Instance delta_refl P : Reflexive (delta (W:=W) P).
Proof. intros t. split; try done. exists []. by rewrite app_nil_r. Qed.

#[global] Instance delta_trans P : Transitive (delta (W:=W) P).
Proof.
  intros t1 t2 t3 [(d1 & E1 & F1) S1 W1 V1 A1] [(d2 & E2 & F2) S2 W2 V2 A2].
  split.
  - exists (d1 ++ d2). rewrite E2, E1, app_assoc. split; [done|].
    by apply Forall_app.
  - intros HP. by rewrite S2, S1.
  - intros HP. by rewrite W2, W1.
  - by rewrite V2.
  - by rewrite A2.
Qed.

Lemma delta_weaken (P P' : event → Prop) t t' :
  (∀ e, P e → P' e) → (∀ e, P' e → ¬ stores e) → (∀ e, P' e → ¬ calls_out e) →
  delta P t t' → delta P' t t'.
Proof.
  intros HPP Hs Hc [(d & E & F) S1 W1 V1 A1]. split; try done.
  - exists d. split; [done|]. eapply Forall_impl; eauto.
  - intros _. apply S1. naive_solver.
  - intros _. apply W1. naive_solver.
Qed.

Lemma delta_emit (P : event → Prop) e t : P e → ¬ stores e → ¬ calls_out e →
  delta P t (emit e t).
Proof.
  intros HP Hs Hc. split; try done. exists [e]. split; [done|].
  by constructor.
Qed.

Lemma delta_call (P : event → Prop) c w t :
  P (Host c) → delta P t (set_world w (emit (Host c) t)).
Proof.
  intros HP. split; try done.
  - exists [Host c]. split; [done|]. by constructor.
  - intros HnP. by destruct (HnP _ HP).
Qed.

Lemma delta_host_calls (P : event → Prop) t t' :
  (∀ e, P e → ¬ calls_out e) → delta P t t' →
  host_calls (trace t') = host_calls (trace t).
Proof.
  intros HP [(d & -> & F) _ _ _ _]. unfold host_calls. rewrite omap_app.
  assert (E : omap (λ e, match e with Host c => Some c | _ => None end) d = []).
  { induction F as [|e d He _ IH]; [done|]. cbn.
    destruct e; try done. by destruct (HP _ He). }
  by rewrite E, app_nil_r.
Qed.

Lemma wp_respects {A} R (m : M W A) (Q : result A → target W → Prop) t :
  respects R m → (∀ r t', R t t' → Q r t') → wp m Q t.
Proof. unfold wp, respects. auto. Qed.

Section Respects.
Context (R : relation (target W)) `{!Reflexive R, !Transitive R}.

Lemma respects_ret {A} (a : A) : respects R (ret a).
Proof. intros t. reflexivity. Qed.

Lemma respects_raise {A} e : respects R (raise (A:=A) e).
Proof. intros t. reflexivity. Qed.

Lemma respects_gets {A} (f : target W → A) : respects R (gets f).
Proof. intros t. reflexivity. Qed.

Lemma respects_observe {A} (f : W → A) : respects R (observe f).
Proof. intros t. reflexivity. Qed.

Lemma respects_from_option {A} e (o : option A) : respects R (from_option e o).
Proof. destruct o; intros t; reflexivity. Qed.

Lemma respects_from_result {A} (r : result A) : respects R (from_result r).
Proof. destruct r; intros t; reflexivity. Qed.

Lemma respects_bind {A B} (m : M W A) (k : A → M W B) :
  respects R m → (∀ a, respects R (k a)) → respects R (bind m k).
Proof.
  intros Hm Hk t. unfold bind. specialize (Hm t).
  destruct (m t) as [[a|e] t']; cbn in *; [|done].
  etrans; [exact Hm|]. apply Hk.
Qed.
End Respects.

Section Permitted.
Context (P : event → Prop) `{!Permits P}.

Lemma respects_log l msg : respects (W:=W) (delta P) (log l msg).
Proof. intros t. apply delta_emit; [apply permits_log|cbn; tauto..]. Qed.

Lemma respects_send s : respects (W:=W) (delta P) (modify (emit (Sendline s))).
Proof. intros t. apply delta_emit; [apply permits_send|cbn; tauto..]. Qed.

Lemma respects_host_call c : ¬ removes (Host c) → respects (W:=W) (delta P) (host_call c).
Proof.
  intros Hc t. unfold host_call. destruct (call c (world t)) as [r w].
  apply delta_call. by apply permits_host.
Qed.

Lemma respects_set_recommended v : respects (W:=W) (delta P) (modify (set_recommended v)).
Proof. intros t. split; try done. exists []. by rewrite app_nil_r. Qed.

Lemma respects_set_serials v : respects (W:=W) (delta P) (modify (set_serials v)).
Proof. intros t. split; try done. exists []. by rewrite app_nil_r. Qed.
End Permitted.

End Runs.

(** Walks a method and shows that it respects a [delta]. *)
Ltac frame_step :=
  match goal with
  | |- respects _ (bind _ _) => apply respects_bind; [apply _ | | intros ?]
  | |- respects _ (ret _) => apply respects_ret; apply _
  | |- respects _ (raise _) => apply respects_raise; apply _
  | |- respects _ (gets _) => apply respects_gets; apply _
  | |- respects _ (observe _) => apply respects_observe; apply _
  | |- respects _ (from_option _ _) => apply respects_from_option; apply _
  | |- respects _ (from_result _) => apply respects_from_result; apply _
  | |- respects _ (log _ _) => apply respects_log; apply _
  | |- respects _ (modify (emit (Sendline _))) => apply respects_send; apply _
  | |- respects _ (modify (set_recommended _)) =>
      apply respects_set_recommended
  | |- respects _ (modify (set_serials _)) => apply respects_set_serials
  | |- respects _ (host_call _) =>
      apply respects_host_call; [apply _ | cbn; tauto]
  | |- respects _ (if ?c then _ else _) => destruct c
  | |- respects _ (match ?x with _ => _ end) => destruct x
  | |- respects _ (let (_, _) := ?x in _) => destruct x
  end.

Ltac frame := repeat (first [solve [eauto with frame] | frame_step]).

Create HintDb frame.

Section Frames.
Context {W : Type} `{BuildOps W} {V : Type} `{VersionLib V}.
Context (h : host) (b : buildozer).
Context (P : event → Prop) `{!Permits P}.

Lemma scan_recommendations_frame lines failure :
  respects (delta P) (Android.scan_recommendations (W:=W) lines failure).
Proof.
  induction lines as [|line rest IH]; cbn [Android.scan_recommendations];
    frame.
Qed.
Hint Resolve scan_recommendations_frame : frame.

Lemma p4a_recommended_frame :
  respects (delta P) (Android.p4a_recommended_android_ndk h b).
Proof. unfold Android.p4a_recommended_android_ndk. frame. Qed.
Hint Resolve p4a_recommended_frame : frame.

Lemma android_ndk_version_frame :
  respects (delta P) (Android.android_ndk_version h b).
Proof. unfold Android.android_ndk_version. frame. Qed.
Hint Resolve android_ndk_version_frame : frame.

Lemma android_ndk_dir_frame : respects (delta P) (Android.android_ndk_dir h b).
Proof. unfold Android.android_ndk_dir. frame. Qed.
Hint Resolve android_ndk_dir_frame : frame.

Lemma cache_value_frame : respects (delta P) (Android.cache_value h b).
Proof. unfold Android.cache_value. frame. Qed.

Lemma sdkmanager_path_frame : respects (delta P) (Android.sdkmanager_path h b).
Proof. unfold Android.sdkmanager_path. frame. Qed.
Hint Resolve sdkmanager_path_frame : frame.

Lemma _sdkmanager_frame args child kwargs :
  respects (delta P) (Android._sdkmanager h b args child kwargs).
Proof. unfold Android._sdkmanager. frame. Qed.
Hint Resolve _sdkmanager_frame : frame.

Lemma accept_licenses_frame matches :
  respects (delta P) (Android.accept_licenses (W:=W) matches).
Proof.
  induction matches as [|m rest IH]; cbn [Android.accept_licenses]; frame.
Qed.
Hint Resolve accept_licenses_frame : frame.

Lemma _android_update_sdk_frame cmds :
  respects (delta P) (Android._android_update_sdk h b cmds).
Proof. unfold Android._android_update_sdk. frame. Qed.
Hint Resolve _android_update_sdk_frame : frame.

Lemma parse_version_frame s :
  respects (delta P) (Android.parse_version (W:=W) (V:=V) s).
Proof. unfold Android.parse_version. frame. Qed.
Hint Resolve parse_version_frame : frame.

Lemma build_tools_versions_frame lines acc :
  respects (delta P) (Android.build_tools_versions (W:=W) (V:=V) lines acc).
Proof.
  revert acc. induction lines as [|line rest IH]; intros acc;
    cbn [Android.build_tools_versions]; frame.
Qed.
Hint Resolve build_tools_versions_frame : frame.

Lemma _android_list_frame :
  respects (delta P) (Android._android_list_build_tools_versions (V:=V) h b).
Proof. unfold Android._android_list_build_tools_versions. frame. Qed.
Hint Resolve _android_list_frame : frame.

Lemma _read_version_subdir_frame dir :
  respects (delta P) (Android._read_version_subdir (V:=V) dir).
Proof. unfold Android._read_version_subdir. frame. Qed.
Hint Resolve _read_version_subdir_frame : frame.

Lemma _check_aidl_frame v :
  respects (delta P) (Android._check_aidl (V:=V) h b v).
Proof. unfold Android._check_aidl. frame. Qed.
Hint Resolve _check_aidl_frame : frame.

Lemma install_steps_frame :
  respects (delta P) (Android.install_steps (V:=V) h b).
Proof. unfold Android.install_steps. frame. Qed.

End Frames.

#[global] Hint Resolve permits_all permits_not_stores permits_not_removes
  : frame.
#[global] Hint Resolve scan_recommendations_frame p4a_recommended_frame
  android_ndk_version_frame android_ndk_dir_frame sdkmanager_path_frame
  _sdkmanager_frame accept_licenses_frame _android_update_sdk_frame
  parse_version_frame build_tools_versions_frame _android_list_frame
  _read_version_subdir_frame _check_aidl_frame : frame.

(* ===================================================================== *)
(** ** Signing environment and release mode *)
(* ===================================================================== *)

Section Signing.
Context {W : Type}.
Implicit Types t : target W.

Lemma check_keys_spec error keys check t :
  ∃ t', Android.check_keys error keys check t
          = (Ok (check && forallb (present (os_environ t)) keys), t')
        ∧ os_environ t' = os_environ t
        ∧ artifact_format t' = artifact_format t
        ∧ (error = false → t' = t).
Proof.
  revert check t. induction keys as [|key rest IH]; intros check t.
  - exists t. cbn. by rewrite andb_true_r.
  - cbn [Android.check_keys forallb]. unfold bind at 1, gets at 1.
    unfold present at 1.
    destruct (os_environ t !! ("P4A_RELEASE_" +:+ key)) as [v|] eqn:E.
    + rewrite bool_decide_true by eauto. cbn. apply IH.
    + rewrite bool_decide_false by (intros [? ?]; done).
      destruct error; cbn.
      * destruct (IH false (emit (Log Error
          ("Asking for release but " +:+ ("P4A_RELEASE_" +:+ key) +:+
           " is missing--sign will not be passed")) t))
          as (t' & E' & Henv & Hfmt & _).
        exists t'. unfold bind, log, modify. rewrite E'.
        rewrite andb_false_r. cbn in *. repeat split; try done.
      * destruct (IH false t) as (t' & E' & Henv & Hfmt & Hsame).
        exists t'. rewrite andb_false_r. unfold bind, ret. done.
Qed.

Lemma present_all env :
  forallb (present env) Android.sign_keys = true ↔ signing_env_complete env.
Proof.
  unfold signing_env_complete, signing_variables, Android.sign_keys, present.
  cbn. rewrite !andb_true_iff, !bool_decide_eq_true. split.
  - intros (? & ? & ? & ? & _) k Hk.
    repeat (apply elem_of_cons in Hk as [->|Hk]; [done|]).
    by apply elem_of_nil in Hk.
  - intros Hall. repeat split; apply Hall; set_solver.
Qed.

(** C10. [check_p4a_sign_env] answers true exactly when the four
    [P4A_RELEASE_*] variables are all in the environment, whether or not
    it is asked to report the missing ones; [get_release_mode] answers
    "release" exactly when that holds or the artifact format is "aab" or
    "aar", and "release-unsigned" in every other case.  Neither raises. *)
Theorem release_mode_iff_signed_or_bundle t error :
  (∃ check t',
      Android.check_p4a_sign_env error t = (Ok check, t')
      ∧ (check = true ↔ signing_env_complete (os_environ t)))
  ∧ (∃ mode,
      Android.get_release_mode t = (Ok mode, t)
      ∧ (mode = "release" ↔
           signing_env_complete (os_environ t)
           ∨ artifact_format t = "aab" ∨ artifact_format t = "aar")
      ∧ (mode ≠ "release" → mode = "release-unsigned")).
Proof.
  split.
  - destruct (check_keys_spec error Android.sign_keys true t)
      as (t' & E & _).
    eexists _, t'. split; [exact E|]. cbn [andb]. apply present_all.
  - destruct (check_keys_spec false Android.sign_keys true t)
      as (t' & E & _ & _ & Hsame).
    rewrite (Hsame eq_refl) in E. cbn [andb] in E.
    unfold Android.get_release_mode, Android.check_p4a_sign_env.
    unfold bind at 1. rewrite E. unfold bind, gets.
    pose proof (present_all (os_environ t)) as Hall.
    destruct (forallb (present (os_environ t)) Android.sign_keys) eqn:Eall.
    + cbn. eexists. split; [done|]. split; [|done].
      split; [intros _; left; by apply Hall | done].
    + cbn [orb].
      assert (Hfmt : Py.among (artifact_format t) ["aab"; "aar"] = true
                     ↔ artifact_format t = "aab" ∨ artifact_format t = "aar").
      { unfold Py.among. cbn. rewrite !orb_true_iff, !String.eqb_eq.
        intuition discriminate. }
      assert (Hno : ¬ signing_env_complete (os_environ t)).
      { intros Hc. apply Hall in Hc. discriminate. }
      destruct (Py.among (artifact_format t) ["aab"; "aar"]).
      * eexists. split; [done|]. split; [|done].
        split; [intros _; right; by apply Hfmt | done].
      * eexists. split; [done|]. split; [|done].
        split; [discriminate|].
        intros [?|Hf]; [done|]. apply Hfmt in Hf. discriminate.
Qed.
End Signing.


(* ===================================================================== *)
(** ** Device serials *)
(* ===================================================================== *)

Section Serials.
Context {W : Type} `{BuildOps W} (b : buildozer).
Implicit Types t : target W.

Lemma collect_serials_spec lines acc :
  Forall (λ l, is_device_line l = true → Py.split_ws l ≠ []) lines →
  Android.collect_serials lines acc
  = Ok (acc ++ (first_field <$> List.filter is_device_line lines)).
Proof.
  intros Hf. revert acc. induction Hf as [|line rest Hline _ IH]; intros acc.
  - cbn. by rewrite app_nil_r.
  - cbn [Android.collect_serials List.filter]. unfold is_device_line in *.
    destruct (truthy line); cbn [negb andb]; [|apply IH].
    destruct (Py.startswith line "*"); cbn [negb andb orb]; [apply IH|].
    destruct (Py.startswith line "List "); cbn [negb andb orb]; [apply IH|].
    unfold first_field. cbn [fmap list_fmap].
    destruct (Py.split_ws line) as [|f fs] eqn:E; [by destruct Hline|].
    cbn. rewrite IH. by rewrite <- app_assoc.
Qed.

Lemma enumerate_serials_spec t r w :
  call (devices_cmd b) (world t) = (Ok r, w) →
  Forall (λ l, is_device_line l = true → Py.split_ws l ≠ [])
         (Py.splitlines (stdout r)) →
  let found := first_field <$> List.filter is_device_line
                                 (Py.splitlines (stdout r)) in
  Android.enumerate_serials b t
  = (Ok found,
     set_serials (Some found) (set_world w (emit (Host (devices_cmd b)) t))).
Proof.
  intros Hcall Hlines found. unfold Android.enumerate_serials.
  unfold bind at 1, host_call. fold (devices_cmd b). rewrite Hcall.
  rewrite (collect_serials_spec _ [] Hlines). done.
Qed.

Lemma serials_unfold t :
  Android.serials b t
  = match _serials t with
    | Some l => (Ok l, t)
    | None =>
        match os_environ t !! "ANDROID_SERIAL" with
        | Some s =>
            if truthy s then (Ok (Py.split s ","), t)
            else Android.enumerate_serials b t
        | None => Android.enumerate_serials b t
        end
    end.
Proof.
  unfold Android.serials, bind, gets, ret.
  destruct (_serials t); [done|].
  destruct (os_environ t !! "ANDROID_SERIAL") as [s|]; [|done].
  by destruct (truthy s).
Qed.

(** C7, as the code has it.  With no list cached yet: when
    [ANDROID_SERIAL] is set to a non-empty value, its comma-split value is
    returned and nothing else happens (no call to the bridge, nothing
    cached); when it is unset or empty, the bridge is called once, every
    line of its listing that is empty or starts with [*] or [List ] is
    dropped, and the first whitespace-separated field of each remaining
    line is returned, each such line holding a field. *)
Theorem serials_override_or_enumeration t :
  _serials t = None →
  (∀ s, os_environ t !! "ANDROID_SERIAL" = Some s → s ≠ "" →
        Android.serials b t = (Ok (Py.split s ","), t))
  ∧ (os_environ t !! "ANDROID_SERIAL" = None
     ∨ os_environ t !! "ANDROID_SERIAL" = Some "" →
     ∀ r w,
       call (devices_cmd b) (world t) = (Ok r, w) →
       Forall (λ l, is_device_line l = true → Py.split_ws l ≠ [])
              (Py.splitlines (stdout r)) →
       let found := first_field <$> List.filter is_device_line
                                      (Py.splitlines (stdout r)) in
       Android.serials b t
       = (Ok found,
          set_serials (Some found)
            (set_world w (emit (Host (devices_cmd b)) t)))).
Proof.
  intros Hnone. rewrite serials_unfold, Hnone. split.
  - intros s Hs Hne. rewrite Hs. by destruct s.
  - intros Henv r w Hcall Hlines found.
    destruct Henv as [-> | ->]; cbn [truthy];
      by apply enumerate_serials_spec.
Qed.

(** C8, as the code has it.  Whatever list a call hands back, either it is
    now cached, and then every later call, in any environment and on any
    machine state, hands back that list and does nothing else; or the call
    took it from [ANDROID_SERIAL], changed nothing and cached nothing. *)
Theorem serials_cached_after_enumeration t found t1 :
  Android.serials b t = (Ok found, t1) →
  (_serials t1 = Some found
   ∧ ∀ t2, _serials t2 = _serials t1 → Android.serials b t2 = (Ok found, t2))
  ∨ (_serials t1 = None ∧ t1 = t
     ∧ ∃ s, os_environ t !! "ANDROID_SERIAL" = Some s ∧ s ≠ ""
            ∧ found = Py.split s ",").
Proof.
  assert (Hcached : ∀ t2 l, _serials t2 = Some l →
                            Android.serials b t2 = (Ok l, t2)).
  { intros t2 l E. by rewrite serials_unfold, E. }
  assert (Henum : ∀ l t', Android.enumerate_serials b t = (Ok l, t') →
                          _serials t' = Some l).
  { intros l t'. unfold Android.enumerate_serials, bind at 1, host_call.
    destruct (call _ (world t)) as [[r|e] w]; [|discriminate].
    destruct (Android.collect_serials _ _) as [l'|e]; [|discriminate].
    unfold bind, modify, ret. intros [= <- <-]. done. }
  intros Hrun. destruct (_serials t) as [l0|] eqn:E0.
  - rewrite (Hcached t l0 E0) in Hrun. injection Hrun as <- <-.
    left. split; [done|]. intros t2 E2. apply Hcached. congruence.
  - rewrite serials_unfold, E0 in Hrun.
    destruct (os_environ t !! "ANDROID_SERIAL") as [s|] eqn:Es.
    + destruct s as [|c s].
      * cbn [truthy] in Hrun. left. apply Henum in Hrun as E1.
        split; [done|]. intros t2 E2. apply Hcached. congruence.
      * cbn [truthy] in Hrun. injection Hrun as <- <-. right.
        split; [done|]. split; [done|]. by exists (String c s).
    + left. apply Henum in Hrun as E1.
      split; [done|]. intros t2 E2. apply Hcached. congruence.
Qed.
End Serials.

(** C7 as stated fails: with [ANDROID_SERIAL] set, but to the empty string,
    the bridge is called and its device is returned, not the comma-split
    value [['']] of the variable. *)
Lemma serials_empty_override_enumerates :
  let t := Sim.fresh one_emulator [("ANDROID_SERIAL", "")] in
  let run := Android.serials (Sim.project []) t in
  os_environ t !! "ANDROID_SERIAL" = Some ""
  ∧ run.1 = Ok ["emulator-5554"]
  ∧ run.1 ≠ Ok (Py.split "" ",")
  ∧ trace run.2 = [Host (devices_cmd (Sim.project []))].
Proof. vm_compute. repeat split; congruence. Qed.

Lemma serials_override_or_enumeration_witness :
  Android.serials (Sim.project [])
    (Sim.fresh one_emulator [("ANDROID_SERIAL", "A,B")])
  = (Ok ["A"; "B"], Sim.fresh one_emulator [("ANDROID_SERIAL", "A,B")]).
Proof.
  apply (proj1 (serials_override_or_enumeration (Sim.project [])
                  (Sim.fresh one_emulator [("ANDROID_SERIAL", "A,B")])
                  eq_refl) "A,B"); [reflexivity | discriminate].
Defined.

(** C8 as stated fails: a list taken from [ANDROID_SERIAL] is not cached.
    Once the variable is gone, the next call enumerates the bridge and
    returns another list. *)
Lemma serials_override_not_cached :
  let t := Sim.fresh one_emulator [("ANDROID_SERIAL", "A")] in
  let first := Android.serials (Sim.project []) t in
  let later := set_environ ∅ first.2 in
  let second := Android.serials (Sim.project []) later in
  first.1 = Ok ["A"]
  ∧ _serials first.2 = None
  ∧ second.1 = Ok ["emulator-5554"]
  ∧ second.1 ≠ first.1
  ∧ trace second.2 = [Host (devices_cmd (Sim.project []))].
Proof. vm_compute. repeat split; congruence. Qed.

Lemma serials_cached_after_enumeration_witness :
  let later := set_serials (Some ["emulator-5554"])
                 (Sim.fresh one_emulator [("ANDROID_SERIAL", "Z")]) in
  Android.serials (Sim.project []) later = (Ok ["emulator-5554"], later).
Proof.
  intros later.
  destruct (serials_cached_after_enumeration (H:=Sim.ops) (Sim.project [])
              (Sim.fresh one_emulator []) ["emulator-5554"]
              (set_serials (Some ["emulator-5554"])
                 (set_world one_emulator
                    (emit (Host (devices_cmd (Sim.project [])))
                       (Sim.fresh one_emulator []))))
              ltac:(vm_compute; reflexivity))
    as [[_ Hlater] | [Hnone _]].
  - apply Hlater. reflexivity.
  - discriminate Hnone.
Defined.


(* ===================================================================== *)
(** ** The recommended NDK version *)
(* ===================================================================== *)

Lemma prefix_empty s : String.prefix "" s = true.
Proof. by destruct s. Qed.

Lemma replace_char c s :
  Py.replace s (String c "") "" = sfilter (λ d, negb (Ascii.eqb d c)) s.
Proof.
  unfold Py.replace. induction s as [|d s IH]; [done|].
  cbn [Py.replace_from sfilter String.prefix].
  destruct (ascii_dec c d) as [<-|Hne].
  - rewrite prefix_empty, Ascii.eqb_refl. cbn. exact IH.
  - destruct (Ascii.eqb_spec d c) as [->|_]; [done|]. cbn. by rewrite IH.
Qed.

Lemma sfilter_sfilter f g s :
  sfilter f (sfilter g s) = sfilter (λ c, g c && f c) s.
Proof.
  induction s as [|c s IH]; [done|]. cbn.
  destruct (g c); cbn; [destruct (f c); cbn|]; by rewrite ?IH.
Qed.

Lemma sfilter_ext f g s : (∀ c, f c = g c) → sfilter f s = sfilter g s.
Proof.
  intros E. induction s as [|c s IH]; [done|]. cbn. by rewrite E, IH.
Qed.

Lemma clean_version_filter s :
  Android.clean_version s = sfilter (λ c, negb (unwanted_char c)) s.
Proof.
  unfold Android.clean_version, Android.unwanted. cbn [foldl].
  rewrite !replace_char, !sfilter_sfilter. apply sfilter_ext.
  intros c. unfold unwanted_char. by rewrite !negb_orb, !andb_assoc.
Qed.

Section Recommended.
Context {W : Type} `{BuildOps W} `{Reading W} (h : host) (b : buildozer).
Implicit Types t : target W.

Lemma scan_no_marker lines t :
  Forall (λ l, has_marker l = false) lines →
  Android.scan_recommendations lines None t = (Ok "17c", t).
Proof.
  induction 1 as [|line rest Hl _ IH]; [done|].
  cbn [Android.scan_recommendations]. unfold has_marker in Hl. by rewrite Hl.
Qed.

Lemma scan_read_error lines e t :
  Forall (λ l, has_marker l = false) lines →
  Android.scan_recommendations lines (Some e) t = (Raise e, t).
Proof.
  induction 1 as [|line rest Hl _ IH]; [done|].
  cbn [Android.scan_recommendations]. unfold has_marker in Hl. by rewrite Hl.
Qed.

Lemma scan_first_marker pre line post failure t :
  Forall (λ l, has_marker l = false) pre →
  has_marker line = true →
  Android.scan_recommendations (pre ++ line :: post) failure t
  = (Ok (recommended_value line),
     set_recommended (Some (recommended_value line))
       (emit (Log Info ("Recommended android's NDK version by p4a is: "
                        +:+ recommended_value line)) t)).
Proof.
  intros Hpre Hline. induction Hpre as [|l pre Hl _ IH].
  - cbn [app Android.scan_recommendations]. unfold has_marker in Hline.
    rewrite Hline, clean_version_filter. done.
  - cbn [app Android.scan_recommendations]. unfold has_marker in Hl.
    by rewrite Hl.
Qed.

(** every list of lines either has a first marker line or has none *)
Lemma marker_split lines :
  Forall (λ l, has_marker l = false) lines
  ∨ ∃ pre line post, lines = pre ++ line :: post
                     ∧ Forall (λ l, has_marker l = false) pre
                     ∧ has_marker line = true.
Proof.
  induction lines as [|l lines IH]; [by left|].
  destruct (has_marker l) eqn:E.
  - right. by exists [], l, lines.
  - destruct IH as [Hall | (pre & line & post & -> & Hpre & Hline)].
    + left. by constructor.
    + right. exists (l :: pre), line, post. repeat split; [|done].
      by constructor.
Qed.

Lemma recommended_unfold t :
  Android.p4a_recommended_android_ndk h b t
  = match p4a_recommended_ndk_version t with
    | Some v => (Ok v, t)
    | None =>
        if isfile (rec_file h b) (world t)
        then Android.scan_recommendations
               (open_lines (rec_file h b) (world t)).1
               (open_lines (rec_file h b) (world t)).2 t
        else (Ok "17c", emit (Log Error Android.MSG_P4A_RECOMMENDED_NDK_ERROR) t)
    end.
Proof.
  unfold Android.p4a_recommended_android_ndk, bind, gets, observe, gets.
  fold (rec_file h b). destruct (p4a_recommended_ndk_version t); [done|].
  by destruct (isfile (rec_file h b) (world t)).
Qed.

(** An error raised while the file is opened or read is not handled: when
    no marker line was read before it, the property raises it. *)
Lemma recommended_read_error_is_passed_on t e :
  p4a_recommended_ndk_version t = None →
  isfile (rec_file h b) (world t) = true →
  Forall (λ l, has_marker l = false) (open_lines (rec_file h b) (world t)).1 →
  (open_lines (rec_file h b) (world t)).2 = Some e →
  Android.p4a_recommended_android_ndk h b t = (Raise e, t).
Proof.
  intros Hc Hf Hlines He. rewrite recommended_unfold, Hc, Hf, He.
  by apply scan_read_error.
Qed.

(** C6, as the code has it.  A version cached by an earlier call is
    returned as it is.  With nothing cached: when the file is missing,
    "17c" is returned and the warning is logged; when the first marker
    line is read, its value without quotes, spaces and newlines is
    returned, logged and cached, whatever follows that line; when the
    file is read to its end without a marker line, "17c" is returned and
    nothing is logged at all; when opening or reading the file raises
    before a marker line was read, that error is raised, with nothing
    logged or cached.  So the property returns a version exactly when the
    file, if it is looked at, can be read to a marker line or to its
    end. *)
Theorem recommended_ndk_when_readable t :
  (∀ v, p4a_recommended_ndk_version t = Some v →
        Android.p4a_recommended_android_ndk h b t = (Ok v, t))
  ∧ (p4a_recommended_ndk_version t = None →
     (isfile (rec_file h b) (world t) = false →
        Android.p4a_recommended_android_ndk h b t
        = (Ok "17c", emit (Log Error Android.MSG_P4A_RECOMMENDED_NDK_ERROR) t))
     ∧ (isfile (rec_file h b) (world t) = true →
        Forall (λ l, has_marker l = false)
               (open_lines (rec_file h b) (world t)).1 →
        (open_lines (rec_file h b) (world t)).2 = None →
        Android.p4a_recommended_android_ndk h b t = (Ok "17c", t))
     ∧ (isfile (rec_file h b) (world t) = true →
        ∀ pre line post,
          (open_lines (rec_file h b) (world t)).1 = pre ++ line :: post →
          Forall (λ l, has_marker l = false) pre →
          has_marker line = true →
          Android.p4a_recommended_android_ndk h b t
          = (Ok (recommended_value line),
             set_recommended (Some (recommended_value line))
               (emit (Log Info ("Recommended android's NDK version by p4a is: "
                                +:+ recommended_value line)) t)))
     ∧ (isfile (rec_file h b) (world t) = true →
        Forall (λ l, has_marker l = false)
               (open_lines (rec_file h b) (world t)).1 →
        ∀ e, (open_lines (rec_file h b) (world t)).2 = Some e →
             Android.p4a_recommended_android_ndk h b t = (Raise e, t)))
  ∧ ((p4a_recommended_ndk_version t = None →
      isfile (rec_file h b) (world t) = true →
      read_to_marker_or_end (rec_file h b) (world t))
     ↔ ∃ v t', Android.p4a_recommended_android_ndk h b t = (Ok v, t')).
Proof.
  split; [|split].
  - intros v Hv. by rewrite recommended_unfold, Hv.
  - intros Hnone. split; [|split; [|split]].
    + intros Hmiss. by rewrite recommended_unfold, Hnone, Hmiss.
    + intros Hfile Hall Hend.
      rewrite recommended_unfold, Hnone, Hfile, Hend. by apply scan_no_marker.
    + intros Hfile pre line post E Hpre Hline.
      rewrite recommended_unfold, Hnone, Hfile, E. by apply scan_first_marker.
    + intros Hfile Hall e He. by apply recommended_read_error_is_passed_on.
  - rewrite recommended_unfold. split; cycle 1.
    { intros (v & t' & E) Hnone Hfile. rewrite Hnone, Hfile in E.
      unfold read_to_marker_or_end.
      destruct (marker_split (open_lines (rec_file h b) (world t)).1)
        as [Hall | (pre & line & post & El & Hpre & Hline)].
      - destruct (open_lines (rec_file h b) (world t)).2 as [e|] eqn:He;
          [|by left].
        by rewrite scan_read_error in E.
      - right. rewrite El. apply Exists_exists. exists line.
        split; [|done]. apply elem_of_app. right. apply elem_of_cons. by left. }
    intros Hread.
    destruct (p4a_recommended_ndk_version t); [by eauto|].
    destruct (isfile (rec_file h b) (world t)); [|by eauto].
    specialize (Hread eq_refl eq_refl). unfold read_to_marker_or_end in Hread.
    destruct (marker_split (open_lines (rec_file h b) (world t)).1)
      as [Hall | (pre & line & post & E & Hpre & Hline)].
    + destruct Hread as [Hend|Hmarker].
      * rewrite Hend, scan_no_marker by done. eauto.
      * apply Exists_exists in Hmarker as (l & Hin & Hl).
        rewrite Forall_forall in Hall. rewrite (Hall l Hin) in Hl. done.
    + rewrite E, scan_first_marker by done. eauto.
Qed.
End Recommended.

(** C6 as stated fails, in two ways.  With a version cached by an earlier
    call and the recommendations file gone since, the cached version comes
    back, not "17c", and nothing is logged.  And on a first call with the
    file there but no marker line in it, "17c" comes back without any
    warning: nothing is logged. *)
Lemma recommended_cached_or_silent :
  (let t := set_recommended (Some "25b") (Sim.fresh (with_dirs []) []) in
   let run := Android.p4a_recommended_android_ndk Sim.linux (Sim.project []) t in
   isfile rec_path (world t) = false
   ∧ run.1 = Ok "25b"
   ∧ trace run.2 = [])
  ∧ (let t := Sim.fresh (checkout ["MIN_NDK_VERSION = 19" +:+ nl]) [] in
     let run := Android.p4a_recommended_android_ndk Sim.linux (Sim.project []) t in
     isfile rec_path (world t) = true
     ∧ run.1 = Ok "17c"
     ∧ trace run.2 = []).
Proof. vm_compute. done. Qed.

Lemma recommended_ndk_when_readable_witness :
  let line := "RECOMMENDED_NDK_VERSION = " +:+ String "034" "25b"
              +:+ String "034" nl in
  let t := Sim.fresh (checkout ["MIN_NDK_VERSION = 19" +:+ nl; line]) [] in
  (Android.p4a_recommended_android_ndk Sim.linux (Sim.project []) t).1
  = Ok "25b".
Proof.
  intros line t.
  pose proof (recommended_ndk_when_readable (H:=Sim.ops) (H0:=reliable)
                Sim.linux (Sim.project []) t) as (_ & Hfresh & _).
  destruct (Hfresh eq_refl) as (_ & _ & Hmarker & _).
  rewrite (Hmarker ltac:(vm_compute; reflexivity)
             ["MIN_NDK_VERSION = 19" +:+ nl] line []
             ltac:(vm_compute; reflexivity)
             ltac:(repeat constructor)
             ltac:(vm_compute; reflexivity)).
  vm_compute. reflexivity.
Defined.


(** On a machine where reading breaks off after the first line: a marker
    on that line is still found, and the version is returned; a marker
    further down is never reached, and the error is raised with nothing
    logged. *)
Example recommended_on_torn_file :
  let marker := "RECOMMENDED_NDK_VERSION = " +:+ String "034" "25b"
                +:+ String "034" nl in
  let run lines :=
    Android.p4a_recommended_android_ndk (H0:=torn) Sim.linux (Sim.project [])
      (Sim.fresh (checkout lines) []) in
  (run [marker; "MIN_NDK_VERSION = 19" +:+ nl]).1 = Ok "25b"
  ∧ (run ["MIN_NDK_VERSION = 19" +:+ nl; marker]).1
    = Raise (HostError "UnicodeDecodeError")
  ∧ trace (run ["MIN_NDK_VERSION = 19" +:+ nl; marker]).2 = [].
Proof. vm_compute. done. Qed.

(* ===================================================================== *)
(** ** What the version properties evaluate to *)
(* ===================================================================== *)

Section Resolved.
Context {W : Type} `{BuildOps W} (h : host) (b : buildozer).
Implicit Types t : target W.

#[global] Instance quiet_refl : Reflexive (quiet h b).
Proof. intros t. split; reflexivity. Qed.

#[global] Instance quiet_trans : Transitive (quiet h b).
Proof.
  intros t1 t2 t3 [D1 E1] [D2 E2]. split; [by etrans|]. by rewrite E2.
Qed.

Lemma quiet_world t t' : quiet h b t t' → world t' = world t.
Proof. intros [D _]. apply (delta_world _ _ _ D). intros e; destruct e; cbn; tauto. Qed.

Lemma quiet_state t t' : quiet h b t t' → state t' = state t.
Proof. intros [D _]. apply (delta_state _ _ _ D). intros e; destruct e; cbn; tauto. Qed.

Lemma quiet_host_calls t t' :
  quiet h b t t' → host_calls (trace t') = host_calls (trace t).
Proof.
  intros [D _]. apply (delta_host_calls is_log); [|done].
  intros e; destruct e; cbn; tauto.
Qed.

Lemma quiet_ndk_version t t' : quiet h b t t' → ndk_version_of h b t' = ndk_version_of h b t.
Proof. intros [_ E]. unfold ndk_version_of. by rewrite E. Qed.

Lemma quiet_ndk_dir t t' : quiet h b t t' → ndk_dir_of h b t' = ndk_dir_of h b t.
Proof.
  intros Hq. unfold ndk_dir_of. by rewrite (quiet_ndk_version _ _ Hq).
Qed.

Lemma quiet_tuple t t' : quiet h b t t' → tuple_of h b t' = tuple_of h b t.
Proof.
  intros Hq. unfold tuple_of.
  by rewrite (quiet_ndk_version _ _ Hq), (quiet_ndk_dir _ _ Hq).
Qed.

Lemma quiet_log l msg t : quiet h b t (emit (Log l msg) t).
Proof. split; [|done]. apply delta_emit; cbn; tauto. Qed.

Lemma scan_find lines t :
  Android.scan_recommendations lines None t
  = match List.find has_marker lines with
    | Some line =>
        (Ok (recommended_value line),
         set_recommended (Some (recommended_value line))
           (emit (Log Info ("Recommended android's NDK version by p4a is: "
                            +:+ recommended_value line)) t))
    | None => (Ok "17c", t)
    end.
Proof.
  induction lines as [|line rest IH]; [done|].
  cbn [Android.scan_recommendations List.find]. fold (has_marker line).
  destruct (has_marker line); [|exact IH].
  by rewrite clean_version_filter.
Qed.

Lemma recommended_spec t :
  ∃ t', Android.p4a_recommended_android_ndk h b t = (Ok (recommended_of h b t), t')
        ∧ quiet h b t t'.
Proof.
  rewrite recommended_unfold. unfold recommended_of.
  change (open_lines (rec_file h b) (world t))
    with (readlines (rec_file h b) (world t), @None exn).
  cbn [fst snd].
  destruct (p4a_recommended_ndk_version t) as [v|] eqn:Ec.
  - exists t. split; [done|]. reflexivity.
  - destruct (isfile (rec_file h b) (world t)) eqn:Ef.
    + rewrite scan_find.
      destruct (List.find has_marker _) as [line|] eqn:El; cbn.
      * eexists. split; [done|]. split.
        -- split; try done. exists [Log Info
             ("Recommended android's NDK version by p4a is: "
              +:+ recommended_value line)].
           split; [done|]. by repeat constructor.
        -- unfold recommended_of. cbn. by rewrite Ec, Ef, El.
      * exists t. split; [done|]. reflexivity.
    + eexists. split; [done|]. split; [apply delta_emit; cbn; tauto|].
      unfold recommended_of. cbn. by rewrite Ec, Ef.
Qed.

Lemma android_ndk_version_spec t :
  ∃ t', Android.android_ndk_version h b t = (Ok (ndk_version_of h b t), t')
        ∧ quiet h b t t'.
Proof.
  destruct (recommended_spec t) as (t' & E & Hq). exists t'.
  unfold Android.android_ndk_version, bind. by rewrite E.
Qed.

Lemma android_ndk_dir_spec t :
  ∃ t', Android.android_ndk_dir h b t = (Ok (ndk_dir_of h b t), t') ∧ quiet h b t t'.
Proof.
  unfold Android.android_ndk_dir, ndk_dir_of.
  destruct (truthy (expanduser h (getdefault b "android.ndk_path" ""))).
  - exists t. split; [done|]. reflexivity.
  - destruct (android_ndk_version_spec t) as (t' & E & Hq). exists t'.
    unfold bind. rewrite E. cbn. by rewrite append_empty_r.
Qed.

Lemma cache_value_spec t :
  ∃ t', Android.cache_value h b t = (Ok (tuple_of h b t), t') ∧ quiet h b t t'.
Proof.
  destruct (android_ndk_version_spec t) as (t1 & E1 & Hq1).
  destruct (android_ndk_dir_spec t1) as (t2 & E2 & Hq2).
  exists t2. unfold Android.cache_value, bind. rewrite E1, E2.
  unfold tuple_of. rewrite (quiet_ndk_dir _ _ Hq1). split; [done|].
  by etrans.
Qed.
End Resolved.


(* ===================================================================== *)
(** ** Installers *)
(* ===================================================================== *)

Section Installers.
Context {W : Type} `{BuildOps W} (h : host) (b : buildozer).
Implicit Types t : target W.

(** C5.  When its directory exists, each installer returns that directory
    at once: the machine is left as it was and no call goes out (no
    [makedirs], download, extraction or rename); only log lines are
    written.  Existence is all that is asked of the machine about the
    directory: the statement holds for every machine state in which
    [file_exists] answers true. *)
Theorem installers_return_existing_directory t :
  (file_exists (Android.apache_ant_dir h b) (world t) = true →
   ∃ t', Android._install_apache_ant h b t = (Ok (Android.apache_ant_dir h b), t')
         ∧ world t' = world t
         ∧ host_calls (trace t') = host_calls (trace t))
  ∧ (file_exists (Android.android_sdk_dir h b) (world t) = true →
     ∃ t', Android._install_android_sdk h b t
           = (Ok (Android.android_sdk_dir h b), t')
           ∧ world t' = world t
           ∧ host_calls (trace t') = host_calls (trace t))
  ∧ (file_exists (ndk_dir_of h b t) (world t) = true →
     ∃ t', Android._install_android_ndk h b t = (Ok (ndk_dir_of h b t), t')
           ∧ world t' = world t
           ∧ host_calls (trace t') = host_calls (trace t)).
Proof.
  split; [|split].
  - intros Hex. eexists.
    unfold Android._install_apache_ant, bind, observe, gets. rewrite Hex.
    cbn. split; [done|]. split; [done|].
    unfold host_calls. cbn. rewrite omap_app. cbn. by rewrite app_nil_r.
  - intros Hex. eexists.
    unfold Android._install_android_sdk, bind, observe, gets. rewrite Hex.
    cbn. split; [done|]. split; [done|].
    unfold host_calls. cbn. rewrite omap_app. cbn. by rewrite app_nil_r.
  - intros Hex. destruct (android_ndk_dir_spec h b t) as (t1 & E1 & Hq).
    eexists. unfold Android._install_android_ndk, bind at 1. rewrite E1.
    unfold bind, observe, gets. rewrite (quiet_world _ _ _ _ Hq), Hex. cbn.
    split; [done|]. split; [exact (quiet_world h b _ _ Hq)|].
    unfold host_calls. cbn. rewrite omap_app. cbn. rewrite app_nil_r.
    exact (quiet_host_calls h b _ _ Hq).
Qed.
End Installers.

Lemma installers_return_existing_directory_witness :
  let t := Sim.fresh
             (with_dirs ["/home/u/.buildozer/android/platform/apache-ant-1.9.4";
                         "/home/u/.buildozer/android/platform/android-sdk";
                         "/home/u/.buildozer/android/platform/android-ndk-r17c"])
             [] in
  (Android._install_apache_ant Sim.linux (Sim.project []) t).1
    = Ok "/home/u/.buildozer/android/platform/apache-ant-1.9.4"
  ∧ (Android._install_android_sdk Sim.linux (Sim.project []) t).1
    = Ok "/home/u/.buildozer/android/platform/android-sdk"
  ∧ (Android._install_android_ndk Sim.linux (Sim.project []) t).1
    = Ok "/home/u/.buildozer/android/platform/android-ndk-r17c".
Proof.
  intros t.
  destruct (installers_return_existing_directory (H:=Sim.ops) Sim.linux
              (Sim.project []) t) as (Hant & Hsdk & Hndk).
  destruct (Hant ltac:(vm_compute; reflexivity)) as (ta & Ea & _).
  destruct (Hsdk ltac:(vm_compute; reflexivity)) as (ts & Es & _).
  destruct (Hndk ltac:(vm_compute; reflexivity)) as (tn & En & _).
  rewrite Ea, Es, En. repeat split; vm_compute; reflexivity.
Defined.


(* ===================================================================== *)
(** ** Naming of the NDK archive *)
(* ===================================================================== *)

Section NdkArchive.
Context {W : Type} `{BuildOps W} (h : host) (b : buildozer).
Implicit Types t : target W.

Lemma host_calls_snoc_log tr l msg :
  host_calls (tr ++ [Log l msg]) = host_calls tr.
Proof. unfold host_calls. rewrite omap_app. cbn. by rewrite app_nil_r. Qed.

Lemma host_calls_snoc_host tr c :
  host_calls (tr ++ [Host c]) = host_calls tr ++ [c].
Proof. unfold host_calls. by rewrite omap_app. Qed.

(** the download, extraction and rename at the end of the installer *)
Lemma ndk_fetch_calls url archive unpacked ndk_dir gpd t :
  wp (bind (host_call (Download url archive gpd)) (λ _,
      bind (log Info "Unpacking Android NDK") (λ _,
      bind (host_call (FileExtract archive gpd)) (λ _,
      bind (host_call (Rename unpacked ndk_dir gpd)) (λ _,
      bind (log Info "Android NDK installation done.") (λ _,
      ret ndk_dir))))))
     (λ r t', ∃ rest,
        host_calls (trace t')
        = host_calls (trace t) ++ Download url archive gpd :: rest
        ∧ rest `prefix_of` [FileExtract archive gpd;
                            Rename unpacked ndk_dir gpd]
        ∧ ∀ d, r = Ok d →
               d = ndk_dir
               ∧ rest = [FileExtract archive gpd; Rename unpacked ndk_dir gpd])
     t.
Proof.
  apply wp_bind, wp_host_call. intros [r1|e1] w1 _.
  2:{ exists []. cbn [trace set_world emit].
      rewrite host_calls_snoc_host.
      split; [done|]. split; [apply prefix_nil|done]. }
  apply wp_bind, wp_log. apply wp_bind, wp_host_call. intros [r2|e2] w2 _.
  2:{ exists [FileExtract archive gpd]. cbn [trace set_world emit].
      rewrite host_calls_snoc_host, host_calls_snoc_log,
        host_calls_snoc_host, <- app_assoc.
      split; [done|]. split; [by exists [Rename unpacked ndk_dir gpd]|done]. }
  apply wp_bind, wp_host_call. intros [r3|e3] w3 _.
  2:{ exists [FileExtract archive gpd; Rename unpacked ndk_dir gpd].
      cbn [trace set_world emit].
      rewrite !host_calls_snoc_host, host_calls_snoc_log,
        host_calls_snoc_host, <- !app_assoc.
      split; [done|]. split; [done|done]. }
  apply wp_bind, wp_log. apply wp_ret.
  exists [FileExtract archive gpd; Rename unpacked ndk_dir gpd].
  cbn [trace set_world emit].
  rewrite host_calls_snoc_log, !host_calls_snoc_host, host_calls_snoc_log,
    host_calls_snoc_host, <- !app_assoc.
  split; [done|]. split; [done|]. by intros d [= <-].
Qed.

(** X2.  The archive the installer asks for.  When the NDK directory is
    missing, the first outside call of the installer downloads the archive
    whose name [vendor_archive] gives for (platform, 64-bit-ness, version):
    on darwin, linux and freebsd the extension is "bin" for 10c/10d/10e,
    "tar.bz2" for a major version up to 10 and "zip" otherwise, with
    "-x86_64" or "-x86" before it for a major version below 23 and nothing
    from 23 on; on win32 and cygwin the name is
    "android-ndk-r<version>-windows.zip".  The only calls after it are the
    extraction of that archive and the rename of "android-ndk-r<version>"
    to the NDK directory, both made whenever the installer returns. *)
Lemma ndk_archive_naming t major archive r t' :
  file_exists (ndk_dir_of h b t) (world t) = false →
  ndk_major (ndk_version_of h b t) = Some major →
  vendor_archive h (ndk_version_of h b t) major = Some archive →
  Android._install_android_ndk h b t = (r, t') →
  ∃ rest,
    host_calls (trace t')
    = host_calls (trace t)
      ++ Download (ndk_url major) archive (global_platform_dir b) :: rest
    ∧ rest `prefix_of`
        [FileExtract archive (global_platform_dir b);
         Rename ("android-ndk-r" +:+ ndk_version_of h b t) (ndk_dir_of h b t)
                (global_platform_dir b)]
    ∧ ∀ d, r = Ok d →
           d = ndk_dir_of h b t
           ∧ rest = [FileExtract archive (global_platform_dir b);
                     Rename ("android-ndk-r" +:+ ndk_version_of h b t)
                            (ndk_dir_of h b t) (global_platform_dir b)].
Proof.
  intros Hmissing Hmajor Harchive. revert r t'. apply wp_run.
  unfold Android._install_android_ndk.
  destruct (android_ndk_dir_spec h b t) as (t1 & E1 & Hq1).
  eapply wp_bind_ok; [exact E1|].
  eapply wp_bind_ok; [reflexivity|].
  rewrite (quiet_world _ _ _ _ Hq1), Hmissing.
  destruct (android_ndk_version_spec h b t1) as (t2 & E2 & Hq2).
  eapply wp_bind_ok; [exact E2|].
  rewrite (quiet_ndk_version _ _ _ _ Hq1).
  set (version := ndk_version_of h b t) in *.
  unfold ndk_major in Hmajor.
  destruct (Py.re_search_digits version) as [digits|] eqn:Ed; [|done].
  injection Hmajor as Hmajor.
  eapply wp_bind_ok; [reflexivity|].
  eapply wp_bind_ok; [reflexivity|].
  rewrite Hmajor.
  set (t3 := emit (Log Info "Android NDK is missing, downloading") t2).
  assert (Hq3 : quiet h b t t3).
  { etrans; [exact Hq1|]. etrans; [exact Hq2|]. apply quiet_log. }
  (* the template, by platform *)
  assert (Htpl : ∃ tpl is_64 t4,
             Android.ndk_archive_template h b major t3 = (Ok (tpl, is_64), t4)
             ∧ quiet h b t t4
             ∧ Py.format tpl
                 [version;
                  if 23 <=? major then ""
                  else "-" +:+ (if is_64 then "x86_64" else "x86")]
               = archive).
  { unfold Android.ndk_archive_template, Android.is_windows.
    unfold vendor_archive in Harchive.
    destruct (Py.among (platform h) ["win32"; "cygwin"]).
    - injection Harchive as <-. eexists _, _, t3.
      split; [reflexivity|]. split; [done|].
      cbn [Py.format lookup list_lookup default]. unfold windows_archive.
      by rewrite append_empty_r.
    - assert (Harch : ∀ is_64 : bool,
                (if 23 <=? major then ""
                 else "-" +:+ (if is_64 then "x86_64" else "x86"))
                = ndk_arch_suffix is_64 major).
      { intros is_64. unfold ndk_arch_suffix.
        destruct (Z.leb_spec 23 major), (Z.ltb_spec major 23); try lia;
          [done|]. by destruct is_64. }
      destruct (android_ndk_version_spec h b t3) as (t4 & E4 & Hq4).
      rewrite (quiet_ndk_version _ _ _ _ Hq3) in E4. fold version in E4.
      destruct (String.eqb (platform h) "darwin") eqn:Edarwin.
      + injection Harchive as <-. cbn [orb].
        eexists _, _, t4. unfold bind at 1. rewrite E4.
        split; [reflexivity|]. split; [by etrans|].
        cbn [Py.format lookup list_lookup default]. rewrite Harch.
        unfold unix_archive, ndk_extension.
        destruct (Py.startswith (platform h) "linux"
                  || Py.startswith (platform h) "freebsd") eqn:El.
        * apply String.eqb_eq in Edarwin. rewrite Edarwin in El.
          discriminate El.
        * by rewrite append_empty_r.
      + cbn [orb].
        destruct (Py.startswith (platform h) "linux"
                  || Py.startswith (platform h) "freebsd") eqn:El;
          [|discriminate Harchive].
        injection Harchive as <-.
        eexists _, _, t4. unfold bind at 1. rewrite E4.
        split; [reflexivity|]. split; [by etrans|].
        cbn [Py.format lookup list_lookup default]. rewrite Harch.
        unfold unix_archive, ndk_extension. by rewrite append_empty_r. }
  destruct Htpl as (tpl & is_64 & t4 & E4 & Hq4 & Hname).
  eapply wp_bind_ok; [exact E4|]. cbn match.
  destruct (android_ndk_version_spec h b t4) as (t5 & E5 & Hq5).
  rewrite (quiet_ndk_version _ _ _ _ Hq4) in E5. fold version in E5.
  eapply wp_bind_ok; [exact E5|].
  destruct (android_ndk_version_spec h b t5) as (t6 & E6 & Hq6).
  assert (Hq : quiet h b t t6) by (etrans; [exact Hq4|]; by etrans).
  rewrite (quiet_ndk_version _ _ _ _ Hq5), (quiet_ndk_version _ _ _ _ Hq4)
    in E6. fold version in E6.
  eapply wp_bind_ok; [exact E6|].
  rewrite Hname. cbn [Py.format lookup list_lookup default].
  rewrite append_empty_r. fold (ndk_url major).
  eapply wp_mono; [apply ndk_fetch_calls|]. cbn beta.
  intros r t'. by rewrite (quiet_host_calls _ _ _ _ Hq).
Qed.
End NdkArchive.


(** C3, the code at the failing input.  On a 64-bit cygwin host, for
    version 21e (major version 21, below 23), the archive the installer
    downloads is "android-ndk-r21e-windows.zip": it carries no "-x86_64"
    (nor "-x86") suffix, where the darwin/linux/freebsd branch puts one and
    the vendor's name for that release has one. *)
Theorem ndk_windows_archive_has_no_suffix :
  let t := Sim.fresh (with_dirs []) [] in
  let run := Android._install_android_ndk Sim.cygwin
               (Sim.project [("android.ndk", "21e")]) t in
  ndk_major "21e" = Some 21
  ∧ (8 * pointer_size Sim.cygwin =? 64) = true
  ∧ head (host_calls (trace run.2))
    = Some (Download "https://dl.google.com/android/repository/"
              "android-ndk-r21e-windows.zip"
              "/home/u/.buildozer/android/platform")
  ∧ Py.contains "-x86" "android-ndk-r21e-windows.zip" = false.
Proof. vm_compute. done. Qed.

Lemma ndk_archive_naming_witness :
  let t := Sim.fresh (with_dirs []) [] in
  let run := Android._install_android_ndk Sim.linux
               (Sim.project [("android.ndk", "21e")]) t in
  ∃ rest,
    host_calls (trace run.2)
    = Download "https://dl.google.com/android/repository/"
        "android-ndk-r21e-linux-x86_64.zip"
        "/home/u/.buildozer/android/platform" :: rest.
Proof.
  intros t run.
  destruct (ndk_archive_naming (H:=Sim.ops) Sim.linux
              (Sim.project [("android.ndk", "21e")]) t 21
              "android-ndk-r21e-linux-x86_64.zip" run.1 run.2
              ltac:(vm_compute; reflexivity)
              ltac:(vm_compute; reflexivity)
              ltac:(vm_compute; reflexivity)
              (surjective_pairing run)) as (rest & E & _).
  exists rest. exact E.
Defined.


(* ===================================================================== *)
(** ** The install cache *)
(* ===================================================================== *)

(** [==] against a list of strings is equality. *)
Lemma eqb_str (a : Py.value) (s : string) : Py.eqb a (Py.VStr s) = true ↔ a = Py.VStr s.
Proof.
  destruct a; cbn; try (split; [discriminate|discriminate]).
  rewrite String.eqb_eq. split; congruence.
Qed.

Lemma eqb_strs (xs : list Py.value) (l : list string) :
  Py.eqb (Py.VList xs) (Py.VList (Py.VStr <$> l)) = true
  ↔ xs = Py.VStr <$> l.
Proof.
  revert l. induction xs as [|x xs IH]; intros [|s l]; cbn;
    try (split; [discriminate|discriminate]); [done|].
  change (Py.eqb x (Py.VStr s)
          && Py.eqb (Py.VList xs) (Py.VList (Py.VStr <$> l)) = true
          ↔ x :: xs = Py.VStr s :: (Py.VStr <$> l)).
  rewrite andb_true_iff, IH, eqb_str. split.
  - by intros [-> ->].
  - by intros [= -> ->].
Qed.

Section Packages.
Context {W : Type} `{BuildOps W} {V : Type} `{VersionLib V}.
Context (h : host) (b : buildozer).
Implicit Types t : target W.

Lemma stored_eqb t :
  Py.eqb (default Py.VNone (state t !! Android.cache_key)) (tuple_of h b t) = true
  ↔ state t !! Android.cache_key = Some (tuple_of h b t).
Proof.
  assert (E : tuple_of h b t
              = Py.VList (Py.VStr <$> [Android.android_api b;
                                       Android.android_minapi b;
                                       ndk_version_of h b t;
                                       Android.android_sdk_dir h b;
                                       ndk_dir_of h b t])) by done.
  rewrite E.
  destruct (state t !! Android.cache_key) as [x|]; cbn [default].
  - destruct x as [| | | |xs];
      try (split; [cbn; discriminate|congruence]).
    unfold id. rewrite eqb_strs. split; congruence.
  - split; [cbn; discriminate|discriminate].
Qed.

Lemma install_packages_unfold t :
  ∃ t0, Android.cache_value h b t = (Ok (tuple_of h b t), t0)
        ∧ quiet h b t t0
        ∧ Android._install_android_packages (V:=V) h b t
          = if Py.eqb (default Py.VNone (state t !! Android.cache_key))
                      (tuple_of h b t)
            then (Ok (Some true), t0)
            else uncached_run (V:=V) h b (tuple_of h b t) t0.
Proof.
  destruct (cache_value_spec h b t) as (t0 & E0 & Hq). exists t0.
  split; [done|]. split; [done|].
  unfold Android._install_android_packages, bind at 1. rewrite E0.
  unfold bind at 1, gets at 1. rewrite (quiet_state _ _ _ _ Hq).
  by destruct (Py.eqb _ _).
Qed.

Lemma bind_tail {A B} (R : relation (target W)) `{!Reflexive R}
    (m : M W A) (k : A → M W B) t :
  (∀ a, respects R (k a)) → R (m t).2 (bind m k t).2.
Proof.
  intros Hk. unfold bind. destruct (m t) as [[a|e] t']; cbn; [apply Hk|done].
Qed.

Lemma after_log {B} (R : relation (target W)) l msg (k : unit → M W B) t :
  respects R (k ()) → R (emit (Log l msg) t) (bind (log l msg) k t).2.
Proof. intros Hk. apply Hk. Qed.

(** the steps begin with a log line and never touch the store *)
Lemma install_steps_spec t :
  ∃ msg, delta (λ e, ¬ stores e) (emit (Log Info msg) t)
           (Android.install_steps (V:=V) h b t).2.
Proof.
  unfold Android.install_steps.
  destruct (getbooldefault b "android.skip_update" false); cbn [negb].
  - eexists. etrans; [|apply (bind_tail (delta _)); intros; frame].
    apply (after_log (delta _)). frame.
  - eexists. etrans; [|apply (bind_tail (delta _)); intros; frame].
    apply (after_log (delta _)). frame.
Qed.

Lemma uncached_run_spec cv t0 :
  ∃ msg d,
    Forall (λ e, ¬ stores e) d
    ∧ match uncached_run (V:=V) h b cv t0 with
      | (Raise _, t') =>
          state t' = state t0 ∧ trace t' = trace t0 ++ Log Info msg :: d
      | (Ok None, t') =>
          state t' = <[Android.cache_key := cv]> (state t0)
          ∧ trace t' = trace t0 ++ Log Info msg :: d
                         ++ [StoreSet Android.cache_key cv; StoreSync]
      | (Ok (Some _), _) => False
      end.
Proof.
  destruct (install_steps_spec t0) as (msg & [(d & Ed & Fd) Hs _ _ _]).
  specialize (Hs (λ e He, He)). cbn [trace state emit] in Ed, Hs.
  exists msg, d. split; [done|]. unfold uncached_run, bind.
  destruct (Android.install_steps h b t0) as [[[]|e] t1]; cbn in *.
  - rewrite Hs, Ed. split; [done|]. by rewrite <- !app_assoc.
  - rewrite Ed. split; [done|]. by rewrite <- app_assoc.
Qed.

End Packages.



(** C4, the code at the failing input.  The manager lists no build-tools
    package; the listing parses to the empty list; the error is logged and
    the very next statement, [sorted(...)[-1]], raises [IndexError]: the
    run aborts there, before the aidl check and the platform install, and
    the store is not updated. *)
Theorem empty_build_tools_listing_aborts :
  let t := Sim.fresh sdk_tools [] in
  let listing := Android._android_list_build_tools_versions (V:=list Z)
                   Sim.linux ndk25 t in
  let run := Android._install_android_packages (V:=list Z) Sim.linux ndk25 t in
  listing.1 = Ok []
  ∧ run.1 = Raise IndexError
  ∧ last (trace run.2)
    = Some (Log Error "Did not find any build tools available to download")
  ∧ state run.2 = state t.
Proof. vm_compute. done. Qed.


(* ===================================================================== *)
(** ** The python-for-android checkout *)
(* ===================================================================== *)

Lemma host_calls_app tr1 tr2 :
  host_calls (tr1 ++ tr2) = host_calls tr1 ++ host_calls tr2.
Proof. apply omap_app. Qed.

Section Checkout.
Context {W : Type} `{BuildOps W} (h : host) (b : buildozer).
Implicit Types t : target W.

Lemma git_frame (P : event → Prop) `{!Permits P} args cwd kwargs :
  respects (delta P) (Android.git (W:=W) args cwd kwargs).
Proof. unfold Android.git. frame. Qed.
Hint Resolve git_frame : frame.

Lemma clone_or_update_frame (P : event → Prop) `{!Permits P} :
  respects (delta P) (Android.clone_or_update h b).
Proof. unfold Android.clone_or_update. frame. Qed.
Hint Resolve clone_or_update_frame : frame.

Lemma install_p4a_requirements_frame (P : event → Prop) `{!Permits P} :
  respects (delta P) (Android.install_p4a_requirements h b).
Proof. unfold Android.install_p4a_requirements. frame. Qed.
Hint Resolve install_p4a_requirements_frame : frame.

Lemma after_check_frame (P : event → Prop) `{!Permits P} :
  respects (delta P) (after_check h b).
Proof. unfold after_check. frame. Qed.

Lemma after_call {B} (R : relation (target W)) c (k : reply → M W B) t :
  (∀ r, respects R (k r)) →
  (∀ w, R (set_world w (emit (Host c) t)) (set_world w (emit (Host c) t))) →
  ∀ r w, call c (world t) = (r, w) →
         R (set_world w (emit (Host c) t)) (bind (host_call c) k t).2.
Proof.
  intros Hk Hrefl r w E. unfold bind, host_call. rewrite E.
  destruct r as [a|e]; cbn; [apply Hk|apply Hrefl].
Qed.

Lemma install_p4a_unfold t :
  truthy (default "" (config b !! "p4a.source_dir")) = false →
  Android._install_p4a h b t
  = bind (Android.drop_changed_checkout h b) (λ _, after_check h b) t.
Proof.
  intros Hno. unfold Android._install_p4a. rewrite Hno.
  unfold after_check, bind.
  by destruct (Android.drop_changed_checkout h b t) as [[[]|e] t1].
Qed.

Lemma after_check_clones t r w :
  file_exists (Android.p4a_dir h b) (world t) = false →
  call (git_clone_cmd h b) (world t) = (r, w) →
  ∃ d, trace (after_check h b t).2 = trace t ++ Host (git_clone_cmd h b) :: d.
Proof.
  intros Hgone Hcall.
  assert (D : delta (λ _, True)
                (set_world w (emit (Host (git_clone_cmd h b)) t))
                (after_check h b t).2).
  { unfold after_check.
    etrans; [|apply (bind_tail (delta _)); intros; frame].
    unfold Android.clone_or_update.
    unfold bind at 1, observe at 1, gets at 1. rewrite Hgone. cbn [negb].
    etrans; [|apply (bind_tail (delta _)); intros; frame].
    eapply (after_call (delta _)); [intros; frame|reflexivity|exact Hcall]. }
  destruct D as [(d & Ed & _) _ _ _ _]. exists d.
  rewrite Ed. cbn [trace set_world emit]. by rewrite <- app_assoc.
Qed.

Lemma drop_changed_spec t r1 w1 r2 w2 cur_branch :
  file_exists (Android.p4a_dir h b) (world t) = true →
  call (git_remote_cmd (Android.p4a_dir h b)) (world t) = (Ok r1, w1) →
  call (git_branch_cmd (Android.p4a_dir h b)) w1 = (Ok r2, w2) →
  Py.split_ws (stdout r2) !! 1%nat = Some cur_branch →
  let t2 := set_world w2 (emit (Host (git_branch_cmd (Android.p4a_dir h b)))
              (set_world w1
                 (emit (Host (git_remote_cmd (Android.p4a_dir h b))) t))) in
  Android.drop_changed_checkout h b t
  = if negb (String.eqb (Py.strip (stdout r1)) (Android.conf_p4a_url b))
       || negb (String.eqb cur_branch (Android.conf_p4a_branch b))
    then bind (host_call (Rmdir (Android.p4a_dir h b))) (λ _, ret ())
           (emit (Log Info ("Detected old url/branch (" +:+
                            Py.strip (stdout r1) +:+ "/" +:+ cur_branch
                            +:+ "), deleting...")) t2)
    else (Ok (), t2).
Proof.
  intros Hthere Hremote Hbranch Hfield t2.
  unfold Android.drop_changed_checkout.
  unfold bind at 1, observe at 1, gets at 1. rewrite Hthere.
  unfold bind at 1, Android.git at 1, host_call at 1.
  fold (git_remote_cmd (Android.p4a_dir h b)). rewrite Hremote.
  unfold bind at 1, Android.git at 1, host_call at 1.
  fold (git_branch_cmd (Android.p4a_dir h b)).
  cbn [world set_world emit]. rewrite Hbranch.
  unfold bind at 1. rewrite Hfield. cbn [from_option ret].
  fold t2.
  by destruct (negb (String.eqb (Py.strip (stdout r1)) (Android.conf_p4a_url b))
               || negb (String.eqb cur_branch (Android.conf_p4a_branch b))).
Qed.

Lemma install_p4a_cases t r1 w1 r2 w2 cur_branch :
  truthy (default "" (config b !! "p4a.source_dir")) = false →
  file_exists (Android.p4a_dir h b) (world t) = true →
  call (git_remote_cmd (Android.p4a_dir h b)) (world t) = (Ok r1, w1) →
  call (git_branch_cmd (Android.p4a_dir h b)) w1 = (Ok r2, w2) →
  Py.split_ws (stdout r2) !! 1%nat = Some cur_branch →
  let t2 := set_world w2 (emit (Host (git_branch_cmd (Android.p4a_dir h b)))
              (set_world w1
                 (emit (Host (git_remote_cmd (Android.p4a_dir h b))) t))) in
  Android._install_p4a h b t
  = if negb (String.eqb (Py.strip (stdout r1)) (Android.conf_p4a_url b))
       || negb (String.eqb cur_branch (Android.conf_p4a_branch b))
    then
      let t2' := emit (Log Info ("Detected old url/branch (" +:+
                                 Py.strip (stdout r1) +:+ "/" +:+ cur_branch
                                 +:+ "), deleting...")) t2 in
      match call (Rmdir (Android.p4a_dir h b)) w2 with
      | (Ok _, w3) =>
          (after_check h b)
            (set_world w3 (emit (Host (Rmdir (Android.p4a_dir h b))) t2'))
      | (Raise e, w3) =>
          (Raise e,
           set_world w3 (emit (Host (Rmdir (Android.p4a_dir h b))) t2'))
      end
    else after_check h b t2.
Proof.
  intros Hno Hthere Hremote Hbranch Hfield t2.
  rewrite (install_p4a_unfold _ Hno). unfold bind at 1.
  rewrite (drop_changed_spec _ _ _ _ _ _ Hthere Hremote Hbranch Hfield).
  fold t2.
  destruct (negb (String.eqb (Py.strip (stdout r1)) (Android.conf_p4a_url b))
            || negb (String.eqb cur_branch (Android.conf_p4a_branch b)));
    [|done].
  unfold bind, host_call. subst t2. cbn [world set_world emit].
  destruct (call (Rmdir (Android.p4a_dir h b)) w2) as [[r3|e3] w3];
    reflexivity.
Qed.

(** C9.  No source directory is configured, the checkout exists, and git
    reports its remote url and its branch.  If both are the configured
    ones, no [rmdir] is issued anywhere in the run.  If either differs,
    the calls of the run begin with the two git queries and the [rmdir] of
    the whole checkout directory, and once that [rmdir] has succeeded and
    the directory is gone, the next call is the single-branch clone of the
    configured url and branch. *)
Theorem checkout_replaced_iff_changed t r1 w1 r2 w2 cur_branch r t' :
  truthy (default "" (config b !! "p4a.source_dir")) = false →
  file_exists (Android.p4a_dir h b) (world t) = true →
  call (git_remote_cmd (Android.p4a_dir h b)) (world t) = (Ok r1, w1) →
  call (git_branch_cmd (Android.p4a_dir h b)) w1 = (Ok r2, w2) →
  Py.split_ws (stdout r2) !! 1%nat = Some cur_branch →
  Android._install_p4a h b t = (r, t') →
  (Py.strip (stdout r1) = Android.conf_p4a_url b
   ∧ cur_branch = Android.conf_p4a_branch b →
   ∃ d, trace t' = trace t ++ d ∧ Forall (λ e, ¬ removes e) d)
  ∧ (Py.strip (stdout r1) ≠ Android.conf_p4a_url b
     ∨ cur_branch ≠ Android.conf_p4a_branch b →
     ∃ rest,
       host_calls (trace t')
       = host_calls (trace t)
         ++ [git_remote_cmd (Android.p4a_dir h b);
             git_branch_cmd (Android.p4a_dir h b);
             Rmdir (Android.p4a_dir h b)] ++ rest
       ∧ ∀ r3 w3,
           call (Rmdir (Android.p4a_dir h b)) w2 = (Ok r3, w3) →
           file_exists (Android.p4a_dir h b) w3 = false →
           ∃ rest', rest = git_clone_cmd h b :: rest').
Proof.
  intros Hno Hthere Hremote Hbranch Hfield Hrun.
  rewrite (install_p4a_cases _ _ _ _ _ _ Hno Hthere Hremote Hbranch Hfield)
    in Hrun.
  cbv zeta in Hrun.
  set (dir := Android.p4a_dir h b) in *.
  set (t2 := set_world w2 (emit (Host (git_branch_cmd dir))
               (set_world w1 (emit (Host (git_remote_cmd dir)) t)))) in *.
  assert (Ht2 : trace t2 = trace t ++ [Host (git_remote_cmd dir);
                                        Host (git_branch_cmd dir)]).
  { cbn. by rewrite <- app_assoc. }
  destruct (negb (String.eqb (Py.strip (stdout r1)) (Android.conf_p4a_url b))
            || negb (String.eqb cur_branch (Android.conf_p4a_branch b)))
    eqn:Echanged.
  - (* url or branch changed *)
    split.
    { intros [Eu Eb]. rewrite Eu, Eb, !String.eqb_refl in Echanged.
      discriminate. }
    intros _.
    set (t2' := emit (Log Info _) t2) in Hrun.
    assert (Ht2' : host_calls (trace t2')
                   = host_calls (trace t) ++ [git_remote_cmd dir;
                                              git_branch_cmd dir]).
    { subst t2'. cbn [trace emit].
      by rewrite host_calls_snoc_log, Ht2, host_calls_app. }
    destruct (call (Rmdir dir) w2) as [[r3|e3] w3] eqn:Ermdir.
    + set (t3 := set_world w3 (emit (Host (Rmdir dir)) t2')) in Hrun.
      assert (Ht3 : host_calls (trace t3)
                    = host_calls (trace t) ++ [git_remote_cmd dir;
                                               git_branch_cmd dir; Rmdir dir]).
      { subst t3. cbn [trace set_world emit].
        by rewrite host_calls_snoc_host, Ht2', <- app_assoc. }
      pose proof (after_check_frame (λ _, True) t3) as D.
      rewrite Hrun in D. cbn [snd] in D.
      destruct D as [(d & Ed & _) _ _ _ _].
      exists (host_calls d). split.
      { by rewrite Ed, host_calls_app, Ht3, <- app_assoc. }
      intros r3' w3' [= <- <-] Hgone.
      destruct (call (git_clone_cmd h b) w3) as [rc wc] eqn:Eclone.
      destruct (after_check_clones t3 rc wc Hgone Eclone) as (d' & Ed').
      rewrite Hrun in Ed'. cbn [snd] in Ed'. rewrite Ed in Ed'.
      apply app_inv_head in Ed'. subst d. by exists (host_calls d').
    + injection Hrun as <- <-. exists []. split; [|intros ? ? [=]].
      cbn [trace set_world emit]. rewrite host_calls_snoc_host.
      change (trace t2 ++ [Log Info _]) with (trace t2').
      by rewrite Ht2', <- app_assoc.
  - (* both as configured *)
    split.
    2:{ apply orb_false_elim in Echanged as [Eu Eb].
        apply negb_false_iff, String.eqb_eq in Eu, Eb.
        by intros [?|?]. }
    intros _. pose proof (after_check_frame (λ e, ¬ removes e) t2) as D.
    rewrite Hrun in D. cbn [snd] in D.
    destruct D as [(d & Ed & Fd) _ _ _ _].
    exists ([Host (git_remote_cmd dir); Host (git_branch_cmd dir)] ++ d).
    split; [by rewrite Ed, Ht2, <- app_assoc|].
    apply Forall_app. split; [|done]. repeat constructor; cbn; tauto.
Qed.
End Checkout.


Lemma checkout_replaced_iff_changed_witness :
  let t := Sim.fresh stale_checkout [] in
  let run := Android._install_p4a Sim.linux (Sim.project []) t in
  ∃ rest,
    host_calls (trace run.2)
    = [git_remote_cmd p4a_path; git_branch_cmd p4a_path; Rmdir p4a_path]
      ++ git_clone_cmd Sim.linux (Sim.project []) :: rest.
Proof.
  intros t run.
  destruct (checkout_replaced_iff_changed (H:=Sim.ops) Sim.linux
              (Sim.project []) t
              (quiet_reply ("https://example.org/fork.git" +:+ nl))
              stale_checkout
              (quiet_reply "* develop 1a2b3c4 [origin/develop] tip")
              stale_checkout "develop" run.1 run.2
              ltac:(vm_compute; reflexivity)
              ltac:(vm_compute; reflexivity)
              ltac:(vm_compute; reflexivity)
              ltac:(vm_compute; reflexivity)
              ltac:(vm_compute; reflexivity)
              (surjective_pairing run)) as [_ Hchanged].
  destruct (Hchanged ltac:(left; vm_compute; discriminate))
    as (rest & E & Hclone).
  destruct (Hclone (quiet_reply "") (Sim.step (Rmdir p4a_path) stale_checkout)
              ltac:(vm_compute; reflexivity)
              ltac:(vm_compute; reflexivity)) as (rest' & ->).
  exists rest'. exact E.
Defined.

(* ===================================================================== *)
(** ** Further properties: installed and listed build-tools versions *)
(* ===================================================================== *)

Lemma dotted_ltb_irrefl (a : list Z) : Sim.dotted_ltb a a = false.
Proof.
  induction a as [|x a IH]; [done|]. cbn.
  rewrite Z.ltb_irrefl, Z.eqb_refl, IH. done.
Qed.

Lemma dotted_ltb_trans (a c d : list Z) :
  Sim.dotted_ltb a c = true → Sim.dotted_ltb c d = true →
  Sim.dotted_ltb a d = true.
Proof.
  revert c d. induction a as [|x a IH]; intros [|y c] [|z d]; cbn; try done.
  rewrite !orb_true_iff, !andb_true_iff, !Z.ltb_lt, !Z.eqb_eq.
  intros [Hxy | [-> Hac]] [Hyz | [-> Hcd]].
  - left. lia.
  - by left.
  - by left.
  - right. split; [done|]. by eapply IH.
Qed.

Lemma dotted_strict_order : strict_order Sim.dotted_ltb.
Proof. split; [apply dotted_ltb_irrefl|apply dotted_ltb_trans]. Qed.

Section Maximum.
Context {A : Type} (ltb : A → A → bool).

Lemma max_fold_spec (m : A) (l : list A) :
  strict_order ltb →
  let best := foldl (λ m y, if ltb m y then y else m) m l in
  best ∈ m :: l
  ∧ (best = m ∨ ltb m best = true)
  ∧ ltb best m = false
  ∧ Forall (λ x, ltb best x = false) l.
Proof.
  intros [Hirr Htrans]. revert m. induction l as [|y l IH]; intros m; cbn.
  - split; [apply list_elem_of_here|]. split; [by left|]. by split.
  - destruct (ltb m y) eqn:Hmy.
    + destruct (IH y) as (Hin & Hup & Hy & Hall).
      set (best := foldl _ y l) in *.
      assert (Hmb : ltb m best = true).
      { destruct Hup as [->|Hyb]; [done|]. by eapply Htrans. }
      split; [by apply list_elem_of_further|]. split; [by right|]. split.
      * destruct (ltb best m) eqn:Hbm; [|done].
        by rewrite (Htrans _ _ _ Hbm Hmy) in Hy.
      * by constructor.
    + destruct (IH m) as (Hin & Hup & Hm & Hall).
      set (best := foldl _ m l) in *.
      split.
      { apply elem_of_cons in Hin as [->|Hin]; [apply list_elem_of_here|].
        by do 2 apply list_elem_of_further. }
      split; [done|]. split; [done|].
      constructor; [|done].
      destruct (ltb best y) eqn:Hby; [|done].
      destruct Hup as [Heq|Hmb]; [rewrite Heq in Hby; congruence|].
      rewrite (Htrans _ _ _ Hmb Hby) in Hmy. done.
Qed.

(** Python's [max]: one of the elements, and none is greater. *)
Lemma py_max_spec (l : list A) (m : A) :
  strict_order ltb → Py.max ltb l = Some m →
  m ∈ l ∧ Forall (λ x, ltb m x = false) l.
Proof.
  intros Hso. destruct l as [|x l]; [done|]. cbn. intros [= <-].
  destruct (max_fold_spec x l Hso) as (Hin & _ & Hx & Hall).
  split; [done|]. by constructor.
Qed.
End Maximum.

Section InstalledVersions.
Context {W : Type} `{BuildOps W} `{Reading W} {V : Type} `{VersionLib V}.
Implicit Types t : target W.

(** X1.  [_read_version_subdir] makes no outside call and leaves the
    machine as it is.  When the folder is missing it returns the version
    ["0"].  When the folder exists but cannot be listed, the error of
    [os.listdir] is passed on.  When it is listed: if none of its entries
    parses, the version ["0"] is returned; otherwise the version of one
    of the entries is, and no entry has a greater one: entries that do
    not parse are passed over.  Here ["0"] parses, so that nothing else
    can fail. *)
Theorem read_version_subdir_highest dir t v0 :
  parse "0" = Some v0 →
  strict_order (v_ltb (V:=V)) →
  ∃ r t',
    Android._read_version_subdir (V:=V) dir t = (r, t')
    ∧ world t' = world t
    ∧ host_calls (trace t') = host_calls (trace t)
    ∧ if path_exists dir (world t) then
        match list_dir dir (world t) with
        | Raise e => r = Raise e
        | Ok names =>
            match omap parse names with
            | [] => r = Ok v0
            | _ :: _ =>
                ∃ v, r = Ok v
                     ∧ v ∈ omap parse names
                     ∧ Forall (λ x, v_ltb v x = false) (omap parse names)
            end
        end
      else r = Ok v0.
Proof.
  intros Hzero Hso. unfold Android._read_version_subdir, bind, observe, gets.
  destruct (path_exists dir (world t)) eqn:Hthere; cbn [negb].
  - destruct (list_dir dir (world t)) as [names|e]; cbn [from_result ret raise].
    2:{ by eexists _, _. }
    destruct (Py.max v_ltb (omap parse names)) as [m|] eqn:Hmax.
    + exists (Ok m), t. split; [done|]. split; [done|]. split; [done|].
      destruct (py_max_spec _ _ _ Hso Hmax) as [Hin Hall].
      destruct (omap parse names); [by apply elem_of_nil in Hin|]. by exists m.
    + unfold Android.parse_version. rewrite Hzero. cbn.
      eexists _, _. split; [done|]. split; [done|].
      split; [cbn; apply host_calls_snoc_log|].
      by destruct (omap parse names).
  - unfold Android.parse_version. rewrite Hzero. cbn.
    eexists _, _. split; [done|]. split; [done|].
    split; [cbn; apply host_calls_snoc_log|done].
Qed.
End InstalledVersions.

Lemma read_version_subdir_highest_witness :
  ∃ v, (Android._read_version_subdir (V:=list Z) build_tools_dir
          (Lab.fresh three_build_tools [])).1 = Ok v
       ∧ Forall (λ x, Sim.dotted_ltb v x = false)
                [[30; 0; 3]; [34; 0; 0]; [33; 0; 2]].
Proof.
  destruct (read_version_subdir_highest (H:=Lab.ops) (H0:=reliable)
              (H1:=Sim.versions)
              build_tools_dir (Lab.fresh three_build_tools []) [0]
              ltac:(vm_compute; reflexivity) dotted_strict_order)
    as (r & t' & E & _ & _ & Hmax).
  vm_compute in Hmax. destruct Hmax as (v & -> & _ & Hall).
  exists v. rewrite E. split; [done|]. exact Hall.
Defined.

(** A folder that is there but cannot be listed: the error of
    [os.listdir] comes out of [_read_version_subdir]. *)
Example unlistable_folder_raises :
  (Android._read_version_subdir (H0:=torn) (V:=list Z) build_tools_dir
     (Lab.fresh three_build_tools [])).1
  = Raise (HostError "PermissionError").
Proof. vm_compute. reflexivity. Qed.

(* ===================================================================== *)
(** ** Further properties: what a run may call *)
(* ===================================================================== *)

Section Walks.
Context {W : Type} `{BuildOps W}.
Implicit Types t : target W.

Lemma delta_sub (P P' : event → Prop) t t' :
  (∀ e, P e → P' e) → delta P t t' → delta P' t t'.
Proof.
  intros HPP [(d & E & F) S1 W1 V1 A1]. split; try done.
  - exists d. split; [done|]. eapply Forall_impl; eauto.
  - intros HP'. apply S1. naive_solver.
  - intros HP'. apply W1. naive_solver.
Qed.

Lemma respects_sub {A} (P P' : event → Prop) (m : M W A) :
  (∀ e, P e → P' e) → respects (delta P) m → respects (delta P') m.
Proof. intros HPP Hm t. eapply delta_sub; [exact HPP|apply Hm]. Qed.

Lemma respects_log_in (P : event → Prop) l msg :
  P (Log l msg) → respects (W:=W) (delta P) (log l msg).
Proof. intros HP t. apply delta_emit; [done|cbn; tauto..]. Qed.

Lemma respects_call_in (P : event → Prop) c :
  P (Host c) → respects (W:=W) (delta P) (host_call c).
Proof.
  intros HP t. unfold host_call. destruct (call c (world t)) as [r w].
  by apply delta_call.
Qed.

Lemma delta_calls (Q : hostcall → Prop) t t' :
  delta (logs_and_calls Q) t t' →
  ∃ d, trace t' = trace t ++ d
       ∧ Forall Q (host_calls d)
       ∧ Forall (λ e, is_log e ∨ calls_out e) d
       ∧ state t' = state t.
Proof.
  intros [(d & E & F) S1 _ _ _]. exists d. split; [done|]. split; [|split].
  - clear E S1. induction F as [|e d He _ IH]; [constructor|].
    destruct e; try done. cbn. by constructor.
  - eapply Forall_impl; [exact F|]. intros e; destruct e; cbn; tauto.
  - apply S1. intros e; destruct e; cbn; tauto.
Qed.

Lemma delta_no_call t t' :
  delta (logs_and_calls no_call) t t' →
  world t' = world t ∧ state t' = state t
  ∧ host_calls (trace t') = host_calls (trace t).
Proof.
  intros D.
  assert (Hc : ∀ e, logs_and_calls no_call e → ¬ calls_out e).
  { intros e; destruct e; cbn; tauto. }
  split; [by apply (delta_world _ _ _ D)|]. split.
  - apply (delta_state _ _ _ D). intros e; destruct e; cbn; tauto.
  - by apply (delta_host_calls (logs_and_calls no_call)).
Qed.
End Walks.

(** Walks a method and leaves the events it may emit as goals. *)
Ltac walk_step :=
  match goal with
  | |- respects _ (bind _ _) => apply respects_bind; [apply _ | | intros ?]
  | |- respects _ (ret _) => apply respects_ret; apply _
  | |- respects _ (raise _) => apply respects_raise; apply _
  | |- respects _ (gets _) => apply respects_gets; apply _
  | |- respects _ (observe _) => apply respects_observe; apply _
  | |- respects _ (from_option _ _) => apply respects_from_option; apply _
  | |- respects _ (from_result _) => apply respects_from_result; apply _
  | |- respects _ (log _ _) => apply respects_log_in
  | |- respects _ (host_call _) => apply respects_call_in
  | |- respects _ (if ?c then _ else _) => destruct c
  | |- respects _ (match ?x with _ => _ end) => destruct x
  | |- respects _ (let (_, _) := ?x in _) => destruct x
  end.

Ltac walk := repeat (first [solve [eauto with walk] | walk_step]).

Create HintDb walk.

Section Quiet.
Context {W : Type} `{BuildOps W} {V : Type} `{VersionLib V}.
Context (h : host) (b : buildozer).
Context (Q : hostcall → Prop).
Implicit Types t : target W.

Lemma logs_allowed l msg : logs_and_calls Q (Log l msg).
Proof. done. Qed.

Lemma parse_version_walk s :
  respects (delta (logs_and_calls Q)) (Android.parse_version (W:=W) (V:=V) s).
Proof. unfold Android.parse_version. walk. Qed.

Lemma read_version_subdir_walk dir :
  respects (delta (logs_and_calls Q))
    (Android._read_version_subdir (W:=W) (V:=V) dir).
Proof.
  unfold Android._read_version_subdir, Android.parse_version. walk; done.
Qed.

Lemma build_tools_versions_walk lines acc :
  respects (delta (logs_and_calls Q))
    (Android.build_tools_versions (W:=W) (V:=V) lines acc).
Proof.
  revert acc. induction lines as [|line rest IH]; intros acc;
    cbn [Android.build_tools_versions]; unfold Android.parse_version; walk.
Qed.

Lemma sdkmanager_path_walk :
  respects (delta (logs_and_calls Q)) (Android.sdkmanager_path (W:=W) h b).
Proof. unfold Android.sdkmanager_path. walk. Qed.
End Quiet.

#[global] Hint Resolve logs_allowed parse_version_walk read_version_subdir_walk
  build_tools_versions_walk sdkmanager_path_walk : walk.

(* ===================================================================== *)
(** ** Further properties: the SDK manager *)
(* ===================================================================== *)

Section Manager.
Context {W : Type} `{BuildOps W} {V : Type} `{VersionLib V}.
Context (h : host) (b : buildozer).
Implicit Types t : target W.

Lemma wp_raises {A} (m : M W A) e (R : target W → Prop) t :
  wp m (λ r t', r = Raise e ∧ R t') t → ∃ t', m t = (Raise e, t') ∧ R t'.
Proof. unfold wp. destruct (m t) as [r t']; cbn. intros [-> ?]. eauto. Qed.

Lemma sdkmanager_path_run t :
  Android.sdkmanager_path h b t
  = if isfile (sdkmanager_file h b) (world t)
    then (Ok (sdkmanager_file h b), t)
    else (Raise BuildozerException, t).
Proof.
  unfold Android.sdkmanager_path, Android.is_windows, bind, observe, gets.
  fold (sdkmanager_file h b).
  by destruct (isfile (sdkmanager_file h b) (world t)).
Qed.

Lemma sdkmanager_missing args child kwargs t :
  isfile (sdkmanager_file h b) (world t) = false →
  Android._sdkmanager h b args child kwargs t = (Raise BuildozerException, t).
Proof.
  intros Hno. unfold Android._sdkmanager, bind.
  by rewrite sdkmanager_path_run, Hno.
Qed.

Lemma sdkmanager_run args child kwargs t :
  isfile (sdkmanager_file h b) (world t) = true →
  Android._sdkmanager h b args child kwargs t
  = host_call
      (if child
       then CmdExpect (sdkmanager_argv h b args)
              (Some (Android.android_sdk_dir h b)) kwargs
       else sdkmanager_cmd h b args (kwargs ++ [("get_stdout", true)])) t.
Proof.
  intros Hyes. unfold Android._sdkmanager, bind.
  rewrite sdkmanager_path_run, Hyes. by destruct child.
Qed.

Lemma update_sdk_missing cmds t :
  isfile (sdkmanager_file h b) (world t) = false →
  Android._android_update_sdk h b cmds t = (Raise BuildozerException, t).
Proof.
  intros Hno. unfold Android._android_update_sdk.
  destruct (getbooldefault b "android.accept_sdk_license" false);
    unfold bind; by rewrite sdkmanager_missing.
Qed.

Lemma accept_licenses_run matches t :
  ∃ t', Android.accept_licenses matches t = (Ok (), t')
        ∧ world t' = world t
        ∧ trace t'
          = trace t ++ replicate (length (List.filter (λ m, Nat.eqb m 0) matches))
                         (Sendline "y").
Proof.
  revert t. induction matches as [|m rest IH]; intros t.
  - exists t. cbn. by rewrite app_nil_r.
  - cbn [Android.accept_licenses List.filter]. destruct (Nat.eqb m 0).
    + destruct (IH (emit (Sendline "y") t)) as (t' & E & Hw & Ht).
      exists t'. unfold bind, modify. rewrite E. split; [done|].
      split; [done|]. rewrite Ht. cbn. by rewrite <- app_assoc.
    + destruct (IH t) as (t' & E & Hw & Ht).
      exists t'. unfold bind, ret. by rewrite E.
Qed.

(** X4.  With the manager installed, [_android_update_sdk] starts it once.
    When [android.accept_sdk_license] is set, it is started as a child,
    and ["y"] is sent to it once for every licence prompt it shows and
    for nothing else (an end of file or a timeout is not answered).
    When the option is not set, the manager is run with its output shown
    and nothing is ever sent to it. *)
Theorem update_sdk_answers_each_prompt cmds t :
  isfile (sdkmanager_file h b) (world t) = true →
  (getbooldefault b "android.accept_sdk_license" false = true →
   ∀ r w, call (sdkmanager_child h b cmds) (world t) = (Ok r, w) →
     ∃ t', Android._android_update_sdk h b cmds t = (Ok (), t')
           ∧ world t' = w
           ∧ trace t'
             = trace t ++ Host (sdkmanager_child h b cmds)
                 :: replicate
                      (length (List.filter (λ m, Nat.eqb m 0) (expects r)))
                      (Sendline "y"))
  ∧ (getbooldefault b "android.accept_sdk_license" false = false →
     let shown := sdkmanager_cmd h b cmds
                    [("show_output", true); ("get_stdout", true)] in
     ∀ res w, call shown (world t) = (res, w) →
       let run := Android._android_update_sdk h b cmds t in
       trace run.2 = trace t ++ [Host shown]
       ∧ world run.2 = w
       ∧ (run.1 = Ok () ↔ ∃ r, res = Ok r)).
Proof.
  intros Hyes. unfold Android._android_update_sdk. split.
  - intros -> r w Hcall. unfold bind at 1.
    rewrite sdkmanager_run by done. unfold host_call.
    change (CmdExpect _ _ _) with (sdkmanager_child h b cmds).
    rewrite Hcall.
    destruct (accept_licenses_run (expects r)
                (set_world w (emit (Host (sdkmanager_child h b cmds)) t)))
      as (t' & E & Hw & Ht).
    exists t'. split; [done|]. split; [done|].
    rewrite Ht. cbn. by rewrite <- app_assoc.
  - intros -> res w Hcall. unfold bind.
    rewrite sdkmanager_run by done. unfold host_call.
    cbn [app]. rewrite Hcall. destruct res as [r|e]; cbn.
    + split; [done|]. split; [done|]. split; [by eauto|done].
    + split; [done|]. split; [done|]. split; [done|]. by intros [? ?].
Qed.

Lemma build_tools_versions_spec lines acc t :
  let run := Android.build_tools_versions (V:=V) lines acc t in
  run.2 = t
  ∧ run = Android.build_tools_versions (List.filter is_build_tools_line lines)
            acc t
  ∧ (∀ vs, run.1 = Ok vs →
       ∃ vs', vs = acc ++ vs'
              ∧ Forall2 names_version
                  (List.filter is_build_tools_line lines) vs')
  ∧ (Forall (λ line, ∃ v : V, names_version line v)
       (List.filter is_build_tools_line lines) → ∃ vs, run.1 = Ok vs).
Proof.
  cbv zeta. revert acc. induction lines as [|line rest IH]; intros acc.
  - cbn. split; [done|]. split; [done|]. split; [|by eauto].
    intros vs [= <-]. exists []. by rewrite app_nil_r.
  - cbn [Android.build_tools_versions List.filter].
    change (Py.startswith (Py.strip line) "build-tools;")
      with (is_build_tools_line line).
    destruct (is_build_tools_line line) eqn:Ebt; cbn [negb]; [|apply IH].
    cbn [Android.build_tools_versions].
    change (Py.startswith (Py.strip line) "build-tools;")
      with (is_build_tools_line line).
    rewrite Ebt. cbn [negb].
    unfold bind, from_option, Android.parse_version, ret, raise.
    destruct (Py.split (Py.strip line) " " !! 0%nat) as [pn|] eqn:Epn;
      cbv beta iota.
    2:{ split; [done|]. split; [done|]. split; [done|].
        intros Hall. apply Forall_cons in Hall as [(v & pn & s & Hpn & _) _].
        congruence. }
    destruct (Nat.eqb (Py.count pn ";") 1) eqn:Ecount; cbn [negb];
      cbv beta iota.
    2:{ split; [done|]. split; [done|]. split; [done|].
        intros Hall.
        apply Forall_cons in Hall as [(v & pn' & s & Hpn & Hc & _) _].
        assert (pn' = pn) as -> by congruence.
        rewrite Hc in Ecount. discriminate. }
    apply Nat.eqb_eq in Ecount.
    destruct (Py.split pn ";" !! 1%nat) as [s|] eqn:Es; cbv beta iota.
    2:{ split; [done|]. split; [done|]. split; [done|].
        intros Hall.
        apply Forall_cons in Hall as [(v & pn' & s & Hpn & _ & Hs & _) _].
        assert (pn' = pn) as -> by congruence. congruence. }
    destruct (parse s) as [v|] eqn:Ev; cbv beta iota.
    2:{ split; [done|]. split; [done|]. split; [done|].
        intros Hall.
        apply Forall_cons in Hall as [(v & pn' & s' & Hpn & _ & Hs & Hv) _].
        assert (pn' = pn) as -> by congruence.
        assert (s' = s) as -> by congruence. congruence. }
    destruct (IH (acc ++ [v])) as (IH1 & IH2 & IH3 & IH4).
    split; [done|]. split; [done|]. split.
    + intros vs Hvs. destruct (IH3 vs Hvs) as (vs' & -> & Hf).
      exists (v :: vs'). rewrite <- app_assoc. split; [done|].
      constructor; [|done]. by exists pn, s.
    + intros Hall. apply Forall_cons in Hall as [_ Hall]. by apply IH4.
Qed.

(** X3.  With the manager installed, the listing of the available
    build-tools versions runs [sdkmanager --list] once and does nothing
    else.  Of the lines of its output, only those that start (spaces
    apart) with ["build-tools;"] count: the call returns whenever each of
    them names a version, and then returns those versions one for one, in
    the order of the listing. *)
Theorem listed_build_tools_in_order t r w :
  isfile (sdkmanager_file h b) (world t) = true →
  call (sdkmanager_list h b) (world t) = (Ok r, w) →
  let lines := List.filter is_build_tools_line (Py.split (stdout r) "010") in
  let run := Android._android_list_build_tools_versions (V:=V) h b t in
  run.2 = set_world w (emit (Host (sdkmanager_list h b)) t)
  ∧ (∀ vs, run.1 = Ok vs → Forall2 names_version lines vs)
  ∧ (Forall (λ line, ∃ v : V, names_version line v) lines →
     ∃ vs, run.1 = Ok vs).
Proof.
  intros Hyes Hcall lines run. subst run.
  unfold Android._android_list_build_tools_versions, bind.
  rewrite sdkmanager_run by done. unfold host_call.
  change (sdkmanager_cmd h b ["--list"] _) with (sdkmanager_list h b).
  rewrite Hcall.
  destruct (build_tools_versions_spec (Py.split (stdout r) "010") []
              (set_world w (emit (Host (sdkmanager_list h b)) t)))
    as (H1 & _ & H3 & H4).
  split; [done|]. split; [|done].
  intros vs Hvs. destruct (H3 vs Hvs) as (vs' & -> & Hf). done.
Qed.
End Manager.

Lemma update_sdk_answers_each_prompt_witness :
  trace (Android._android_update_sdk Sim.linux accepting ["--update"]
           (Sim.fresh sdk_with_listing [])).2
  = [Host (sdkmanager_child Sim.linux accepting ["--update"]);
     Sendline "y"; Sendline "y"].
Proof.
  destruct (proj1 (update_sdk_answers_each_prompt (H:=Sim.ops) Sim.linux
                     accepting ["--update"] (Sim.fresh sdk_with_listing [])
                     ltac:(vm_compute; reflexivity))
              ltac:(vm_compute; reflexivity)
              {| stdout := ""; return_code := 0; expects := [0; 2; 0; 1]%nat |}
              sdk_with_listing ltac:(vm_compute; reflexivity))
    as (t' & E & _ & Ht).
  rewrite E. exact Ht.
Defined.

Lemma listed_build_tools_in_order_witness :
  Forall2 (names_version (V:=list Z))
    (List.filter is_build_tools_line (Py.split packages_listing "010"))
    [[30; 0; 3]; [34; 0; 0]].
Proof.
  apply (proj1 (proj2 (listed_build_tools_in_order (H:=Sim.ops)
                         (H0:=Sim.versions) Sim.linux (Sim.project [])
                         (Sim.fresh sdk_with_listing [])
                         (quiet_reply packages_listing) sdk_with_listing
                         ltac:(vm_compute; reflexivity)
                         ltac:(vm_compute; reflexivity)))).
  vm_compute. reflexivity.
Defined.

(* ===================================================================== *)
(** ** Further properties: the aidl check and the package installation *)
(* ===================================================================== *)

Section Inspection.
Context {W : Type} `{BuildOps W} {V : Type} `{VersionLib V}.
Context (h : host) (b : buildozer).
Implicit Types t : target W.

Lemma read_version_subdir_run dir t v0 :
  parse "0" = Some v0 →
  ∃ t', Android._read_version_subdir (V:=V) dir t
        = (Ok (installed_version dir (world t) v0), t')
        ∧ delta (logs_and_calls no_call) t t'.
Proof.
  intros Hzero.
  unfold Android._read_version_subdir, installed_version, bind, observe, gets.
  destruct (path_exists dir (world t)); cbn [negb].
  - change (list_dir dir (world t)) with (Ok (listdir dir (world t))).
    cbn [from_result]. unfold ret at 1.
    destruct (Py.max v_ltb (omap parse (listdir dir (world t)))) as [m|].
    + exists t. split; [done|]. reflexivity.
    + unfold Android.parse_version. rewrite Hzero. cbn.
      eexists. split; [done|]. apply delta_emit; cbn; tauto.
  - unfold Android.parse_version. rewrite Hzero. cbn.
    eexists. split; [done|]. apply delta_emit; cbn; tauto.
Qed.

(** X10.  The aidl check looks up the highest installed build-tools
    version itself (the version it is handed is not used), checks that
    the [aidl] binary of that version exists and runs it without
    arguments.  It passes exactly when that run ends with exit code 1;
    with any other exit code, 0 included, it logs that aidl cannot be
    executed and raises. *)
Theorem aidl_check_wants_exit_code_one given t v0 r1 w1 r2 w2 :
  parse "0" = Some v0 →
  let v := installed_version (build_tools_of h b) (world t) v0 in
  call (aidl_checkbin h b v) (world t) = (Ok r1, w1) →
  call (aidl_cmd h b v) w1 = (Ok r2, w2) →
  let run := Android._check_aidl h b given t in
  host_calls (trace run.2)
  = host_calls (trace t) ++ [aidl_checkbin h b v; aidl_cmd h b v]
  ∧ (return_code r2 = 1 → run.1 = Ok ())
  ∧ (return_code r2 ≠ 1 →
     run.1 = Raise BuildozerException
     ∧ Log Error "Aidl cannot be executed" ∈ trace run.2).
Proof.
  intros Hzero v Hbin Hrun run. subst run.
  set (t1 := emit (Log Debug "Check that aidl can be executed") t).
  destruct (read_version_subdir_run (build_tools_of h b) t1 v0 Hzero)
    as (t2 & E2 & D2).
  apply delta_no_call in D2 as (Hw2 & _ & Hc2).
  change (world t1) with (world t) in E2, Hw2. fold v in E2.
  assert (Hc1 : host_calls (trace t2) = host_calls (trace t)).
  { rewrite Hc2. subst t1. cbn [trace emit]. apply host_calls_snoc_log. }
  change (wp (Android._check_aidl h b given)
            (λ r t', host_calls (trace t')
                     = host_calls (trace t) ++ [aidl_checkbin h b v; aidl_cmd h b v]
                     ∧ (return_code r2 = 1 → r = Ok ())
                     ∧ (return_code r2 ≠ 1 →
                        r = Raise BuildozerException
                        ∧ Log Error "Aidl cannot be executed" ∈ trace t')) t).
  unfold Android._check_aidl.
  apply wp_bind, wp_log. fold t1.
  eapply wp_bind_ok; [exact E2|].
  change (path_join h (path_join h (path_join h (Android.android_sdk_dir h b)
                                      "build-tools") (v_str v)) "aidl")
    with (aidl_path h b v).
  change (Checkbin "Aidl" (aidl_path h b v)) with (aidl_checkbin h b v).
  change (Cmd [aidl_path h b v] None _) with (aidl_cmd h b v).
  apply wp_bind, wp_host_call. intros r w. rewrite Hw2, Hbin.
  intros [= <- <-].
  apply wp_bind, wp_host_call. intros r w. cbn [world set_world emit].
  rewrite Hrun. intros [= <- <-].
  set (t4 := set_world w2 (emit (Host (aidl_cmd h b v))
               (set_world w1 (emit (Host (aidl_checkbin h b v)) t2)))).
  assert (Hc4 : host_calls (trace t4)
                = host_calls (trace t) ++ [aidl_checkbin h b v; aidl_cmd h b v]).
  { subst t4. cbn [trace set_world emit].
    by rewrite !host_calls_snoc_host, Hc1, <- app_assoc. }
  destruct (Z.eqb_spec (return_code r2) 1) as [Hone|Hnot]; cbn [negb].
  - apply wp_ret. split; [done|]. split; [done|]. by intros [].
  - apply wp_bind, wp_log.
    destruct (String.eqb (architecture h) "64bit").
    + apply wp_bind. apply wp_bind, wp_log. apply wp_bind, wp_log.
      apply wp_bind, wp_log. apply wp_log. apply wp_raise.
      cbn [trace emit]. rewrite !host_calls_snoc_log.
      split; [done|]. split; [done|]. intros _. split; [done|].
      rewrite !elem_of_app. do 4 left. right. apply list_elem_of_here.
    + apply wp_bind. apply wp_bind, wp_log. apply wp_bind, wp_log.
      apply wp_log. apply wp_raise.
      cbn [trace emit]. rewrite !host_calls_snoc_log.
      split; [done|]. split; [done|]. intros _. split; [done|].
      rewrite !elem_of_app. do 3 left. right. apply list_elem_of_here.
Qed.

Lemma check_aidl_walk v :
  respects (delta (logs_and_calls (inspects (V:=V) h b)))
    (Android._check_aidl (W:=W) h b v).
Proof.
  unfold Android._check_aidl.
  walk; try done; cbn; unfold inspects, aidl_checkbin, aidl_cmd, aidl_path,
    build_tools_of; eauto.
Qed.

Lemma list_build_tools_walk :
  respects (delta (logs_and_calls (inspects (V:=V) h b)))
    (Android._android_list_build_tools_versions (W:=W) (V:=V) h b).
Proof.
  unfold Android._android_list_build_tools_versions.
  apply respects_bind; [apply _| |intros ?; walk].
  intros t. destruct (isfile (sdkmanager_file h b) (world t)) eqn:E.
  - rewrite sdkmanager_run by done. apply respects_call_in. cbn. by left.
  - rewrite sdkmanager_missing by done. reflexivity.
Qed.

Lemma install_steps_skipping :
  getbooldefault b "android.skip_update" false = true →
  respects (delta (logs_and_calls (inspects (V:=V) h b)))
    (Android.install_steps (W:=W) (V:=V) h b).
Proof.
  intros Hskip. unfold Android.install_steps. rewrite Hskip. cbn [negb].
  pose proof check_aidl_walk. pose proof list_build_tools_walk.
  walk; done.
Qed.

Lemma uncached_tail cv t :
  let steps := Android.install_steps (V:=V) h b t in
  let run := uncached_run (V:=V) h b cv t in
  host_calls (trace run.2) = host_calls (trace steps.2)
  ∧ world run.2 = world steps.2
  ∧ (∀ e, steps.1 = Raise e → run = (Raise e, steps.2))
  ∧ ∃ d, trace run.2 = trace steps.2 ++ d ∧ Forall (λ e, ¬ is_log e ∧ ¬ calls_out e ∧ ∀ s, e ≠ Sendline s) d.
Proof.
  cbv zeta. unfold uncached_run, bind.
  destruct (Android.install_steps h b t) as [[[]|e] t1]; cbn.
  - split.
    { unfold host_calls. rewrite !omap_app. cbn. by rewrite !app_nil_r. }
    split; [done|]. split; [done|].
    exists [StoreSet Android.cache_key cv; StoreSync].
    split; [by rewrite <- app_assoc|].
    repeat constructor; cbn; try tauto; done.
  - split; [done|]. split; [done|]. split; [by intros ? [= <-]|].
    exists []. by rewrite app_nil_r.
Qed.

(** X5.  With [android.skip_update] set, [_install_android_packages]
    installs and updates nothing: whatever the state of the cache, the
    only calls it makes are the manager's package listing and the two
    calls of the aidl check, and nothing is ever sent to a child. *)
Theorem skip_update_only_inspects t :
  getbooldefault b "android.skip_update" false = true →
  ∃ d, trace (Android._install_android_packages (V:=V) h b t).2 = trace t ++ d
       ∧ Forall (inspects (V:=V) h b) (host_calls d)
       ∧ Forall (λ e, ∀ s, e ≠ Sendline s) d.
Proof.
  intros Hskip.
  destruct (install_packages_unfold (V:=V) h b t) as (t0 & _ & Hq & ->).
  destruct Hq as [[(d0 & E0 & F0) _ _ _ _] _].
  assert (Hd0 : Forall (inspects (V:=V) h b) (host_calls d0)
                ∧ Forall (λ e, ∀ s, e ≠ Sendline s) d0).
  { clear E0. induction F0 as [|e d He _ [IH1 IH2]]; [by split|].
    destruct e; try done. cbn. split; [done|]. by constructor. }
  destruct Hd0 as [Hd0 Hs0].
  destruct (Py.eqb _ _).
  - exists d0. cbn. done.
  - destruct (uncached_tail (tuple_of h b t) t0) as (_ & _ & _ & d2 & E2 & F2).
    cbv zeta in E2.
    destruct (delta_calls _ _ _ (install_steps_skipping Hskip t0))
      as (d1 & E1 & F1 & L1 & _).
    exists (d0 ++ d1 ++ d2). split.
    { rewrite E2, E1, E0. by rewrite <- !app_assoc. }
    split.
    + rewrite !host_calls_app. apply Forall_app. split; [done|].
      apply Forall_app. split; [done|].
      clear E2. induction F2 as [|e d (_ & He & _) _ IH]; [constructor|].
      destruct e; done.
    + apply Forall_app. split; [done|]. apply Forall_app. split.
      * eapply Forall_impl; [exact L1|]. intros e [He|He] s ->; done.
      * eapply Forall_impl; [exact F2|]. intros e (_ & _ & He). done.
Qed.

Lemma install_steps_without_manager t v0 :
  parse "0" = Some v0 →
  isfile (sdkmanager_file h b) (world t) = false →
  ∃ t', Android.install_steps (V:=V) h b t = (Raise BuildozerException, t')
        ∧ delta (logs_and_calls no_call) t t'.
Proof.
  intros Hzero Hno. apply wp_raises. unfold Android.install_steps.
  destruct (getbooldefault b "android.skip_update" false); cbn [negb].
  - apply wp_bind. apply wp_bind, wp_log. apply wp_log.
    apply wp_bind, wp_log.
    set (t3 := emit _ (emit _ (emit _ t))).
    assert (D3 : delta (logs_and_calls no_call) t t3).
    { subst t3. etrans; [|apply delta_emit; cbn; tauto].
      etrans; [|apply delta_emit; cbn; tauto]. apply delta_emit; cbn; tauto. }
    destruct (read_version_subdir_run
                (path_join h (Android.android_sdk_dir h b) "build-tools")
                t3 v0 Hzero) as (t4 & E4 & D4).
    eapply wp_bind_ok; [exact E4|].
    assert (Hno4 : isfile (sdkmanager_file h b) (world t4) = false).
    { destruct (delta_no_call _ _ D4) as (-> & _). exact Hno. }
    eapply wp_bind_raise.
    { unfold Android._android_list_build_tools_versions, bind.
      by rewrite sdkmanager_missing. }
    split; [done|]. by etrans.
  - apply wp_bind. apply wp_bind, wp_log.
    eapply wp_bind_raise; [by apply update_sdk_missing|].
    cbv beta iota. split; [done|]. apply delta_emit; cbn; tauto.
Qed.

(** X9.  Without an installed manager ([tools/bin/sdkmanager] is not a
    file), a run of [_install_android_packages] that is not cut short by
    the cache raises [BuildozerException]: it has made no outside call,
    the machine is as it was, and the cache is not written. *)
Theorem packages_need_the_manager t v0 :
  parse "0" = Some v0 →
  isfile (sdkmanager_file h b) (world t) = false →
  state t !! Android.cache_key ≠ Some (tuple_of h b t) →
  ∃ t', Android._install_android_packages (V:=V) h b t
        = (Raise BuildozerException, t')
        ∧ world t' = world t
        ∧ state t' = state t
        ∧ host_calls (trace t') = host_calls (trace t).
Proof.
  intros Hzero Hno Hne.
  destruct (install_packages_unfold (V:=V) h b t) as (t0 & _ & Hq & ->).
  destruct (Py.eqb _ _) eqn:Eeq.
  { apply stored_eqb in Eeq. done. }
  assert (Hno0 : isfile (sdkmanager_file h b) (world t0) = false).
  { by rewrite (quiet_world _ _ _ _ Hq). }
  destruct (install_steps_without_manager t0 v0 Hzero Hno0) as (t1 & E1 & D1).
  destruct (delta_no_call _ _ D1) as (Hw & Hs & Hc).
  exists t1. unfold uncached_run, bind. rewrite E1. split; [done|].
  split; [by rewrite Hw; apply (quiet_world h b)|].
  split; [by rewrite Hs; apply (quiet_state h b)|].
  rewrite Hc. by apply (quiet_host_calls h b).
Qed.
End Inspection.

(* ===================================================================== *)
(** ** The install cache: what a miss starts *)
(* ===================================================================== *)

Section CacheMiss.
Context {W : Type} `{BuildOps W} {V : Type} `{VersionLib V}.
Context (h : host) (b : buildozer).
Implicit Types t : target W.

Lemma bind_ok_run {A B} (m : M W A) (k : A → M W B) t a t1 :
  m t = (Ok a, t1) → bind m k t = k a t1.
Proof. unfold bind. by intros ->. Qed.

Lemma store_tail_frame (cv : Py.value) :
  respects (delta (λ _, True))
    (bind (modify (λ t : target W,
                     emit (StoreSet Android.cache_key cv)
                       (set_state (<[Android.cache_key := cv]> (state t)) t)))
          (λ _, bind (modify (emit StoreSync)) (λ _, ret (@None bool)))).
Proof.
  intros t. unfold bind, modify, ret. cbn. split; try done.
  - exists [StoreSet Android.cache_key cv; StoreSync].
    cbn. rewrite <- app_assoc. split; [done|]. by repeat constructor.
  - intros HP. by destruct (HP (StoreSet Android.cache_key cv) I).
Qed.

Lemma update_first_call cmds t r w :
  isfile (sdkmanager_file h b) (world t) = true →
  call (update_call h b cmds) (world t) = (r, w) →
  delta (λ _, True) (set_world w (emit (Host (update_call h b cmds)) t))
    (Android._android_update_sdk h b cmds t).2.
Proof.
  intros Hyes Hcall. unfold Android._android_update_sdk, update_call in *.
  destruct (getbooldefault b "android.accept_sdk_license" false).
  - unfold bind. rewrite sdkmanager_run by done. unfold host_call.
    change (CmdExpect _ _ _) with (sdkmanager_child h b cmds).
    rewrite Hcall. destruct r as [r|e]; [|reflexivity].
    apply (accept_licenses_frame (λ _, True)).
  - unfold bind. rewrite sdkmanager_run by done. unfold host_call.
    cbn [app]. rewrite Hcall. destruct r as [r|e]; reflexivity.
Qed.

Lemma list_first_call t r w :
  isfile (sdkmanager_file h b) (world t) = true →
  call (sdkmanager_list h b) (world t) = (r, w) →
  delta (λ _, True) (set_world w (emit (Host (sdkmanager_list h b)) t))
    (Android._android_list_build_tools_versions (V:=V) h b t).2.
Proof.
  intros Hyes Hcall. unfold Android._android_list_build_tools_versions, bind.
  rewrite sdkmanager_run by done. unfold host_call.
  change (sdkmanager_cmd h b ["--list"] _) with (sdkmanager_list h b).
  rewrite Hcall. destruct r as [r|e]; [|reflexivity].
  apply (build_tools_versions_frame (λ _, True)).
Qed.

(** with the manager installed, the first outside call of the steps *)
Lemma uncached_first_call cv t0 :
  isfile (sdkmanager_file h b) (world t0) = true →
  (getbooldefault b "android.skip_update" false = true →
   is_Some (parse (V:=V) "0")) →
  ∃ rest,
    host_calls (trace (uncached_run (V:=V) h b cv t0).2)
    = host_calls (trace t0) ++ first_package_call h b :: rest.
Proof.
  intros Hyes Hzero.
  assert (Hfrom : ∃ s, host_calls (trace s)
                       = host_calls (trace t0) ++ [first_package_call h b]
                       ∧ delta (λ _, True) s (uncached_run (V:=V) h b cv t0).2).
  { unfold uncached_run, first_package_call.
    destruct (getbooldefault b "android.skip_update" false) eqn:Hskip.
    - destruct (Hzero eq_refl) as [v0 Hv0].
      set (t3 := emit (Log Info "Updating SDK build tools if necessary")
                   (emit (Log Info ("Note: this also prevents installing missing "
                                    +:+ "SDK components"))
                      (emit (Log Info "Skipping Android SDK update due to spec file setting")
                         t0))).
      destruct (read_version_subdir_run
                  (path_join h (Android.android_sdk_dir h b) "build-tools")
                  t3 v0 Hv0) as (t4 & E4 & D4).
      destruct (delta_no_call _ _ D4) as (Hw4 & _ & Hc4).
      destruct (call (sdkmanager_list h b) (world t4)) as [r w] eqn:Hcall.
      exists (set_world w (emit (Host (sdkmanager_list h b)) t4)). split.
      { cbn [trace set_world emit]. rewrite host_calls_snoc_host, Hc4.
        subst t3. cbn [trace emit]. by rewrite !host_calls_snoc_log. }
      etrans; [|apply (bind_tail (delta _)); intros; apply store_tail_frame].
      unfold Android.install_steps. rewrite Hskip. cbn [negb].
      erewrite bind_ok_run by reflexivity.
      erewrite bind_ok_run by reflexivity. fold t3.
      rewrite (bind_ok_run _ _ _ _ _ E4).
      etrans; [|apply (bind_tail (delta _)); intros; frame].
      apply (list_first_call _ r); [by rewrite Hw4|done].
    - set (t1 := emit (Log Info "Installing/updating SDK platform tools if necessary")
                   t0).
      destruct (call (update_call h b ["platform-tools"]) (world t1))
        as [r w] eqn:Hcall.
      exists (set_world w (emit (Host (update_call h b ["platform-tools"])) t1)).
      split.
      { subst t1. cbn [trace set_world emit].
        by rewrite host_calls_snoc_host, host_calls_snoc_log. }
      etrans; [|apply (bind_tail (delta _)); intros; apply store_tail_frame].
      unfold Android.install_steps. rewrite Hskip. cbn [negb].
      etrans; [|apply (bind_tail (delta _)); intros; frame].
      erewrite bind_ok_run by reflexivity. fold t1.
      etrans; [|apply (bind_tail (delta _)); intros; frame].
      by apply (update_first_call _ _ r). }
  destruct Hfrom as (s & Hs & [(d & Ed & _) _ _ _ _]).
  exists (host_calls d). by rewrite Ed, host_calls_app, Hs, <- app_assoc.
Qed.

(** without the manager the steps raise: nothing is installed *)
Lemma uncached_without_manager cv t0 :
  isfile (sdkmanager_file h b) (world t0) = false →
  (getbooldefault b "android.skip_update" false = true →
   is_Some (parse (V:=V) "0")) →
  (uncached_run (V:=V) h b cv t0).1 = Raise BuildozerException.
Proof.
  intros Hno Hzero. unfold uncached_run.
  assert (E : ∃ t', Android.install_steps (V:=V) h b t0
                    = (Raise BuildozerException, t')).
  { destruct (getbooldefault b "android.skip_update" false) eqn:Hskip.
    - destruct (Hzero eq_refl) as [v0 Hv0].
      destruct (install_steps_without_manager (V:=V) h b t0 v0 Hv0 Hno)
        as (t' & E & _). by exists t'.
    - unfold Android.install_steps. rewrite Hskip. cbn [negb].
      set (t1 := emit (Log Info "Installing/updating SDK platform tools if necessary")
                   t0).
      assert (Hno1 : isfile (sdkmanager_file h b) (world t1) = false) by done.
      pose proof (update_sdk_missing h b ["platform-tools"] t1 Hno1) as E1.
      exists t1. unfold bind at 1. unfold bind at 1. unfold bind at 1.
      unfold log at 1, modify at 1. fold t1. by rewrite E1. }
  destruct E as (t' & E). unfold bind at 1. by rewrite E.
Qed.

(** C1.  Evaluating the five members of the tuple only logs; after it,
    [_install_android_packages] returns [True] at once, with nothing else
    done, exactly when the store holds that very tuple under
    [android:sdk_installation].  In every other case it does not return
    [True]: it runs the installation steps and then writes the tuple to
    the store.  The steps begin with a log line; with the manager
    installed, the first outside call of the run is the manager's update
    of [platform-tools] (its package listing when [android.skip_update] is
    set); without it the run raises [BuildozerException]; and a run that
    returns has stored the tuple and flushed the store as the last thing
    it did. *)
Theorem install_packages_skips_iff_cached t :
  ∃ t0,
    Android.cache_value h b t = (Ok (tuple_of h b t), t0)
    ∧ world t0 = world t ∧ state t0 = state t
    ∧ host_calls (trace t0) = host_calls (trace t)
    ∧ (Android._install_android_packages (V:=V) h b t = (Ok (Some true), t0)
       ↔ state t !! Android.cache_key = Some (tuple_of h b t))
    ∧ (state t !! Android.cache_key ≠ Some (tuple_of h b t) →
       let run := Android._install_android_packages (V:=V) h b t in
       run = uncached_run (V:=V) h b (tuple_of h b t) t0
       ∧ run.1 ≠ Ok (Some true)
       ∧ (∃ msg d, trace run.2 = trace t0 ++ Log Info msg :: d)
       ∧ (isfile (sdkmanager_file h b) (world t) = true →
          (getbooldefault b "android.skip_update" false = true →
           is_Some (parse (V:=V) "0")) →
          ∃ rest, host_calls (trace run.2)
                  = host_calls (trace t) ++ first_package_call h b :: rest)
       ∧ (isfile (sdkmanager_file h b) (world t) = false →
          (getbooldefault b "android.skip_update" false = true →
           is_Some (parse (V:=V) "0")) →
          run.1 = Raise BuildozerException)
       ∧ (run.1 = Ok None →
          state run.2
          = <[Android.cache_key := tuple_of h b t]> (state t)
          ∧ ∃ d, trace run.2
                 = trace t0 ++ d ++ [StoreSet Android.cache_key (tuple_of h b t);
                                     StoreSync])).
Proof.
  destruct (install_packages_unfold (V:=V) h b t) as (t0 & E0 & Hq & Erun).
  exists t0. split; [done|].
  split; [exact (quiet_world h b _ _ Hq)|].
  split; [exact (quiet_state h b _ _ Hq)|].
  split; [exact (quiet_host_calls h b _ _ Hq)|].
  rewrite Erun. pose proof (stored_eqb h b t) as Heq.
  destruct (uncached_run_spec (V:=V) h b (tuple_of h b t) t0)
    as (msg & d & _ & Hun).
  destruct (Py.eqb _ _).
  - split; [split; [intros _; by apply Heq|done]|].
    intros Hne. by destruct Hne; apply Heq.
  - assert (Hne : state t !! Android.cache_key ≠ Some (tuple_of h b t)).
    { intros Hc. apply Heq in Hc. discriminate. }
    split.
    { split; [|done]. intros Hc. rewrite Hc in Hun. done. }
    intros _. cbv zeta. split; [done|].
    split; [|split; [|split; [|split]]].
    + destruct (uncached_run (V:=V) h b (tuple_of h b t) t0) as [[[c|]|e] t'];
        [done|done|done].
    + destruct (uncached_run (V:=V) h b (tuple_of h b t) t0) as [[[c|]|e] t'];
        [done|..]; cbn.
      * exists msg, (d ++ [StoreSet Android.cache_key (tuple_of h b t);
                           StoreSync]). by destruct Hun.
      * exists msg, d. by destruct Hun.
    + intros Hyes Hzero.
      rewrite <- (quiet_host_calls h b _ _ Hq).
      apply uncached_first_call; [|done].
      by rewrite (quiet_world h b _ _ Hq).
    + intros Hno Hzero. apply uncached_without_manager; [|done].
      by rewrite (quiet_world h b _ _ Hq).
    + destruct (uncached_run (V:=V) h b (tuple_of h b t) t0) as [[[c|]|e] t'];
        cbn; [done| |done].
      intros _. destruct Hun as [Hs Ht]. split.
      * by rewrite Hs, (quiet_state h b _ _ Hq).
      * exists (Log Info msg :: d). by rewrite Ht.
Qed.
End CacheMiss.

Lemma install_packages_skips_iff_cached_witness :
  (let t := set_state {[ Android.cache_key := tuple25 ]}
              (Sim.fresh sdk_tools []) in
   (Android._install_android_packages (V:=list Z) Sim.linux ndk25 t).1
   = Ok (Some true))
  ∧ (let t := Sim.fresh sdk_with_listing [] in
     head (host_calls
             (trace (Android._install_android_packages (V:=list Z)
                       Sim.linux ndk25 t).2))
     = Some (sdkmanager_cmd Sim.linux ndk25 ["platform-tools"]
               [("show_output", true); ("get_stdout", true)])).
Proof.
  split.
  - intros t.
    destruct (install_packages_skips_iff_cached (H:=Sim.ops) (V:=list Z)
                Sim.linux ndk25 t) as (t0 & _ & _ & _ & _ & [_ Hcached] & _).
    by rewrite (Hcached ltac:(vm_compute; reflexivity)).
  - intros t.
    destruct (install_packages_skips_iff_cached (H:=Sim.ops) (V:=list Z)
                Sim.linux ndk25 t) as (t0 & _ & _ & _ & _ & _ & Hmiss).
    destruct (Hmiss ltac:(vm_compute; discriminate))
      as (_ & _ & _ & Hfirst & _).
    destruct (Hfirst ltac:(vm_compute; reflexivity)
                ltac:(vm_compute; discriminate)) as (rest & ->).
    reflexivity.
Defined.

Lemma aidl_check_wants_exit_code_one_witness :
  (Android._check_aidl (V:=list Z) Sim.linux (Sim.project []) [1]
     (Lab.fresh three_build_tools [])).1
  = Raise BuildozerException.
Proof.
  destruct (aidl_check_wants_exit_code_one (H:=Lab.ops) (H0:=Sim.versions)
              Sim.linux (Sim.project []) [1]
              (Lab.fresh three_build_tools []) [0]
              (quiet_reply "") three_build_tools
              (quiet_reply "") three_build_tools
              ltac:(vm_compute; reflexivity)
              ltac:(vm_compute; reflexivity)
              ltac:(vm_compute; reflexivity)) as (_ & _ & Hfail).
  apply Hfail. vm_compute. discriminate.
Defined.

Lemma skip_update_only_inspects_witness :
  ∃ d, trace (Android._install_android_packages (V:=list Z) Sim.linux skipping
                (Sim.fresh sdk_with_listing [])).2 = d
       ∧ Forall (inspects (V:=list Z) Sim.linux skipping) (host_calls d).
Proof.
  destruct (skip_update_only_inspects (H:=Sim.ops) (H0:=Sim.versions)
              Sim.linux skipping (Sim.fresh sdk_with_listing [])
              ltac:(vm_compute; reflexivity)) as (d & E & F & _).
  exists d. split; [exact E|exact F].
Defined.

Lemma packages_need_the_manager_witness :
  (Android._install_android_packages (V:=list Z) Sim.linux ndk25
     (Sim.fresh (with_dirs []) [])).1
  = Raise BuildozerException.
Proof.
  destruct (packages_need_the_manager (H:=Sim.ops) (H0:=Sim.versions)
              Sim.linux ndk25 (Sim.fresh (with_dirs []) []) [0]
              ltac:(vm_compute; reflexivity)
              ltac:(vm_compute; reflexivity)
              ltac:(vm_compute; discriminate)) as (t' & E & _).
  by rewrite E.
Defined.

(* ===================================================================== *)
(** ** Further properties: fresh installs *)
(* ===================================================================== *)

Section FreshInstalls.
Context {W : Type} `{BuildOps W} (h : host) (b : buildozer).
Implicit Types t : target W.

Lemma bind_unit {A} (m : M W A) {B} (k : M W B) t :
  bind (bind m (λ _, ret ())) (λ _, k) t = bind m (λ _, k) t.
Proof. unfold bind, ret. by destruct (m t) as [[a|e] t']. Qed.

Lemma ran_mono {A} planned (a : A) t t1 r t' :
  host_calls (trace t1) = host_calls (trace t) → world t1 = world t →
  ran planned a t1 r t' → ran planned a t r t'.
Proof. unfold ran. by intros -> ->. Qed.

Lemma script_ran {A} (l : list event) (a : A) t :
  wp (script l a) (ran (host_calls l) a t) t.
Proof.
  revert t. induction l as [|e l IH]; intros t.
  - apply wp_ret. unfold ran. cbn. by rewrite app_nil_r.
  - destruct e as [lv msg|c|s|k v|]; cbn [script]; try apply IH.
    + apply wp_bind, wp_log. eapply wp_mono; [apply IH|]. cbn beta.
      intros r t'. apply ran_mono; [|done]. cbn [trace emit].
      apply host_calls_snoc_log.
    + apply wp_bind, wp_host_call. intros [r|e] w Hcall.
      * eapply wp_mono; [apply IH|]. cbn beta.
        intros r' t'. unfold ran.
        change (host_calls (Host c :: l)) with (c :: host_calls l).
        cbn [replay world trace set_world emit]. rewrite Hcall.
        rewrite host_calls_snoc_host, <- app_assoc.
        by destruct (replay (host_calls l) w) as [[made failure] w''].
      * unfold ran.
        change (host_calls (Host c :: l)) with (c :: host_calls l).
        cbn [replay world trace set_world emit]. rewrite Hcall.
        by rewrite host_calls_snoc_host.
Qed.

Lemma ant_missing_run t :
  file_exists (Android.apache_ant_dir h b) (world t) = false →
  Android._install_apache_ant h b t
  = script ((Host <$> creating (Android.apache_ant_dir h b) (world t))
            ++ [Log Info "Android ANT is missing, downloading";
                Host (Download ant_url ant_archive (Android.apache_ant_dir h b));
                Host (FileExtract ant_archive (Android.apache_ant_dir h b));
                Log Info "Apache ANT installation done."])
      (Android.apache_ant_dir h b) t.
Proof.
  intros Hmissing. unfold Android._install_apache_ant.
  unfold bind at 1, observe at 1, gets at 1. rewrite Hmissing.
  unfold bind at 1, observe at 1, gets at 1. unfold creating.
  destruct (path_exists (Android.apache_ant_dir h b) (world t)); cbn [negb].
  - reflexivity.
  - apply bind_unit.
Qed.

(** X7.  When the Ant directory is missing, [_install_apache_ant] creates
    it if nothing is at its path, then downloads
    ["apache-ant-1.9.4-bin.tar.gz"] from the Apache archive into it and
    extracts it there.  These calls, and no other, are made in that
    order, each on the machine the one before left; the run stops at the
    first of them that fails and raises what it raised, and it returns
    the directory when none fails.  The archive is always that of version
    1.9.4: the version set in [android.ant] names the directory only. *)
Theorem ant_fresh_install_fetches_1_9_4 t r t' :
  file_exists (Android.apache_ant_dir h b) (world t) = false →
  Android._install_apache_ant h b t = (r, t') →
  let dir := Android.apache_ant_dir h b in
  ran (creating dir (world t)
       ++ [Download "https://archive.apache.org/dist/ant/binaries/"
             "apache-ant-1.9.4-bin.tar.gz" dir;
           FileExtract "apache-ant-1.9.4-bin.tar.gz" dir])
      dir t r t'.
Proof.
  intros Hmissing Hrun dir. rewrite (ant_missing_run _ Hmissing) in Hrun.
  revert r t' Hrun. apply wp_run. eapply wp_mono; [apply script_ran|].
  cbn beta. intros r t'. rewrite host_calls_app.
  assert (E : ∀ l, host_calls (Host <$> l) = l).
  { induction l as [|c l IH]; [done|]. cbn. by f_equal. }
  by rewrite E.
Qed.

Lemma sdk_archive_family :
  Android.sdk_archive h
  = match platform_family h with
    | Some family => Ok (sdk_tools_archive family)
    | None => Raise (unsupported h)
    end.
Proof.
  unfold Android.sdk_archive, platform_family, Android.is_windows.
  destruct (Py.among (platform h) ["win32"; "cygwin"]); [reflexivity|].
  unfold Py.among at 1. cbn [existsb]. rewrite orb_false_r.
  destruct (String.eqb (platform h) "darwin"); [reflexivity|].
  destruct (Py.startswith (platform h) "linux"
            || Py.startswith (platform h) "freebsd"); reflexivity.
Qed.

(** X6.  When the SDK directory is missing, [_install_android_sdk]
    chooses the command-line tools archive by platform: "win" for win32
    and cygwin, "mac" for darwin, "linux" for linux and freebsd.  On any
    other platform it raises [SystemError] naming the platform, before any
    outside call.  Otherwise it creates the directory if nothing is at its
    path, downloads the archive from the Google repository into it and
    extracts it there.  These calls, and no other, are made in that
    order, each on the machine the one before left; the run stops at the
    first of them that fails and raises what it raised, and it returns
    the directory when none fails. *)
Theorem sdk_fresh_install_by_platform t r t' :
  file_exists (Android.android_sdk_dir h b) (world t) = false →
  Android._install_android_sdk h b t = (r, t') →
  let dir := Android.android_sdk_dir h b in
  match platform_family h with
  | None =>
      r = Raise (SystemError ("Unsupported platform: " +:+ platform h))
      ∧ world t' = world t
      ∧ host_calls (trace t') = host_calls (trace t)
  | Some family =>
      let archive := "commandlinetools-" +:+ family +:+ "-6514223_latest.zip" in
      ran (creating dir (world t)
           ++ [Download "https://dl.google.com/android/repository/" archive dir;
               FileExtract archive dir])
          dir t r t'
  end.
Proof.
  intros Hmissing Hrun dir. revert Hrun.
  unfold Android._install_android_sdk.
  unfold bind at 1, observe at 1, gets at 1. rewrite Hmissing.
  unfold bind at 1, log at 1, modify at 1. rewrite sdk_archive_family.
  destruct (platform_family h) as [family|].
  - fold dir. change (sdk_tools_archive family)
      with ("commandlinetools-" +:+ family +:+ "-6514223_latest.zip").
    set (archive := "commandlinetools-" +:+ family +:+ "-6514223_latest.zip").
    set (t1 := emit _ t).
    assert (E : ∀ t1 : target W,
      bind (observe (path_exists dir)) (λ there,
        bind (if negb there then bind (host_call (Makedirs dir)) (λ _, ret ())
              else ret ()) (λ _,
        bind (host_call (Download "https://dl.google.com/android/repository/"
                           archive dir)) (λ _,
        bind (log Info "Unpacking Android SDK") (λ _,
        bind (host_call (FileExtract archive dir)) (λ _,
        bind (log Info "Android SDK tools base installation done.") (λ _,
        ret dir)))))) t1
      = script ((Host <$> creating dir (world t1))
                ++ [Host (Download "https://dl.google.com/android/repository/"
                            archive dir);
                    Log Info "Unpacking Android SDK";
                    Host (FileExtract archive dir);
                    Log Info "Android SDK tools base installation done."])
          dir t1).
    { intros t2. unfold bind at 1, observe at 1, gets at 1. unfold creating.
      destruct (path_exists dir (world t2)); cbn [negb];
        [reflexivity|apply bind_unit]. }
    rewrite E. clear E. revert r t'. apply wp_run.
    eapply wp_mono; [apply script_ran|]. cbn beta. intros r t' Hran.
    apply (ran_mono _ _ t t1); [apply host_calls_snoc_log|done|].
    revert Hran. rewrite host_calls_app.
    assert (E : ∀ l, host_calls (Host <$> l) = l).
    { induction l as [|c l IH]; [done|]. cbn. by f_equal. }
    by rewrite E.
  - intros [= <- <-]. split; [done|]. split; [done|].
    apply host_calls_snoc_log.
Qed.

(** X8.  When the NDK directory is missing, [_install_android_ndk] gives
    up before any outside call in two cases: the NDK version holds no
    digit, and it raises [AttributeError]; or the version has one and the
    platform is none of win32, cygwin, darwin, linux*, freebsd*, and it
    raises [SystemError] naming the platform. *)
Theorem ndk_install_gives_up_early t :
  file_exists (ndk_dir_of h b t) (world t) = false →
  (ndk_major (ndk_version_of h b t) = None →
   ∃ t', Android._install_android_ndk h b t = (Raise AttributeError, t')
         ∧ world t' = world t
         ∧ host_calls (trace t') = host_calls (trace t))
  ∧ (is_Some (ndk_major (ndk_version_of h b t)) →
     platform_family h = None →
     ∃ t', Android._install_android_ndk h b t
           = (Raise (SystemError ("Unsupported platform: " +:+ platform h)), t')
           ∧ world t' = world t
           ∧ host_calls (trace t') = host_calls (trace t)).
Proof.
  intros Hmissing.
  destruct (android_ndk_dir_spec h b t) as (t1 & E1 & Hq1).
  destruct (android_ndk_version_spec h b t1) as (t2 & E2 & Hq2).
  rewrite (quiet_ndk_version _ _ _ _ Hq1) in E2.
  assert (Hq : quiet h b t t2) by (by etrans).
  split.
  - intros Hnone. apply wp_raises. unfold Android._install_android_ndk.
    eapply wp_bind_ok; [exact E1|].
    eapply wp_bind_ok; [reflexivity|].
    rewrite (quiet_world _ _ _ _ Hq1), Hmissing.
    eapply wp_bind_ok; [exact E2|].
    unfold ndk_major in Hnone.
    destruct (Py.re_search_digits (ndk_version_of h b t)); [done|].
    apply wp_bind, wp_raise.
    split; [done|]. split; [exact (quiet_world h b _ _ Hq)|].
    exact (quiet_host_calls h b _ _ Hq).
  - intros [major Hmajor] Hfamily. apply wp_raises.
    unfold Android._install_android_ndk.
    eapply wp_bind_ok; [exact E1|].
    eapply wp_bind_ok; [reflexivity|].
    rewrite (quiet_world _ _ _ _ Hq1), Hmissing.
    eapply wp_bind_ok; [exact E2|].
    unfold ndk_major in Hmajor.
    destruct (Py.re_search_digits (ndk_version_of h b t)) as [digits|];
      [|done].
    eapply wp_bind_ok; [reflexivity|].
    apply wp_bind, wp_log.
    eapply wp_bind_raise.
    { unfold Android.ndk_archive_template, Android.is_windows.
      unfold platform_family in Hfamily.
      destruct (Py.among (platform h) ["win32"; "cygwin"]); [done|].
      destruct (String.eqb (platform h) "darwin"); [done|].
      destruct (Py.startswith (platform h) "linux"
                || Py.startswith (platform h) "freebsd") eqn:El; [done|].
      apply orb_false_elim in El as [-> ->]. reflexivity. }
    split; [done|]. split; [exact (quiet_world h b _ _ Hq)|].
    cbn [trace emit]. rewrite host_calls_snoc_log.
    exact (quiet_host_calls h b _ _ Hq).
Qed.
End FreshInstalls.

Lemma ant_fresh_install_fetches_1_9_4_witness :
  let b := Sim.project [("android.ant", "1.10.14")] in
  let dir := "/home/u/.buildozer/android/platform/apache-ant-1.10.14" in
  let run := Android._install_apache_ant Sim.linux b
               (Sim.fresh (with_dirs []) []) in
  run.1 = Ok dir
  ∧ host_calls (trace run.2)
    = [Makedirs dir;
       Download "https://archive.apache.org/dist/ant/binaries/"
         "apache-ant-1.9.4-bin.tar.gz" dir;
       FileExtract "apache-ant-1.9.4-bin.tar.gz" dir].
Proof.
  intros b dir run.
  destruct (ant_fresh_install_fetches_1_9_4 (H:=Sim.ops) Sim.linux b
              (Sim.fresh (with_dirs []) []) run.1 run.2
              ltac:(vm_compute; reflexivity) (surjective_pairing run))
    as (Hcalls & _ & Hr).
  split; [exact Hr|exact Hcalls].
Defined.

(** the download fails: the run stops there and raises what it raised *)
Lemma sdk_fresh_install_by_platform_witness :
  let dir := "/home/u/.buildozer/android/platform/android-sdk" in
  let run := Android._install_android_sdk Sim.cygwin (Sim.project [])
               (Sim.fresh no_network []) in
  run.1 = Raise (HostError "download")
  ∧ host_calls (trace run.2)
    = [Makedirs dir;
       Download "https://dl.google.com/android/repository/"
         "commandlinetools-win-6514223_latest.zip" dir].
Proof.
  intros dir run.
  destruct (sdk_fresh_install_by_platform (H:=Sim.ops) Sim.cygwin
              (Sim.project []) (Sim.fresh no_network []) run.1 run.2
              ltac:(vm_compute; reflexivity) (surjective_pairing run))
    as (Hcalls & _ & Hr).
  split; [exact Hr|exact Hcalls].
Defined.

Lemma ndk_install_gives_up_early_witness :
  (Android._install_android_ndk Sim.linux
     (Sim.project [("android.ndk", "latest")])
     (Sim.fresh (with_dirs []) [])).1
  = Raise AttributeError.
Proof.
  destruct (proj1 (ndk_install_gives_up_early (H:=Sim.ops) Sim.linux
                     (Sim.project [("android.ndk", "latest")])
                     (Sim.fresh (with_dirs []) [])
                     ltac:(vm_compute; reflexivity))
              ltac:(vm_compute; reflexivity)) as (t' & E & _).
  by rewrite E.
Defined.

(* ===================================================================== *)
(** ** Further properties: the checkout, its requirements, the bridge and
       the signing report *)
(* ===================================================================== *)

Section Requirements.
Context {W : Type} `{BuildOps W} (h : host) (b : buildozer).
Implicit Types t : target W.

(** X12.  The requirements of python-for-android are read from the
    [install_reqs] list of its [setup.py].  When that file cannot be read,
    an error is logged and the process exits with status 1 without calling
    pip; when the list cannot be extracted, the failure is passed on, again
    without calling pip.  Otherwise pip is called once, as
    [<python> -m pip install -q] followed by the requirements, with
    [--user] before them exactly when neither [VIRTUAL_ENV] nor
    [CONDA_PREFIX] is in the environment. *)
Theorem requirements_go_to_pip t :
  let run := Android.install_p4a_requirements h b t in
  match read (setup_py h b) (world t) with
  | None =>
      run = (Raise (SystemExit 1),
             emit (Log Error ("Failed to read python-for-android setup.py at "
                              +:+ setup_py h b)) t)
  | Some setup =>
      match install_reqs h setup with
      | Raise e => run = (Raise e, t)
      | Ok deps =>
          let options :=
            if bool_decide (is_Some (os_environ t !! "VIRTUAL_ENV"))
               || bool_decide (is_Some (os_environ t !! "CONDA_PREFIX"))
            then [] else ["--user"] in
          let pip := Cmd ([executable h; "-m"; "pip"; "install"; "-q"]
                          ++ options ++ deps) None [] in
          trace run.2 = trace t ++ [Host pip]
          ∧ (run.1 = Ok () ↔ ∃ r, (call pip (world t)).1 = Ok r)
      end
  end.
Proof.
  cbv zeta.
  assert (E : Android.install_p4a_requirements h b t
              = bind (match read (setup_py h b) (world t) with
                      | None =>
                          bind (log Error
                                  ("Failed to read python-for-android setup.py at "
                                   +:+ setup_py h b))
                               (λ _, raise (SystemExit 1))
                      | Some setup =>
                          match install_reqs h setup with
                          | Ok deps => ret deps
                          | Raise e => raise e
                          end
                      end)
                  (λ deps,
                     bind (host_call
                             (Cmd ([executable h; "-m"; "pip"; "install"; "-q"]
                                   ++ (if bool_decide
                                            (is_Some (os_environ t !! "VIRTUAL_ENV"))
                                          || bool_decide
                                               (is_Some (os_environ t !! "CONDA_PREFIX"))
                                       then [] else ["--user"]) ++ deps) None []))
                          (λ _, ret ())) t).
  { unfold Android.install_p4a_requirements.
    unfold bind at 1, observe at 1, gets at 1. fold (setup_py h b).
    destruct (read (setup_py h b) (world t)) as [setup|]; [|reflexivity].
    destruct (install_reqs h setup); reflexivity. }
  rewrite E. clear E.
  destruct (read (setup_py h b) (world t)) as [setup|]; [|reflexivity].
  destruct (install_reqs h setup) as [deps|e]; [|reflexivity].
  unfold bind, ret, host_call.
  destruct (call _ (world t)) as [[r|e] w]; cbn.
  - split; [done|]. split; [by eauto|done].
  - split; [done|]. split; [done|]. by intros [? ?].
Qed.

Lemma requirements_walk :
  respects (delta (logs_and_calls (is_pip h)))
    (Android.install_p4a_requirements (W:=W) h b).
Proof.
  unfold Android.install_p4a_requirements.
  walk; try done. cbn. unfold is_pip, pip_cmd. eauto.
Qed.

(** X11.  With [p4a.source_dir] set (and not empty), the checkout is the
    user's: [p4a_dir] is that directory, and [_install_p4a] never runs
    git on it nor removes it.  If the directory does not exist, the run
    raises [BuildozerException] without any outside call; if it exists,
    the only outside call of the run is the pip installation of the
    requirements. *)
Theorem source_dir_is_left_alone t source :
  config b !! "p4a.source_dir" = Some source →
  source ≠ "" →
  Android.p4a_dir h b = expanduser h source
  ∧ (file_exists (expanduser h source) (world t) = false →
     ∃ t', Android._install_p4a h b t = (Raise BuildozerException, t')
           ∧ world t' = world t
           ∧ host_calls (trace t') = host_calls (trace t))
  ∧ (file_exists (expanduser h source) (world t) = true →
     ∃ d, trace (Android._install_p4a h b t).2 = trace t ++ d
          ∧ Forall (is_pip h) (host_calls d)).
Proof.
  intros Hsrc Hne.
  assert (Htruthy : truthy source = true) by (by destruct source).
  assert (Hdir : Android.p4a_dir h b = expanduser h source).
  { unfold Android.p4a_dir. by rewrite Hsrc, Htruthy. }
  split; [done|]. unfold Android._install_p4a. rewrite Hsrc.
  change (default "" (Some source)) with source.
  rewrite Htruthy, Hdir. split.
  - intros Hgone. eexists.
    unfold bind at 1. unfold bind at 1, observe at 1, gets at 1.
    rewrite Hgone. cbn. split; [done|]. split; [done|].
    cbn [trace emit]. by rewrite !host_calls_snoc_log.
  - intros Hthere.
    unfold bind at 1. unfold bind at 1, observe at 1, gets at 1.
    rewrite Hthere. cbn [negb ret].
    destruct (delta_calls _ _ _ (requirements_walk t)) as (d & E & F & _).
    exists d. done.
Qed.

(** X13.  Without [platform_update], an existing checkout that already
    follows the configured url and branch is not fetched: after the two
    git queries, the run makes no clone, clean, pull, fetch or checkout.
    What is left is the reset to [p4a.commit], made only when a commit
    other than HEAD is configured, and the pip installation of the
    requirements. *)
Theorem current_checkout_is_not_fetched t r1 w1 r2 w2 cur_branch :
  truthy (default "" (config b !! "p4a.source_dir")) = false →
  platform_update b = false →
  file_exists (Android.p4a_dir h b) (world t) = true →
  call (git_remote_cmd (Android.p4a_dir h b)) (world t) = (Ok r1, w1) →
  call (git_branch_cmd (Android.p4a_dir h b)) w1 = (Ok r2, w2) →
  Py.split_ws (stdout r2) !! 1%nat = Some cur_branch →
  Py.strip (stdout r1) = Android.conf_p4a_url b →
  cur_branch = Android.conf_p4a_branch b →
  file_exists (Android.p4a_dir h b) w2 = true →
  ∃ rest,
    host_calls (trace (Android._install_p4a h b t).2)
    = host_calls (trace t)
      ++ [git_remote_cmd (Android.p4a_dir h b);
          git_branch_cmd (Android.p4a_dir h b)] ++ rest
    ∧ Forall (λ c, c = git_reset_cmd h b ∨ is_pip h c) rest
    ∧ (Android.conf_p4a_commit b = "HEAD" → Forall (is_pip h) rest).
Proof.
  intros Hno Hupd Hthere Hremote Hbranch Hfield Hurl Hcur Hstill.
  rewrite (install_p4a_cases _ _ _ _ _ _ _ _ Hno Hthere Hremote Hbranch Hfield).
  cbv zeta. rewrite Hurl, Hcur, !String.eqb_refl. cbn [negb orb].
  set (dir := Android.p4a_dir h b) in *.
  set (t2 := set_world w2 (emit (Host (git_branch_cmd dir))
               (set_world w1 (emit (Host (git_remote_cmd dir)) t)))).
  assert (Ht2 : host_calls (trace t2)
                = host_calls (trace t) ++ [git_remote_cmd dir;
                                           git_branch_cmd dir]).
  { subst t2. cbn [trace set_world emit].
    by rewrite !host_calls_snoc_host, <- app_assoc. }
  set (Q := λ c, (Android.conf_p4a_commit b ≠ "HEAD" ∧ c = git_reset_cmd h b)
                 ∨ is_pip h c).
  assert (D : delta (logs_and_calls Q) t2 (after_check h b t2).2).
  { unfold after_check.
    assert (E : Android.clone_or_update h b t2
                = (if negb (String.eqb (Android.conf_p4a_commit b) "HEAD")
                   then bind (Android.git ["reset"; "--hard";
                                           Android.conf_p4a_commit b] dir [])
                             (λ _, ret ())
                   else ret ()) t2).
    { unfold Android.clone_or_update.
      unfold bind at 1, observe at 1, gets at 1. fold dir.
      change (world t2) with w2. rewrite Hstill, Hupd. reflexivity. }
    unfold bind at 1. rewrite E.
    destruct (String.eqb_spec (Android.conf_p4a_commit b) "HEAD")
      as [Hhead|Hother]; cbn [negb].
    - cbn [ret].
      eapply delta_sub; [|apply requirements_walk].
      intros e; destruct e; cbn; try tauto. unfold Q. tauto.
    - unfold bind at 1, Android.git, host_call.
      change (Cmd ("git" :: _) (Some dir) []) with (git_reset_cmd h b).
      change (world t2) with w2.
      destruct (call (git_reset_cmd h b) w2) as [[r|e] w3]; cbn [ret snd].
      + etrans; [apply (delta_call (logs_and_calls Q)); cbn; by left|].
        eapply delta_sub; [|apply requirements_walk].
        intros e; destruct e; cbn; try tauto. unfold Q. tauto.
      + apply (delta_call (logs_and_calls Q)). cbn. by left. }
  destruct (delta_calls _ _ _ D) as (d & E & F & _).
  exists (host_calls d). split; [by rewrite E, host_calls_app, Ht2, <- app_assoc|].
  split.
  - eapply Forall_impl; [exact F|]. unfold Q. intros c [[_ ->]|Hp]; tauto.
  - intros Hhead. eapply Forall_impl; [exact F|].
    unfold Q. intros c [[Hn _]|Hp]; [done|done].
Qed.
End Requirements.

Section Bridge.
Context {W : Type} `{BuildOps W} (b : buildozer).
Implicit Types t : target W.

Lemma collect_serials_blank lines acc :
  Exists (λ l, is_device_line l = true ∧ Py.split_ws l = []) lines →
  Android.collect_serials lines acc = Raise IndexError.
Proof.
  intros Hex. revert acc.
  induction Hex as [line rest [Hdev Hblank]|line rest _ IH]; intros acc.
  - cbn [Android.collect_serials]. unfold is_device_line in Hdev.
    apply andb_true_iff in Hdev as [Hdev Hlist].
    apply andb_true_iff in Hdev as [Htruthy Hstar].
    apply negb_true_iff in Hstar, Hlist.
    by rewrite Htruthy, Hstar, Hlist, Hblank.
  - cbn [Android.collect_serials].
    destruct (negb (truthy line)); [apply IH|].
    destruct (Py.startswith line "*" || Py.startswith line "List ");
      [apply IH|].
    destruct (Py.split_ws line !! 0%nat); [apply IH|done].
Qed.

(** X14.  When the enumeration of the devices fails, nothing is cached
    and the failure is passed on: this holds when the bridge itself
    fails, and also when its listing holds a line of blanks only (not
    empty, but without a field), on which the first-field lookup raises
    [IndexError].  The call to the bridge has been made. *)
Theorem failed_enumeration_caches_nothing t res w :
  _serials t = None →
  os_environ t !! "ANDROID_SERIAL" = None
  ∨ os_environ t !! "ANDROID_SERIAL" = Some "" →
  call (devices_cmd b) (world t) = (res, w) →
  let after := set_world w (emit (Host (devices_cmd b)) t) in
  (∀ e, res = Raise e → Android.serials b t = (Raise e, after))
  ∧ (∀ r, res = Ok r →
     Exists (λ l, is_device_line l = true ∧ Py.split_ws l = [])
            (Py.splitlines (stdout r)) →
     Android.serials b t = (Raise IndexError, after))
  ∧ _serials after = None.
Proof.
  intros Hnone Henv Hcall after.
  assert (E : Android.serials b t = Android.enumerate_serials b t).
  { rewrite serials_unfold, Hnone. by destruct Henv as [-> | ->]. }
  assert (E' : Android.enumerate_serials b t
               = match res with
                 | Ok r =>
                     match Android.collect_serials
                             (Py.splitlines (stdout r)) [] with
                     | Ok serials =>
                         (Ok serials, set_serials (Some serials) after)
                     | Raise e => (Raise e, after)
                     end
                 | Raise e => (Raise e, after)
                 end).
  { unfold Android.enumerate_serials, bind, host_call.
    fold (devices_cmd b). rewrite Hcall. destruct res as [r|e]; [|done].
    by destruct (Android.collect_serials _ _). }
  rewrite E, E'. split; [|split].
  - by intros e ->.
  - intros r -> Hblank. by rewrite (collect_serials_blank _ [] Hblank).
  - done.
Qed.
End Bridge.

Section SigningReport.
Context {W : Type}.
Implicit Types t : target W.

Lemma check_keys_report error keys check t :
  ∃ t', (Android.check_keys error keys check t).2 = t'
        ∧ world t' = world t ∧ state t' = state t
        ∧ trace t'
          = trace t
            ++ (if error
                then missing_key_error
                       <$> List.filter (unset (os_environ t))
                             ((λ k, "P4A_RELEASE_" +:+ k) <$> keys)
                else []).
Proof.
  revert check t. induction keys as [|key rest IH]; intros check t.
  - eexists. split; [done|]. cbn. destruct error; by rewrite app_nil_r.
  - cbn [Android.check_keys fmap list_fmap List.filter].
    unfold bind at 1, gets at 1. unfold unset at 1.
    destruct (os_environ t !! ("P4A_RELEASE_" +:+ key)) as [v|] eqn:E.
    + rewrite bool_decide_true by eauto. cbn [negb]. apply IH.
    + rewrite bool_decide_false by (intros [? ?]; done). cbn [negb].
      destruct error.
      * unfold bind at 1, log, modify.
        destruct (IH false (emit (Log Error
                    ("Asking for release but " +:+ ("P4A_RELEASE_" +:+ key)
                     +:+ " is missing--sign will not be passed")) t))
          as (t' & E' & Hw & Hs & Ht).
        exists t'. split; [done|]. split; [done|]. split; [done|].
        rewrite Ht. cbn [trace emit os_environ fmap list_fmap].
        by rewrite <- app_assoc.
      * unfold bind at 1, ret.
        destruct (IH false t) as (t' & E' & Hw & Hs & Ht).
        exists t'. done.
Qed.

(** X15.  [check_p4a_sign_env] changes nothing but the log.  Asked to
    report ([error=True]), it logs one error line for every
    [P4A_RELEASE_*] variable that is missing from the environment, in the
    order KEYALIAS, KEYSTORE_PASSWD, KEYSTORE, KEYALIAS_PASSWD, and none
    for a variable that is set; it still checks the remaining variables
    after one is found missing.  Not asked, it logs nothing. *)
Theorem sign_env_reports_each_missing_key error t :
  let t' := (Android.check_p4a_sign_env error t).2 in
  world t' = world t ∧ state t' = state t
  ∧ trace t'
    = trace t
      ++ (if error
          then missing_key_error
                 <$> List.filter (unset (os_environ t)) signing_variables
          else []).
Proof.
  cbv zeta. unfold Android.check_p4a_sign_env.
  destruct (check_keys_report error Android.sign_keys true t)
    as (t' & <- & Hw & Hs & Ht).
  split; [done|]. split; [done|]. exact Ht.
Qed.
End SigningReport.

Lemma source_dir_is_left_alone_witness :
  ∃ d, trace (Android._install_p4a Sim.linux own_p4a
                (Sim.fresh own_p4a_there [])).2 = d
       ∧ Forall (is_pip Sim.linux) (host_calls d).
Proof.
  destruct (source_dir_is_left_alone (H:=Sim.ops) Sim.linux own_p4a
              (Sim.fresh own_p4a_there []) "/src/p4a"
              ltac:(vm_compute; reflexivity) ltac:(discriminate))
    as (_ & _ & Hthere).
  destruct (Hthere ltac:(vm_compute; reflexivity)) as (d & E & F).
  exists d. split; [exact E|exact F].
Defined.

Lemma current_checkout_is_not_fetched_witness :
  ∃ rest,
    host_calls (trace (Android._install_p4a Sim.linux (Sim.project [])
                         (Sim.fresh current_checkout [])).2)
    = [git_remote_cmd p4a_path; git_branch_cmd p4a_path] ++ rest
    ∧ Forall (is_pip Sim.linux) rest.
Proof.
  destruct (current_checkout_is_not_fetched (H:=Sim.ops) Sim.linux
              (Sim.project []) (Sim.fresh current_checkout [])
              (quiet_reply ("https://github.com/kivy/python-for-android.git"
                            +:+ nl))
              current_checkout
              (quiet_reply "* master 1a2b3c4 [origin/master] tip")
              current_checkout "master"
              ltac:(vm_compute; reflexivity) ltac:(vm_compute; reflexivity)
              ltac:(vm_compute; reflexivity) ltac:(vm_compute; reflexivity)
              ltac:(vm_compute; reflexivity) ltac:(vm_compute; reflexivity)
              ltac:(vm_compute; reflexivity) ltac:(vm_compute; reflexivity)
              ltac:(vm_compute; reflexivity)) as (rest & E & _ & Hhead).
  exists rest. split; [exact E|]. apply Hhead. vm_compute. reflexivity.
Defined.

Lemma failed_enumeration_caches_nothing_witness :
  (Android.serials (Sim.project []) (Sim.fresh blank_line_bridge [])).1
  = Raise IndexError.
Proof.
  destruct (failed_enumeration_caches_nothing (H:=Sim.ops) (Sim.project [])
              (Sim.fresh blank_line_bridge [])
              (Ok (quiet_reply ("List of devices attached" +:+ nl +:+
                                "emulator-5554" +:+ tab +:+ "device"
                                +:+ nl +:+ "  " +:+ nl)))
              blank_line_bridge
              eq_refl ltac:(left; vm_compute; reflexivity)
              ltac:(vm_compute; reflexivity)) as (_ & Hblank & _).
  rewrite (Hblank _ eq_refl); [done|].
  vm_compute. do 2 apply Exists_cons_tl. apply Exists_cons_hd. done.
Defined.

Section BranchListing.
Context {W : Type} `{BuildOps W} (h : host) (b : buildozer).
Implicit Types t : target W.

(** X16.  The current branch of an existing checkout is read as the
    second whitespace-separated field of the output of [git branch -vv].
    When that output has fewer than two fields (an empty listing, for
    instance), [_install_p4a] raises [IndexError] right after the two git
    queries: the checkout is neither removed nor updated, and the
    requirements are not installed. *)
Theorem short_branch_listing_raises t r1 w1 r2 w2 :
  truthy (default "" (config b !! "p4a.source_dir")) = false →
  file_exists (Android.p4a_dir h b) (world t) = true →
  call (git_remote_cmd (Android.p4a_dir h b)) (world t) = (Ok r1, w1) →
  call (git_branch_cmd (Android.p4a_dir h b)) w1 = (Ok r2, w2) →
  Py.split_ws (stdout r2) !! 1%nat = None →
  Android._install_p4a h b t
  = (Raise IndexError,
     set_world w2 (emit (Host (git_branch_cmd (Android.p4a_dir h b)))
       (set_world w1 (emit (Host (git_remote_cmd (Android.p4a_dir h b))) t)))).
Proof.
  intros Hno Hthere Hremote Hbranch Hfield.
  rewrite (install_p4a_unfold _ _ _ Hno). unfold bind at 1.
  assert (E : Android.drop_changed_checkout h b t
              = (Raise IndexError,
                 set_world w2 (emit (Host (git_branch_cmd (Android.p4a_dir h b)))
                   (set_world w1
                      (emit (Host (git_remote_cmd (Android.p4a_dir h b))) t))))).
  { unfold Android.drop_changed_checkout.
    unfold bind at 1, observe at 1, gets at 1. rewrite Hthere.
    unfold bind at 1, Android.git at 1, host_call at 1.
    fold (git_remote_cmd (Android.p4a_dir h b)). rewrite Hremote.
    unfold bind at 1, Android.git at 1, host_call at 1.
    fold (git_branch_cmd (Android.p4a_dir h b)).
    cbn [world set_world emit]. rewrite Hbranch.
    unfold bind at 1. by rewrite Hfield. }
  by rewrite E.
Qed.
End BranchListing.

Lemma short_branch_listing_raises_witness :
  (Android._install_p4a Sim.linux (Sim.project [])
     (Sim.fresh (with_dirs [p4a_path]) [])).1
  = Raise IndexError.
Proof.
  by rewrite (short_branch_listing_raises (H:=Sim.ops) Sim.linux
                (Sim.project []) (Sim.fresh (with_dirs [p4a_path]) [])
                (quiet_reply "") (with_dirs [p4a_path])
                (quiet_reply "") (with_dirs [p4a_path])
                ltac:(vm_compute; reflexivity) ltac:(vm_compute; reflexivity)
                ltac:(vm_compute; reflexivity) ltac:(vm_compute; reflexivity)
                ltac:(vm_compute; reflexivity)).
Defined.

(* ===================================================================== *)
(** ** Further properties: the library references of [project.properties] *)
(* ===================================================================== *)

Lemma remove_after_kept x kept r :
  Forall (λ y, y ≠ x) kept → Pyx.remove x (kept ++ x :: r) = Some (kept ++ r).
Proof.
  induction 1 as [|y kept Hy _ IH]; cbn.
  - by rewrite String.eqb_refl.
  - apply String.eqb_neq in Hy. by rewrite Hy, IH.
Qed.

Section Libraries.
Context {W : Type} `{BuildOps W} `{FileStore W}.
Context (h : host) (b : buildozer).
Context (getlist : string → list string) (relpath : string → string → string).
Implicit Types t : target W.

Lemma drop_references_filter copy kept t :
  Forall (λ l, is_reference_line l = false) kept →
  Packaging.drop_references copy (kept ++ copy) t
  = (Ok (kept ++ List.filter (λ l, negb (is_reference_line l)) copy), t).
Proof.
  revert kept. induction copy as [|line rest IH]; intros kept Hkept.
  - done.
  - cbn [Packaging.drop_references List.filter].
    change (Py.startswith line Packaging.reference_prefix)
      with (is_reference_line line).
    destruct (is_reference_line line) eqn:Eline; cbn [negb].
    + rewrite remove_after_kept.
      * unfold bind. cbn [from_option ret]. by apply IH.
      * eapply Forall_impl; [exact Hkept|]. intros y Hy ->. congruence.
    + rewrite (cons_middle line kept rest), app_assoc.
      rewrite IH; [by rewrite <- app_assoc|].
      apply Forall_app. split; [done|]. by constructor.
Qed.

(** X17.  The loop that takes the old library references out of the
    lines of [project.properties] never fails, although it removes from
    the list while it walks a copy of it: what is left are exactly the
    lines that do not start with ["android.library.reference."], in their
    order; every reference line is gone, repeated ones included. *)
Theorem stale_references_are_dropped content t :
  Packaging.drop_references content content t
  = (Ok (List.filter (λ l, negb (is_reference_line l)) content), t).
Proof. by apply (drop_references_filter content []). Qed.

Lemma resolve_all_found dist_dir app_references references t :
  Forall (λ cref, file_exists (reference_path h b cref) (world t) = true)
         app_references →
  Packaging.resolve_references h relpath
    (realpath h (expanduser h (getdefault b "source.dir" "."))) dist_dir
    app_references references t
  = (Ok (references
         ++ ((λ cref, relpath (reference_path h b cref)
                        (realpath h (expanduser h dist_dir)))
             <$> app_references)), t).
Proof.
  intros Hall. revert references.
  induction Hall as [|cref rest Hcref _ IH]; intros references.
  - cbn. by rewrite app_nil_r.
  - cbn [Packaging.resolve_references]. unfold bind at 1, observe, gets.
    fold (reference_path h b cref). rewrite Hcref. cbn [negb].
    rewrite IH. cbn [fmap list_fmap]. by rewrite <- app_assoc.
Qed.

Lemma resolve_first_missing dist_dir pre cref post references t :
  Forall (λ cref, file_exists (reference_path h b cref) (world t) = true) pre →
  file_exists (reference_path h b cref) (world t) = false →
  Packaging.resolve_references h relpath
    (realpath h (expanduser h (getdefault b "source.dir" "."))) dist_dir
    (pre ++ cref :: post) references t
  = (Raise (SystemExit 1),
     emit (Log Error ("Invalid library reference (path not found): "
                      +:+ cref)) t).
Proof.
  intros Hpre Hmissing. revert references.
  induction Hpre as [|c pre Hc _ IH]; intros references.
  - cbn [app Packaging.resolve_references]. unfold bind at 1, observe, gets.
    fold (reference_path h b cref). by rewrite Hmissing.
  - cbn [app Packaging.resolve_references]. unfold bind at 1, observe, gets.
    fold (reference_path h b c). rewrite Hc. cbn [negb]. apply IH.
Qed.

Lemma update_references_unfold dist_dir t :
  Packaging._update_libraries_references h b getlist relpath dist_dir t
  = bind (Packaging.resolve_references h relpath
            (realpath h (expanduser h (getdefault b "source.dir" ".")))
            dist_dir (getlist "android.library_references") [])
         (λ references,
            bind (observe
                    (write_file (project_file h dist_dir)
                       (Packaging.recreated
                          (List.filter (λ l, negb (is_reference_line l))
                             (project_lines h b dist_dir (world t)))
                          references)))
                 (λ written,
                    bind (match written with
                          | None => raise (HostError "io.open")
                          | Some w => modify (set_world w)
                          end)
                         (λ _, log Debug "project.properties updated"))) t.
Proof.
  unfold Packaging._update_libraries_references.
  fold (project_file h dist_dir).
  unfold bind at 1, observe at 1, gets at 1.
  assert (E : ∀ content : list string → M W unit,
            bind (if negb (file_exists (project_file h dist_dir) (world t))
                  then ret ["target=android-" +:+ Android.android_api b
                              +:+ String "010" EmptyString;
                            "APP_PLATFORM=" +:+ Android.android_minapi b
                              +:+ String "010" EmptyString]
                  else observe (readlines (project_file h dist_dir))) content t
            = content (project_lines h b dist_dir (world t)) t).
  { intros content. unfold project_lines.
    by destruct (file_exists (project_file h dist_dir) (world t)). }
  rewrite E. unfold bind at 1.
  change (Packaging.drop_references (project_lines h b dist_dir (world t))
            (project_lines h b dist_dir (world t)) t)
    with (Packaging.drop_references (project_lines h b dist_dir (world t))
            ([] ++ project_lines h b dist_dir (world t)) t).
  by rewrite (drop_references_filter _ [] t (Forall_nil_2 _)).
Qed.

(** X18.  A configured library reference that does not exist stops
    [_update_libraries_references] before the project file is opened for
    writing: the error names the first such reference, the process exits
    with status 1, and the machine, the project file with it, is as it
    was. *)
Theorem missing_reference_exits_before_writing dist_dir pre cref post t :
  getlist "android.library_references" = pre ++ cref :: post →
  Forall (λ cref, file_exists (reference_path h b cref) (world t) = true) pre →
  file_exists (reference_path h b cref) (world t) = false →
  Packaging._update_libraries_references h b getlist relpath dist_dir t
  = (Raise (SystemExit 1),
     emit (Log Error ("Invalid library reference (path not found): "
                      +:+ cref)) t).
Proof.
  intros Hrefs Hpre Hmissing. rewrite update_references_unfold, Hrefs.
  unfold bind at 1. by rewrite resolve_first_missing.
Qed.

Lemma recreated_pieces content crefs dist_dir :
  Packaging.recreated content
    ((λ cref, relpath (reference_path h b cref)
                (realpath h (expanduser h dist_dir))) <$> crefs)
  = content ++ closing_break content
    ++ imap (reference_entry h b relpath dist_dir) crefs.
Proof.
  unfold Packaging.recreated, closing_break, Packaging.numbered.
  f_equal. f_equal.
  - destruct (last content) as [line|]; [|done].
    by destruct (Pyx.endswith line _).
  - by rewrite imap_fmap.
Qed.

(** X19.  When every configured library reference exists,
    [_update_libraries_references] recreates the project file from three
    parts, in this order: the lines it had (or, if it did not exist, the
    [target] and [APP_PLATFORM] lines) without any old reference line; a
    line break when the last of these lines has none; and one line
    [android.library.reference.<n>=<relative path>] per configured
    reference, numbered from 1 in the order of the configuration.  It
    then logs that the file was updated and does nothing else. *)
Theorem project_file_is_recreated dist_dir t :
  Forall (λ cref, file_exists (reference_path h b cref) (world t) = true)
         (getlist "android.library_references") →
  let kept := List.filter (λ l, negb (is_reference_line l))
                (project_lines h b dist_dir (world t)) in
  let pieces := kept ++ closing_break kept
                ++ imap (reference_entry h b relpath dist_dir)
                     (getlist "android.library_references") in
  Packaging._update_libraries_references h b getlist relpath dist_dir t
  = match write_file (project_file h dist_dir) pieces (world t) with
    | Some w =>
        (Ok (), emit (Log Debug "project.properties updated") (set_world w t))
    | None => (Raise (HostError "io.open"), t)
    end.
Proof.
  intros Hall kept pieces. rewrite update_references_unfold.
  unfold bind at 1. rewrite resolve_all_found by done.
  cbn [app]. unfold bind at 1, observe, gets.
  rewrite recreated_pieces. fold kept. fold pieces.
  by destruct (write_file (project_file h dist_dir) pieces (world t)).
Qed.
End Libraries.

Lemma missing_reference_exits_before_writing_witness :
  let run := Packaging._update_libraries_references Sim.linux in_w
               (references ["libs/gone"]) Disk.relpath dist_dir
               (Disk.fresh old_project) in
  run.1 = Raise (SystemExit 1) ∧ world run.2 = old_project.
Proof.
  intros run. subst run.
  rewrite (missing_reference_exits_before_writing (H:=Disk.ops)
             (H0:=Disk.store) Sim.linux in_w (references ["libs/gone"])
             Disk.relpath dist_dir [] "libs/gone" [] (Disk.fresh old_project)
             ltac:(vm_compute; reflexivity) ltac:(constructor)
             ltac:(vm_compute; reflexivity)).
  split; reflexivity.
Defined.

Lemma project_file_is_recreated_witness :
  let run := Packaging._update_libraries_references Sim.linux in_w
               (references ["libs/billing"]) Disk.relpath dist_dir
               (Disk.fresh old_project) in
  run.1 = Ok ()
  ∧ Disk.texts (world run.2) !! (dist_dir +:+ "/project.properties")
    = Some ["target=android-31" +:+ nl; "APP_PLATFORM=21"; nl;
            "android.library.reference.1=../../../../../../w/libs/billing"
              +:+ nl].
Proof.
  intros run. subst run.
  rewrite (project_file_is_recreated (H:=Disk.ops) (H0:=Disk.store)
             Sim.linux in_w (references ["libs/billing"]) Disk.relpath
             dist_dir (Disk.fresh old_project)
             ltac:(vm_compute; repeat constructor)).
  vm_compute. split; reflexivity.
Defined.

(* ===================================================================== *)
(** ** Further properties: the AndroidX default *)
(* ===================================================================== *)

Lemma digit_code c :
  Py.is_digit c = true → (48 ≤ nat_of_ascii c ≤ 57)%nat.
Proof.
  unfold Py.is_digit. rewrite andb_true_iff, !Nat.leb_le. lia.
Qed.

Lemma int_go_split s acc :
  all_digits s →
  Py.int_go acc s = acc * 10 ^ Z.of_nat (String.length s) + Py.int_go 0 s
  ∧ 0 ≤ Py.int_go 0 s < 10 ^ Z.of_nat (String.length s).
Proof.
  unfold all_digits. revert acc.
  induction s as [|c s IH]; intros acc Hd; cbn [Py.int_go String.length].
  - change (10 ^ Z.of_nat 0) with 1. lia.
  - cbn in Hd. apply Forall_cons in Hd as [Hc Hs].
    apply digit_code in Hc.
    destruct (IH (10 * acc + (Z.of_nat (nat_of_ascii c) - 48)) Hs) as [E1 _].
    destruct (IH (10 * 0 + (Z.of_nat (nat_of_ascii c) - 48)) Hs) as [E2 Hb].
    rewrite E1, E2, Nat2Z.inj_succ, Z.pow_succ_r by lia.
    set (P := 10 ^ Z.of_nat (String.length s)) in *.
    set (v := Py.int_go 0 s) in *.
    split; nia.
Qed.

(** on digit strings of one length, the order of [str] is the order of
    the numbers *)
Lemma str_ltb_digits a c :
  all_digits a → all_digits c → String.length a = String.length c →
  Pyx.str_ltb a c = (Py.int a <? Py.int c).
Proof.
  unfold Py.int. revert c.
  induction a as [|x a IH]; intros [|y c] Ha Hc Hlen; try done.
  cbn [Pyx.str_ltb Py.int_go]. injection Hlen as Hlen.
  pose proof Ha as Ha'. pose proof Hc as Hc'.
  unfold all_digits in Ha', Hc'. cbn in Ha', Hc'.
  apply Forall_cons in Ha' as [Hx Ha'], Hc' as [Hy Hc'].
  apply digit_code in Hx, Hy.
  rewrite (IH c Ha' Hc' Hlen).
  destruct (int_go_split a (10 * 0 + (Z.of_nat (nat_of_ascii x) - 48)) Ha')
    as [-> _].
  destruct (int_go_split c (10 * 0 + (Z.of_nat (nat_of_ascii y) - 48)) Hc')
    as [-> _].
  destruct (int_go_split a 0 Ha') as [_ Hba].
  destruct (int_go_split c 0 Hc') as [_ Hbc].
  rewrite <- Hlen in *.
  set (P := 10 ^ Z.of_nat (String.length a)) in *.
  set (va := Py.int_go 0 a) in *. set (vc := Py.int_go 0 c) in *.
  destruct (Nat.ltb_spec (nat_of_ascii x) (nat_of_ascii y)) as [Hlt|Hge];
    cbn [orb].
  - symmetry. apply Z.ltb_lt. nia.
  - destruct (Nat.eqb_spec (nat_of_ascii x) (nat_of_ascii y)) as [Heq|Hne];
      cbn [andb].
    + rewrite Heq. destruct (Z.ltb_spec va vc), (Z.ltb_spec
        ((10 * 0 + (Z.of_nat (nat_of_ascii y) - 48)) * P + va)
        ((10 * 0 + (Z.of_nat (nat_of_ascii y) - 48)) * P + vc)); try done; lia.
    + symmetry. apply Z.ltb_ge. nia.
Qed.

Section AndroidX.
Context (b : buildozer).

(** X20.  The default of [android.enable_androidx] is the comparison of
    [android.api] with ["28"] as text.  For an API level of two digits
    that is the comparison of the numbers: the default is on above 28.
    For other levels it is not: a level of one digit gets AndroidX by
    default from 3 on, and a level of three digits only from 280 on. *)
Theorem androidx_default_compares_text :
  let api := Android.android_api b in
  all_digits api →
  (String.length api = 2%nat →
   Packaging.androidx_default b = (28 <? Py.int api))
  ∧ (String.length api = 1%nat →
     Packaging.androidx_default b = (3 <=? Py.int api))
  ∧ (String.length api = 3%nat →
     Packaging.androidx_default b = (280 <=? Py.int api)).
Proof.
  intros api Hd. unfold Packaging.androidx_default. fold api.
  split; [|split]; intros Hlen.
  - rewrite str_ltb_digits; [done| |done|done].
    repeat constructor.
  - destruct api as [|x [|? ?]]; try done.
    unfold all_digits in Hd. cbn in Hd.
    apply Forall_cons in Hd as [Hx _]. apply digit_code in Hx.
    unfold Py.int. cbn [Pyx.str_ltb Py.int_go].
    rewrite andb_false_r, orb_false_r.
    change (nat_of_ascii "2") with 50%nat.
    destruct (Nat.ltb_spec 50 (nat_of_ascii x)),
      (Z.leb_spec 3 (10 * 0 + (Z.of_nat (nat_of_ascii x) - 48)));
      try done; lia.
  - destruct api as [|x [|y [|z [|? ?]]]]; try done.
    unfold all_digits in Hd. cbn in Hd.
    apply Forall_cons in Hd as [Hx Hd]. apply Forall_cons in Hd as [Hy Hd].
    apply Forall_cons in Hd as [Hz _].
    apply digit_code in Hx, Hy, Hz.
    unfold Py.int. cbn [Pyx.str_ltb Py.int_go].
    rewrite andb_true_r.
    change (nat_of_ascii "2") with 50%nat.
    change (nat_of_ascii "8") with 56%nat.
    destruct (Nat.ltb_spec 50 (nat_of_ascii x)),
      (Nat.eqb_spec 50 (nat_of_ascii x)),
      (Nat.ltb_spec 56 (nat_of_ascii y)),
      (Nat.eqb_spec 56 (nat_of_ascii y)),
      (Z.leb_spec 280
         (10 * (10 * (10 * 0 + (Z.of_nat (nat_of_ascii x) - 48))
                + (Z.of_nat (nat_of_ascii y) - 48))
          + (Z.of_nat (nat_of_ascii z) - 48)));
      cbn [orb andb]; try done; lia.
Qed.
End AndroidX.

Lemma androidx_default_compares_text_witness :
  Packaging.androidx_default (Sim.project [("android.api", "9")]) = true
  ∧ Packaging.androidx_default (Sim.project [("android.api", "100")]) = false.
Proof.
  split.
  - by rewrite (proj1 (proj2 (androidx_default_compares_text
                                (Sim.project [("android.api", "9")])
                                ltac:(repeat constructor)))
                  ltac:(vm_compute; reflexivity)).
  - by rewrite (proj2 (proj2 (androidx_default_compares_text
                                (Sim.project [("android.api", "100")])
                                ltac:(repeat constructor)))
                  ltac:(vm_compute; reflexivity)).
Defined.
